(** * Deployment orchestration and infrastructure generation

    A shallow embedding of the JavaScript services of the deployment
    system (InfrastructureManager, RepositoryAnalyzer.detectPort,
    TerraformService and DeploymentService), followed by the properties
    of the specification that were checked against them.

    JavaScript is dynamically typed, so records are embedded as
    property lists of [Js.value] and every method returns a completion:
    either a value or a thrown error. *)

From stdpp Require Import gmap strings list pretty.
From Stdlib Require Import ZArith Ascii.

Open Scope Z_scope.
#[local] Set Warnings "-register-all".

(* ===================================================================== *)
(** ** JavaScript values and the built-ins the services rely on *)
(* ===================================================================== *)

Module Js.

(** Numbers are restricted to integers plus NaN: the services only
    manipulate ports, counts and percentages. [Fun] stands for a
    built-in function object, of which only the name matters. *)
Inductive value : Type :=
  | Undefined
  | Null
  | Bool (b : bool)
  | Num (n : Z)
  | NaN
  | Str (s : string)
  | Arr (elems : list value)
  | Obj (props : list (string * value))
  | Fun (name : string).

Inductive error : Type :=
  | TypeError (message : string)
  | Error (message : string).

Definition message (e : error) : string :=
  match e with TypeError m | Error m => m end.

(** Completion of an evaluation: normal return or throw. *)
Inductive completion (A : Type) : Type :=
  | Return (a : A)
  | Throw (e : error).
Arguments Return {A} a.
Arguments Throw {A} e.

#[global] Instance completion_ret : MRet completion := λ A a, Return a.
#[global] Instance completion_bind : MBind completion := λ A B k m,
  match m with
  | Return a => k a
  | Throw e => Throw e
  end.

Definition truthy (v : value) : bool :=
  match v with
  | Undefined | Null | NaN => false
  | Bool b => b
  | Num n => negb (n =? 0)
  | Str s => negb (String.eqb s "")
  | Arr _ | Obj _ | Fun _ => true
  end.

(** [a || b] and [a && b] on values. *)
Definition or (a b : value) : value := if truthy a then a else b.
Definition and (a b : value) : value := if truthy a then b else a.

(** Strict equality on primitives. Two object or array values that are
    compared by [===] in the services are always distinct allocations,
    hence unequal. *)
Definition strict_eq (a b : value) : bool :=
  match a, b with
  | Undefined, Undefined | Null, Null => true
  | Bool x, Bool y => Bool.eqb x y
  | Num x, Num y => x =? y
  | Str x, Str y => String.eqb x y
  | _, _ => false
  end.

Fixpoint assoc (k : string) (props : list (string * value)) : value :=
  match props with
  | [] => Undefined
  | (k', v) :: rest => if String.eqb k k' then v else assoc k rest
  end.

(** The own properties of [Object.prototype], which every plain object
    inherits; [__proto__] reads back the prototype object itself. *)
Definition object_prototype : list (string * value) :=
  [ ("constructor", Fun "Object");
    ("__defineGetter__", Fun "__defineGetter__");
    ("__defineSetter__", Fun "__defineSetter__");
    ("hasOwnProperty", Fun "hasOwnProperty");
    ("__lookupGetter__", Fun "__lookupGetter__");
    ("__lookupSetter__", Fun "__lookupSetter__");
    ("isPrototypeOf", Fun "isPrototypeOf");
    ("propertyIsEnumerable", Fun "propertyIsEnumerable");
    ("toString", Fun "toString");
    ("valueOf", Fun "valueOf");
    ("__proto__", Obj []);
    ("toLocaleString", Fun "toLocaleString") ].

Definition has_own (k : string) (props : list (string * value)) : bool :=
  existsb (λ p, String.eqb k p.1) props.

(** Member lookup on a plain object: own properties first, then the
    prototype. *)
Definition member (props : list (string * value)) (k : string) : value :=
  if has_own k props then assoc k props else assoc k object_prototype.

(** The double quote character, for the shell and HCL text the services
    generate. *)
Definition dq : string := String "034"%char EmptyString.
Definition nl : string := String "010"%char EmptyString.

(** Property read [o.k] / [o[k]]; reading through [undefined] or [null]
    throws. *)
Definition get (o : value) (k : string) : completion value :=
  match o with
  | Undefined => Throw (TypeError ("Cannot read properties of undefined (reading '" +:+ k +:+ "')"))
  | Null => Throw (TypeError ("Cannot read properties of null (reading '" +:+ k +:+ "')"))
  | Obj props => Return (member props k)
  | Arr elems =>
      Return (if String.eqb k "length" then Num (Z.of_nat (length elems)) else Undefined)
  | Str s =>
      Return (if String.eqb k "length" then Num (Z.of_nat (String.length s)) else Undefined)
  | _ => Return Undefined
  end.

(** Property write on an object literal under construction or on a
    record: an existing key keeps its position. *)
Fixpoint set (k : string) (v : value) (props : list (string * value))
  : list (string * value) :=
  match props with
  | [] => [(k, v)]
  | (k', v') :: rest =>
      if String.eqb k k' then (k, v) :: rest else (k', v') :: set k v rest
  end.

(** Object spread: [{...a, ...b}]. *)
Definition spread (a b : list (string * value)) : list (string * value) :=
  fold_left (λ acc p, set p.1 p.2 acc) b a.

(** ToString, as performed by template literals. *)
Fixpoint to_string (v : value) : string :=
  match v with
  | Undefined => "undefined"
  | Null => "null"
  | Bool true => "true"
  | Bool false => "false"
  | Num n => pretty n
  | NaN => "NaN"
  | Str s => s
  | Arr elems =>
      String.concat ","
        (map (λ e, match e with Undefined | Null => "" | _ => to_string e end) elems)
  | Obj _ => "[object Object]"
  | Fun name => "function " +:+ name +:+ "() { [native code] }"
  end.

(** *** Strings *)

Fixpoint starts_with (pat s : string) : bool :=
  match pat, s with
  | EmptyString, _ => true
  | String p pat', String c s' => if Ascii.eqb p c then starts_with pat' s' else false
  | String _ _, EmptyString => false
  end.

(** [s.includes(pat)] on strings. *)
Fixpoint includes (s pat : string) : bool :=
  starts_with pat s ||
  match s with
  | EmptyString => false
  | String _ s' => includes s' pat
  end.

(** [toLowerCase] on the ASCII range, which is where environment
    variable names, framework names and statuses live; other bytes are
    passed through unchanged. *)
Definition lower_char (c : ascii) : ascii :=
  let n := nat_of_ascii c in
  if ((65 <=? n) && (n <=? 90))%nat then ascii_of_nat (n + 32) else c.

Fixpoint toLowerCase (s : string) : string :=
  match s with
  | EmptyString => EmptyString
  | String c s' => String (lower_char c) (toLowerCase s')
  end.

(** The strings of the ASCII range. On them [toLowerCase] above is
    [String.prototype.toLowerCase] and a character is one UTF-16 code
    unit; outside them the library lowers by the Unicode tables (the
    Kelvin sign becomes [k]), which this development does not carry.
    Statements that depend on the lowering or on counting characters
    are made for these strings. *)
Fixpoint ascii_only (s : string) : bool :=
  match s with
  | EmptyString => true
  | String c s' => (nat_of_ascii c <? 128)%nat && ascii_only s'
  end.

(** [s.substring(0, n)]. *)
Fixpoint take_string (n : nat) (s : string) : string :=
  match n, s with
  | S n', String c s' => String c (take_string n' s')
  | _, _ => EmptyString
  end.

(** *** Arrays *)

(** [arr.includes(x)]: SameValueZero, which additionally equates NaN
    with itself. On a string receiver [includes] is the substring test. *)
Definition same_value_zero (a b : value) : bool :=
  match a, b with
  | NaN, NaN => true
  | _, _ => strict_eq a b
  end.

Definition method_includes (recv x : value) : completion bool :=
  match recv with
  | Arr elems => Return (existsb (same_value_zero x) elems)
  | Str s => Return (includes s (to_string x))
  | Undefined | Null =>
      Throw (TypeError "Cannot read properties of undefined (reading 'includes')")
  | _ => Throw (TypeError "includes is not a function")
  end.

(** [stages.indexOf(x)] on an array literal, -1 when absent. *)
Fixpoint indexOf_from (i : Z) (x : value) (elems : list value) : Z :=
  match elems with
  | [] => -1
  | e :: rest => if strict_eq e x then i else indexOf_from (i + 1) x rest
  end.
Definition indexOf (elems : list value) (x : value) : Z := indexOf_from 0 x elems.

(** [Object.keys(v)] for a value that passed a truthiness test. *)
Definition Object_keys (v : value) : list string :=
  match v with
  | Obj props => map fst props
  | Arr elems => map (λ i, pretty (Z.of_nat i)) (seq 0 (length elems))
  | Str s => map (λ i, pretty (Z.of_nat i)) (seq 0 (String.length s))
  | _ => []
  end.

(** [v > k] against a numeric literal. Only numbers are ordered here;
    any other operand behaves like NaN and compares false (numeric strings,
    which JavaScript would coerce, do not occur as lengths). *)
Definition gt (v : value) (k : Z) : bool :=
  match v with
  | Num n => k <? n
  | _ => false
  end.

(** [recv.substring(0, n)] as a method call. *)
Definition method_substring (recv : value) (n : nat) : completion string :=
  match recv with
  | Str s => Return (take_string n s)
  | Undefined | Null =>
      Throw (TypeError "Cannot read properties of undefined (reading 'substring')")
  | _ => Throw (TypeError "substring is not a function")
  end.

(** [recv.toLowerCase()] as a method call. *)
Definition method_toLowerCase (recv : value) : completion string :=
  match recv with
  | Str s => Return (toLowerCase s)
  | Undefined | Null =>
      Throw (TypeError "Cannot read properties of undefined (reading 'toLowerCase')")
  | _ => Throw (TypeError "toLowerCase is not a function")
  end.

(** [recv.filter(pred)] as a method call, for a predicate that may throw. *)
Fixpoint filter_elems (pred : value → completion bool) (elems : list value)
  : completion (list value) :=
  match elems with
  | [] => Return []
  | e :: rest =>
      b ← pred e;
      kept ← filter_elems pred rest;
      mret (if b : bool then e :: kept else kept)
  end.

Definition method_filter (recv : value) (pred : value → completion bool)
  : completion value :=
  match recv with
  | Arr elems => kept ← filter_elems pred elems; mret (Arr kept)
  | Undefined | Null =>
      Throw (TypeError "Cannot read properties of undefined (reading 'filter')")
  | _ => Throw (TypeError "filter is not a function")
  end.

(** [patterns.some(pred)] over an array literal of strings. *)
Fixpoint some_pattern (pred : string → completion bool) (patterns : list string)
  : completion bool :=
  match patterns with
  | [] => Return false
  | p :: rest => b ← pred p; if b : bool then mret true else some_pattern pred rest
  end.

(** [Math.round(n / d * 100)]-style rounding of a ratio, computed
    exactly: round(q) = floor(q + 1/2). *)
Definition round_ratio (n d : Z) : Z := (2 * n + d) `div` (2 * d).

End Js.

Import Js.

(* ===================================================================== *)
(** ** The process environment and the effect monad *)
(* ===================================================================== *)

(** Everything a service method can observe or change besides its
    arguments. The in-memory deployment table maps an id to the address
    of a record object, so that two ids may share one mutable record.
    [spawned] lists the calls of [spawn], which the services use for the
    provisioning binary only; the programs that are consulted through
    [execSync] (the AWS command line) or through a library (git) run as
    children of their own and are not listed. *)
Record World : Type := mkWorld {
  clock : Z;                                   (* Date.now() *)
  entropy : list Z;                            (* draws of Math.random, scaled *)
  environ : gmap string string;                (* process.env *)
  cwd : string;                                (* process.cwd() *)
  files : gset (list string);                  (* absolute paths on disk, as segments *)
  logged : list (string * string);             (* logger calls: level, message *)
  spawned : list (string * list string);       (* calls of spawn: the provisioning binary, its arguments *)
  deployments : gmap string nat;               (* DeploymentService.deployments *)
  heap : gmap nat (list (string * value));     (* record objects *)
}.

Definition M (A : Type) : Type := World → completion A * World.

#[global] Instance M_ret : MRet M := λ A a w, (Return a, w).
#[global] Instance M_bind : MBind M := λ A B k m w,
  match m w with
  | (Return a, w') => k a w'
  | (Throw e, w') => (Throw e, w')
  end.

#[global] Instance M_fmap : FMap M := λ A B f m w,
  match m w with
  | (Return a, w') => (Return (f a), w')
  | (Throw e, w') => (Throw e, w')
  end.

Definition lift {A} (c : completion A) : M A := λ w, (c, w).

(** A call whose completion is decided outside the process; what the
    program that answers does on its own is not part of the state. *)
Definition external {A} (f : World → completion A) : M A := λ w, (f w, w).
Definition throw {A} (e : error) : M A := λ w, (Throw e, w).

(** [try { m } catch (error) { h error }]. *)
Definition try_catch {A} (m : M A) (h : error → M A) : M A := λ w,
  match m w with
  | (Return a, w') => (Return a, w')
  | (Throw e, w') => h e w'
  end.

Definition log (level msg : string) : M unit := λ w,
  (Return (),
   mkWorld (clock w) (entropy w) (environ w) (cwd w) (files w)
           (logged w ++ [(level, msg)]) (spawned w) (deployments w) (heap w)).

(** [m] run from [w] returns normally, with a result and final world
    satisfying [Q]; respectively throws an error satisfying [Q]. *)
Definition returns {A} (m : M A) (w : World) (Q : A → World → Prop) : Prop :=
  ∃ a w', m w = (Return a, w') ∧ Q a w'.
Definition throws {A} (m : M A) (w : World) (Q : error → World → Prop) : Prop :=
  ∃ e w', m w = (Throw e, w') ∧ Q e w'.

Definition now : M Z := λ w, (Return (clock w), w).

(** [setTimeout]-based delay: time passes. The timer fires after at
    least [ms] milliseconds; by how much it overruns is decided outside
    the program and read from [overrun]. *)
Definition delay (ms : Z) (overrun : World → Z) : M unit := λ w,
  (Return (),
   mkWorld (clock w + ms + Z.max 0 (overrun w)) (entropy w) (environ w) (cwd w) (files w)
           (logged w) (spawned w) (deployments w) (heap w)).

(** [Math.random()], scaled by the caller; the draws come from the world
    (an exhausted source keeps drawing 0). *)
Definition random : M Z := λ w,
  match entropy w with
  | [] => (Return 0, w)
  | r :: rest =>
      (Return r,
       mkWorld (clock w) rest (environ w) (cwd w) (files w)
               (logged w) (spawned w) (deployments w) (heap w))
  end.

(** *** Paths and the file system *)

(** Split a path at its separators. *)
Fixpoint segments_go (acc : string) (p : string) : list string :=
  match p with
  | EmptyString => [String.rev acc]
  | String c p' =>
      if Ascii.eqb c "/"%char then String.rev acc :: segments_go EmptyString p'
      else segments_go (String c acc) p'
  end.
Definition segments (p : string) : list string := segments_go EmptyString p.

(** Normalisation of an absolute path, as done by path resolution:
    empty and [.] segments vanish, [..] removes the segment before it
    and has no effect at the root. *)
Fixpoint normalize_go (done : list string) (todo : list string) : list string :=
  match todo with
  | [] => rev done
  | seg :: rest =>
      if String.eqb seg "" || String.eqb seg "." then normalize_go done rest
      else if String.eqb seg ".." then
        match done with
        | [] => normalize_go [] rest
        | _ :: done' => normalize_go done' rest
        end
      else normalize_go (seg :: done) rest
  end.
Definition normalize (segs : list string) : list string := normalize_go [] segs.

Definition is_absolute (p : string) : bool := starts_with "/" p.

(** The error [path.join] raises on an argument that is not a string. *)
Definition invalid_path_argument : error :=
  TypeError ("The " +:+ dq +:+ "path" +:+ dq +:+ " argument must be of type string").

(** Normalisation of a relative path: a [..] that has no segment
    before it to remove is kept, as is every [..] after it. *)
Fixpoint normalize_relative_go (done : list string) (todo : list string) : list string :=
  match todo with
  | [] => rev done
  | seg :: rest =>
      if String.eqb seg "" || String.eqb seg "." then normalize_relative_go done rest
      else if String.eqb seg ".." then
        match done with
        | [] => normalize_relative_go [".."] rest
        | previous :: done' =>
            if String.eqb previous ".." then normalize_relative_go (".." :: done) rest
            else normalize_relative_go done' rest
        end
      else normalize_relative_go (seg :: done) rest
  end.
Definition normalize_relative (segs : list string) : list string :=
  normalize_relative_go [] segs.

(** The path ends in a separator. *)
Fixpoint ends_with_separator (p : string) : bool :=
  match p with
  | EmptyString => false
  | String c EmptyString => Ascii.eqb c "/"%char
  | String _ p' => ends_with_separator p'
  end.

(** [path.join(...parts)]: every part must be a string; the non-empty
    parts are joined with separators and the result is normalised, an
    absolute path below the root, a relative one keeping its leading
    [..] segments, and either keeping a trailing separator. *)
Fixpoint path_parts (parts : list value) : completion (list string) :=
  match parts with
  | [] => Return []
  | Str s :: rest => tl ← path_parts rest; mret (s :: tl)
  | _ :: _ => Throw invalid_path_argument
  end.

Definition path_join (parts : list value) : completion string :=
  strs ← path_parts parts;
  let joined := String.concat "/" (filter (λ s, s ≠ "") strs) in
  let absolute := is_absolute joined in
  let trailing := ends_with_separator joined in
  let body :=
    String.concat "/" (if absolute then normalize (segments joined)
                       else normalize_relative (segments joined)) in
  mret (if String.eqb body "" then
          if absolute then "/" else if trailing then "./" else "."
        else (if absolute then "/" else "") +:+ body +:+ (if trailing then "/" else "")).

(** The absolute location a path denotes for the running process. *)
Definition resolve (w : World) (p : string) : list string :=
  normalize (if is_absolute p then segments p else segments (cwd w) ++ segments p).

Definition with_files (f : gset (list string) → gset (list string)) : M unit := λ w,
  (Return (),
   mkWorld (clock w) (entropy w) (environ w) (cwd w) (f (files w))
           (logged w) (spawned w) (deployments w) (heap w)).

(** [fs.pathExists(p)]. *)
Definition pathExists (p : string) : M bool := λ w,
  (Return (bool_decide (resolve w p ∈ files w)), w).

(** All non-empty prefixes of a segment list: a directory and its
    ancestors. *)
Definition with_ancestors (segs : list string) : list (list string) :=
  map (λ n, take n segs) (seq 1 (length segs)).

(** [fs.ensureDir(p)] and [fs.writeFile(p, _)]: the path exists
    afterwards, together with the directories above it. *)
Definition ensureDir (p : string) : M unit := λ w,
  with_files (λ fs, list_to_set (with_ancestors (resolve w p)) ∪ fs) w.
Definition writeFile (p : string) : M unit := ensureDir p.

(** [fs.remove(p)] when it succeeds: the path and everything below it
    disappear. Whether it succeeds is decided outside the process
    ([fs_remove] below); what a failing removal has already taken away
    is not represented, and nothing is stated about it. *)
Definition remove (p : string) : M unit := λ w,
  with_files (filter (λ q, ¬ (resolve w p `prefix_of` q))) w.

(** [process.env.NAME]. *)
Definition getenv (name : string) : M value := λ w,
  (Return (match environ w !! name with Some v => Str v | None => Undefined end), w).

(** Outcome of one child process: it exits with a code, its captured
    output and the files it left behind, or it cannot be started. *)
Inductive process_outcome : Type :=
  | Exited (code : Z) (stdout stderr : string) (created : list string)
  | SpawnFailed (message : string).

(** What lies outside the process: library formatters, the shell, git,
    the provisioning binary, the file system's verdict on a removal, the
    timers, and the two analysis collaborators, whose results are taken
    as given. *)
Record Externals : Type := mkExternals {
  toISOString : Z → string;                          (* new Date(t).toISOString() *)
  base36 : Z → string;                               (* Math.random().toString(36).substring(2, 15) *)
  execSync : string → World → completion string;     (* trimmed stdout of a shell command *)
  JSON_parse : string → completion value;
  spawn : string → list string → string → World → process_outcome;
  git_clone : string → string → World → completion unit;
  extractZipFile : value → string → World → completion string;
  analyzeCodebase : value → World → completion value;
  processDeploymentDescription : value → World → completion value;
  generateChatResponse : value → value → value → World → value;
  fs_remove : string → World → completion unit;      (* whether fs.remove(p) succeeds *)
  timer_overrun : Z → World → Z;                     (* how late a timer of the given length fires *)
}.

(* ===================================================================== *)
(** ** InfrastructureManager *)
(* ===================================================================== *)

Module InfrastructureManager.
Section Methods.
Context (ext : Externals).

Definition deploymentStrategies : value :=
  Obj [ ("static", Fun "generateStaticStrategy");
        ("serverless", Fun "generateServerlessStrategy");
        ("container", Fun "generateContainerStrategy");
        ("vm", Fun "generateVMStrategy");
        ("kubernetes", Fun "generateKubernetesStrategy") ].

(** *** Strategy determination helpers *)

Definition shouldUseServerless (codeAnalysis nlpAnalysis : value) : completion value :=
  let serverlessFrameworks := Arr [Str "flask"; Str "fastapi"; Str "express"] in
  databaseRequirements ← get codeAnalysis "databaseRequirements";
  hasSqlite ← method_includes databaseRequirements (Str "sqlite");
  let hasStatelessArchitecture := negb hasSqlite in
  dependencies ← get codeAnalysis "dependencies";
  let lowComplexity :=
    and dependencies (Bool (Z.of_nat (length (Object_keys dependencies)) <? 10)) in
  framework ← get codeAnalysis "framework";
  isServerlessFramework ← method_includes serverlessFrameworks framework;
  if negb isServerlessFramework then mret (Bool false)
  else if negb hasStatelessArchitecture then mret (Bool false)
  else if negb (truthy lowComplexity) then mret lowComplexity
  else
    estimatedTraffic ← get nlpAnalysis "estimatedTraffic";
    mret (Bool (negb (strict_eq estimatedTraffic (Str "high")))).

Definition shouldUseContainer (codeAnalysis nlpAnalysis : value) : completion value :=
  dockerized ← get codeAnalysis "dockerized";
  if truthy dockerized then mret dockerized
  else
    databaseRequirements ← get codeAnalysis "databaseRequirements";
    len ← get databaseRequirements "length";
    if gt len 0 then mret (Bool true)
    else
      scalingRequirements ← get nlpAnalysis "scalingRequirements";
      if strict_eq scalingRequirements (Str "high") then mret (Bool true)
      else
        framework ← get codeAnalysis "framework";
        b ← method_includes (Arr [Str "django"; Str "spring-boot"; Str "laravel"]) framework;
        mret (Bool b).

Definition shouldUseKubernetes (codeAnalysis nlpAnalysis : value) : completion value :=
  estimatedTraffic ← get nlpAnalysis "estimatedTraffic";
  if strict_eq estimatedTraffic (Str "high") then mret (Bool true)
  else
    scalingRequirements ← get nlpAnalysis "scalingRequirements";
    if strict_eq scalingRequirements (Str "high") then mret (Bool true)
    else
      databaseRequirements ← get codeAnalysis "databaseRequirements";
      len ← get databaseRequirements "length";
      if gt len 1 then mret (Bool true)
      else
        requirements ← get nlpAnalysis "requirements";
        b ← method_includes requirements (Str "high-availability");
        mret (Bool b).

(** *** Strategy detail generators *)

Definition strategy_infrastructure (type : string) (services : list string)
    (estimated_cost scalability : string) : value :=
  Obj [ ("type", Str type); ("services", Arr (map Str services));
        ("estimated_cost", Str estimated_cost); ("scalability", Str scalability) ].

Definition generateStaticStrategy (strategy : list (string * value)) :=
  set "complexity" (Str "low")
    (set "infrastructure"
       (strategy_infrastructure "cdn" ["s3"; "cloudfront"] "very_low" "excellent") strategy).

Definition generateServerlessStrategy (strategy : list (string * value)) :=
  set "complexity" (Str "medium")
    (set "infrastructure"
       (strategy_infrastructure "serverless" ["lambda"; "api_gateway"] "low" "auto") strategy).

Definition generateContainerStrategy (strategy : list (string * value)) :=
  set "complexity" (Str "medium")
    (set "infrastructure"
       (strategy_infrastructure "container" ["ecs"; "fargate"; "alb"] "medium" "good") strategy).

Definition generateVMStrategy (strategy : list (string * value)) :=
  set "complexity" (Str "medium")
    (set "infrastructure"
       (strategy_infrastructure "vm" ["ec2"; "elb"] "medium" "manual") strategy).

Definition generateKubernetesStrategy (strategy : list (string * value)) :=
  set "complexity" (Str "high")
    (set "infrastructure"
       (strategy_infrastructure "kubernetes" ["eks"; "alb"] "high" "excellent") strategy).

(** [generator.call(this, strategy, codeAnalysis, nlpAnalysis)]. The
    looked-up value is one of the five generators, or a member inherited
    from [Object.prototype] when the type is not a key of the table:
    [__defineGetter__] and [__defineSetter__] reject their second argument
    (an analysis record is not callable), the other built-ins return
    without touching the strategy, and the prototype object itself has no
    [call] method. *)
Definition call_generator (generator : value) (strategy : list (string * value))
  : completion (list (string * value)) :=
  match generator with
  | Fun name =>
      if String.eqb name "generateStaticStrategy" then mret (generateStaticStrategy strategy)
      else if String.eqb name "generateServerlessStrategy" then mret (generateServerlessStrategy strategy)
      else if String.eqb name "generateContainerStrategy" then mret (generateContainerStrategy strategy)
      else if String.eqb name "generateVMStrategy" then mret (generateVMStrategy strategy)
      else if String.eqb name "generateKubernetesStrategy" then mret (generateKubernetesStrategy strategy)
      else if String.eqb name "__defineGetter__" || String.eqb name "__defineSetter__"
      then Throw (TypeError ("Object.prototype." +:+ name +:+ ": Expecting function"))
      else mret strategy
  | _ => Throw (TypeError "generator.call is not a function")
  end.

Definition generateStrategyDetails (strategy : list (string * value))
    (codeAnalysis nlpAnalysis : value) : completion (list (string * value)) :=
  generator ← get deploymentStrategies (to_string (assoc "type" strategy));
  if truthy generator then call_generator generator strategy
  else mret strategy.

(** [strategy.type = t; strategy.reasoning.push(reason)] on the fresh
    strategy object. *)
Definition choose (strategy : list (string * value)) (t : value) (reason : string) :=
  set "reasoning" (Arr [Str reason]) (set "type" t strategy).

(** The priority chain of [determineDeploymentStrategy]. *)
Definition decideStrategy (strategy : list (string * value)) (codeAnalysis nlpAnalysis : value)
  : completion (list (string * value)) :=
  deploymentType ← get nlpAnalysis "deploymentType";
  (* Priority 1: User explicitly specified deployment type *)
  if truthy deploymentType then
    mret (choose strategy deploymentType
            ("User requested " +:+ to_string deploymentType +:+ " deployment"))
  else
    (* Priority 2: Application characteristics *)
    appType ← get codeAnalysis "appType";
    staticFiles ← get codeAnalysis "staticFiles";
    if strict_eq appType (Str "static") || (truthy staticFiles && negb (truthy appType)) then
      mret (choose strategy (Str "static")
              "Static files detected - optimal for CDN deployment")
    else
      (* Priority 3: Framework-specific recommendations *)
      serverless ← shouldUseServerless codeAnalysis nlpAnalysis;
      if truthy serverless then
        mret (choose strategy (Str "serverless") "Suitable for serverless architecture")
      else
        (* Priority 4: Containerization *)
        dockerized ← get codeAnalysis "dockerized";
        container ← (if truthy dockerized then mret dockerized
                     else shouldUseContainer codeAnalysis nlpAnalysis);
        if truthy container then
          mret (choose strategy (Str "container")
                  "Application is containerized or suitable for containers")
        else
          (* Priority 5: Complex applications need VMs or Kubernetes *)
          kubernetes ← shouldUseKubernetes codeAnalysis nlpAnalysis;
          if truthy kubernetes then
            mret (choose strategy (Str "kubernetes")
                    "Complex application requiring orchestration")
          else
            (* Default to VM *)
            mret (choose strategy (Str "vm") "Standard VM deployment for flexibility").

(** The strategy object before any rule has been applied. *)
Definition initial_strategy : list (string * value) :=
  [ ("type", Str "vm"); (* default *)
    ("reasoning", Arr []); ("infrastructure", Obj []);
    ("configuration", Obj []); ("estimated_cost", Str "low");
    ("complexity", Str "medium") ].

(** Determine the best deployment strategy based on analysis *)
Definition determineDeploymentStrategy (codeAnalysis nlpAnalysis description : value)
  : M value :=
  try_catch
    (_ ← log "info" "Determining deployment strategy";
     strategy ← lift (decideStrategy initial_strategy codeAnalysis nlpAnalysis);
     strategy ← lift (generateStrategyDetails strategy codeAnalysis nlpAnalysis);
     _ ← log "info" ("Deployment strategy determined: " +:+ to_string (assoc "type" strategy));
     mret (Obj strategy))
    (λ error,
       _ ← log "error" "Failed to determine deployment strategy:";
       throw (Error ("Strategy determination failed: " +:+ message error))).

(** *** Helper methods *)

Definition secretPatterns : list string := ["password"; "secret"; "key"; "token"; "api"].

Definition identifySecrets (envVars : value) : completion value :=
  method_filter envVars (λ varName,
    some_pattern (λ pattern,
      lowered ← method_toLowerCase varName;
      mret (includes lowered pattern)) secretPatterns).

Definition getLambdaRuntime (language : value) : value :=
  let runtimes :=
    [ ("javascript", Str "nodejs18.x"); ("python", Str "python3.9");
      ("java", Str "java11"); ("go", Str "go1.x") ] in
  or (member runtimes (to_string language)) (Str "nodejs18.x").

Definition getAMI (language : value) (region : string) : M value :=
  let command :=
    "aws ec2 describe-images --owners amazon --filters " +:+ dq
    +:+ "Name=name,Values=al2023-ami-*" +:+ dq +:+ " " +:+ dq
    +:+ "Name=architecture,Values=x86_64" +:+ dq
    +:+ " --query 'Images | sort_by(@, &CreationDate) | [-1].ImageId' --output text --region "
    +:+ region in
  let fallbackAMIs :=
    [ ("us-east-1", Str "ami-0b3a73487ec93ea0b"); ("us-west-2", Str "ami-0c02fb55956c7d316");
      ("eu-west-1", Str "ami-0c9c942bd7bf113a2");
      ("ap-southeast-1", Str "ami-0df7a207adb9748c7") ] in
  found ← try_catch
    (amiId ← external (execSync ext command);
     if negb (String.eqb amiId "") && starts_with "ami-" amiId then
       _ ← log "info" ("Using AMI ID: " +:+ amiId +:+ " for region " +:+ region);
       mret (Some amiId)
     else mret None)
    (λ error, _ ← log "warn" "Failed to get latest AMI, using fallback:"; mret None);
  match found with
  | Some amiId => mret (Str amiId)
  | None => mret (or (member fallbackAMIs region) (member fallbackAMIs "us-east-1"))
  end.

(** *** Configuration generators *)

Definition generateInfrastructureConfig (strategy cloudProvider codeAnalysis nlpAnalysis : value)
  : M value :=
  type ← lift (get strategy "type");
  let baseConfig := [ ("provider", cloudProvider); ("region", Str "us-east-1"); ("type", type) ] in
  if strict_eq type (Str "static") then
    t ← now;
    mret (Obj (baseConfig ++ [ ("s3_bucket", Str ("static-site-" +:+ pretty t));
                               ("cloudfront_distribution", Bool true) ]))
  else if strict_eq type (Str "serverless") then
    language ← lift (get codeAnalysis "language");
    mret (Obj (baseConfig ++ [ ("lambda_runtime", getLambdaRuntime language);
                               ("memory", Num 256); ("timeout", Num 30) ]))
  else if strict_eq type (Str "container") then
    mret (Obj (baseConfig ++ [ ("cluster_name", Str "app-cluster");
                               ("service_name", Str "app-service"); ("task_cpu", Num 256);
                               ("task_memory", Num 512); ("desired_count", Num 1) ]))
  else if strict_eq type (Str "vm") then
    language ← lift (get codeAnalysis "language");
    ami ← getAMI language "us-east-1";
    mret (Obj (baseConfig ++ [ ("instance_type", Str "t3.micro"); ("ami", ami);
                               ("key_pair", Str "app-keypair") ]))
  else if strict_eq type (Str "kubernetes") then
    mret (Obj (baseConfig ++
      [ ("cluster_name", Str "app-cluster");
        ("node_group",
         Obj [ ("instance_types", Arr [Str "t3.medium"]);
               ("scaling_config",
                Obj [ ("desired_size", Num 2); ("max_size", Num 10); ("min_size", Num 1) ]) ]) ]))
  else mret (Obj baseConfig).

Definition generateNetworkingConfig (strategy cloudProvider nlpAnalysis : value)
  : completion value :=
  type ← get strategy "type";
  let rule port := Obj [ ("port", Num port); ("protocol", Str "tcp"); ("cidr", Str "0.0.0.0/0") ] in
  mret (Obj
    [ ("vpc", Obj [ ("cidr", Str "10.0.0.0/16"); ("enable_dns", Bool true) ]);
      ("subnets", Obj [ ("public", Arr [Str "10.0.1.0/24"; Str "10.0.2.0/24"]);
                        ("private", Arr [Str "10.0.3.0/24"; Str "10.0.4.0/24"]) ]);
      ("security_groups",
       Obj [ ("web", Obj [ ("ingress", Arr [rule 80; rule 443]) ]);
             ("app", Obj [ ("ingress",
                Arr [ Obj [ ("port", Num 8080); ("protocol", Str "tcp");
                            ("source_sg", Str "web") ] ]) ]) ]);
      ("load_balancer", Bool (negb (strict_eq type (Str "static")))) ]).

(** [nlpAnalysis.requirements?.includes(x)]. *)
Definition requirements_include (nlpAnalysis : value) (x : string) : completion value :=
  requirements ← get nlpAnalysis "requirements";
  match requirements with
  | Undefined | Null => mret Undefined
  | _ => b ← method_includes requirements (Str x); mret (Bool b)
  end.

Definition generateSecurityConfig (nlpAnalysis : value) : completion value :=
  https ← get nlpAnalysis "https";
  customDomain ← get nlpAnalysis "customDomain";
  secrets_manager ← requirements_include nlpAnalysis "security";
  waf_enabled ← requirements_include nlpAnalysis "security";
  mret (Obj
    [ ("https_enabled", Bool (negb (strict_eq https (Bool false))));
      ("ssl_certificate", Str (if truthy customDomain then "acm" else "default"));
      ("iam_roles", Obj [ ("execution_role", Bool true); ("task_role", Bool true) ]);
      ("secrets_manager", secrets_manager);
      ("waf_enabled", waf_enabled) ]).

Definition generateMonitoringConfig (nlpAnalysis : value) : completion value :=
  monitoring ← get nlpAnalysis "monitoring";
  xray_tracing ← requirements_include nlpAnalysis "performance";
  mret (Obj
    [ ("cloudwatch_logs", Bool true); ("cloudwatch_metrics", Bool true);
      ("alarms", Bool (negb (strict_eq monitoring (Bool false))));
      ("xray_tracing", xray_tracing) ]).

(** [databaseRequirements[0]]. *)
Definition first_elem (v : value) : value :=
  match v with
  | Arr (e :: _) => e
  | Obj props => member props "0"
  | _ => Undefined
  end.

Definition generateDatabaseConfig (databaseRequirements cloudProvider : value) : value :=
  let dbType := or (first_elem databaseRequirements) (Str "postgresql") in
  Obj [ ("engine", dbType); ("instance_class", Str "db.t3.micro");
        ("allocated_storage", Num 20); ("multi_az", Bool false);
        ("backup_retention", Num 7); ("subnet_group", Str "app-db-subnet-group") ].

Definition generateStorageConfig (cloudProvider : value) : M value :=
  t ← now;
  mret (Obj [ ("s3_bucket", Str ("app-storage-" +:+ pretty t));
              ("versioning", Bool true); ("encryption", Bool true) ]).

(** *** Deployment configuration *)

Definition generateDeploymentConfig (analysis deploymentId : value) : M value :=
  try_catch
    (_ ← log "info" ("Generating deployment config for " +:+ to_string deploymentId);
     codeAnalysis ← lift (get analysis "codeAnalysis");
     nlpAnalysis ← lift (get analysis "nlpAnalysis");
     deploymentStrategy ← lift (get analysis "deploymentStrategy");
     repositoryUrl ← lift (get analysis "repositoryUrl");
     description ← lift (get analysis "description");
     provider ← lift (get nlpAnalysis "cloudProvider");
     let cloudProvider := or provider (Str "aws") in
     prefix ← lift (method_substring deploymentId 8);
     appType ← lift (get codeAnalysis "appType");
     framework ← lift (get codeAnalysis "framework");
     language ← lift (get codeAnalysis "language");
     port ← lift (get codeAnalysis "port");
     buildCommands ← lift (get codeAnalysis "buildCommands");
     startCommands ← lift (get codeAnalysis "startCommands");
     infrastructure ←
       generateInfrastructureConfig deploymentStrategy cloudProvider codeAnalysis nlpAnalysis;
     networking ← lift (generateNetworkingConfig deploymentStrategy cloudProvider nlpAnalysis);
     security ← lift (generateSecurityConfig nlpAnalysis);
     monitoring ← lift (generateMonitoringConfig nlpAnalysis);
     environmentVariables ← lift (get codeAnalysis "environmentVariables");
     secrets ← lift (identifySecrets environmentVariables);
     let config :=
       [ ("deploymentId", deploymentId);
         ("cloudProvider", cloudProvider);
         ("strategy", deploymentStrategy);
         ("repositoryUrl", or repositoryUrl (Str "https://github.com/Arvo-AI/hello_world"));
         ("description", or description (Str ""));
         ("appName", Str ("app-" +:+ prefix));
         ("appType", or appType (Str "python"));
         ("framework", or framework (Str "flask"));
         ("language", or language (Str "python"));
         ("appPort", or port (Num 8080));
         ("application",
          Obj [ ("name", Str ("app-" +:+ prefix)); ("type", appType);
                ("framework", framework); ("language", language);
                ("port", or port (Num 8080));
                ("buildCommands", buildCommands); ("startCommands", startCommands) ]);
         ("infrastructure", infrastructure);
         ("networking", networking);
         ("security", security);
         ("monitoring", monitoring);
         ("environment", Obj [ ("variables", environmentVariables); ("secrets", secrets) ]) ] in

     (* Add database configuration if needed *)
     databaseRequirements ← lift (get codeAnalysis "databaseRequirements");
     len ← lift (get databaseRequirements "length");
     databaseNeeded ← lift (get nlpAnalysis "databaseNeeded");
     let config :=
       if gt len 0 || truthy databaseNeeded
       then set "database" (generateDatabaseConfig databaseRequirements cloudProvider) config
       else config in

     (* Add storage configuration if needed *)
     storageNeeded ← lift (get nlpAnalysis "storageNeeded");
     config ← (if truthy storageNeeded
               then storage ← generateStorageConfig cloudProvider;
                    mret (set "storage" storage config)
               else mret config);
     _ ← log "info" ("Deployment config generated for " +:+ to_string deploymentId);
     mret (Obj config))
    (λ error,
       _ ← log "error" ("Failed to generate deployment config for "
                        +:+ to_string deploymentId +:+ ":");
       throw error).

(** *** Deployment helpers *)

(** One simulated step of [deployToInfrastructure]: push an in-progress
    entry, wait, mark it completed. *)
Definition simulated_step (name : string) (ms : Z) (steps : list value) : M (list value) :=
  t ← now;
  _ ← delay ms (timer_overrun ext ms);
  mret (steps ++ [ Obj [ ("step", Str name); ("status", Str "completed");
                         ("timestamp", Str (toISOString ext t)) ] ]).

Definition prepareApplicationCode := simulated_step "prepare_code" 2000.
Definition uploadCodeToInfrastructure := simulated_step "upload_code" 3000.
Definition configureApplication := simulated_step "configure_app" 2000.
Definition startApplication := simulated_step "start_app" 5000.
Definition verifyDeployment := simulated_step "verify_deployment" 3000.

(** [Math.floor(Math.random() * 255)] for a draw given as a numerator
    over 2^53. *)
Definition octet (draw : Z) : Z := (draw * 255) `div` (2 ^ 53).

Definition generatePublicUrl (infrastructure deploymentConfig : value) : M value :=
  application_url ← lift (get infrastructure "application_url");
  application_url_value ←
    lift (if truthy application_url then get application_url "value" else mret Undefined);
  (* Use the actual application_url from Terraform outputs if available *)
  if truthy application_url && truthy application_url_value then mret application_url_value
  else
    instance_public_ip ← lift (get infrastructure "instance_public_ip");
    ip_value ←
      lift (if truthy instance_public_ip then get instance_public_ip "value" else mret Undefined);
    (* Fallback: construct URL from IP and port if available *)
    if truthy instance_public_ip && truthy ip_value then
      configured ← lift (get deploymentConfig "port");
      let port := or configured (Num 8080) in
      mret (Str ("http://" +:+ to_string ip_value +:+ ":" +:+ to_string port))
    else
      instance_public_dns ← lift (get infrastructure "instance_public_dns");
      dns_value ←
        lift (if truthy instance_public_dns then get instance_public_dns "value"
              else mret Undefined);
      (* Fallback: construct URL from DNS if available *)
      if truthy instance_public_dns && truthy dns_value then
        configured ← lift (get deploymentConfig "port");
        let port := or configured (Num 8080) in
        mret (Str ("http://" +:+ to_string dns_value +:+ ":" +:+ to_string port))
      else
        (* Legacy fallback for mock URLs (should not be used in real deployments) *)
        infra_region ← lift (get infrastructure "region");
        let region := or infra_region (Str "us-east-1") in
        type ← lift (get infrastructure "type");
        if strict_eq type (Str "static") then
          r ← random;
          mret (Str ("https://d" +:+ base36 ext r +:+ ".cloudfront.net"))
        else if strict_eq type (Str "serverless") then
          r ← random;
          mret (Str ("https://" +:+ base36 ext r +:+ ".execute-api." +:+ to_string region
                     +:+ ".amazonaws.com/prod"))
        else
          configured ← lift (get deploymentConfig "port");
          let port := or configured (Num 8080) in
          a ← random; b ← random; c ← random; d ← random;
          mret (Str ("http://ec2-" +:+ pretty (octet a) +:+ "-" +:+ pretty (octet b) +:+ "-"
                     +:+ pretty (octet c) +:+ "-" +:+ pretty (octet d) +:+ "."
                     +:+ to_string region +:+ ".compute.amazonaws.com:" +:+ to_string port)).

Definition deployToInfrastructure (deploymentId infrastructure codebasePath deploymentConfig : value)
  : M value :=
  try_catch
    (_ ← log "info" ("Deploying application " +:+ to_string deploymentId +:+ " to infrastructure");
     startTime ← now;
     (* Step 1: Prepare application code *)
     steps ← prepareApplicationCode [];
     (* Step 2: Upload code to infrastructure *)
     steps ← uploadCodeToInfrastructure steps;
     (* Step 3: Configure application *)
     steps ← configureApplication steps;
     (* Step 4: Start application *)
     steps ← startApplication steps;
     (* Step 5: Verify deployment *)
     steps ← verifyDeployment steps;
     endTime ← now;
     publicUrl ← generatePublicUrl infrastructure deploymentConfig;
     _ ← log "info" ("Application " +:+ to_string deploymentId +:+ " deployed successfully");
     mret (Obj [ ("deploymentId", deploymentId); ("status", Str "deployed");
                 ("infrastructure", infrastructure); ("publicUrl", publicUrl);
                 ("internalUrl", Null); ("deploymentSteps", Arr steps);
                 ("startTime", Str (toISOString ext startTime));
                 ("endTime", Str (toISOString ext endTime)) ]))
    (λ error,
       _ ← log "error" ("Deployment failed for " +:+ to_string deploymentId +:+ ":");
       throw error).

End Methods.
End InfrastructureManager.

(* ===================================================================== *)
(** ** RepositoryAnalyzer (the parts the orchestration core relies on) *)
(* ===================================================================== *)

Module RepositoryAnalyzer.

(** [parseInt(s)] on what the port patterns capture, which carries no
    blank and no sign: the leading decimal digits, NaN when there is
    none. The value is the one the library returns as long as it is
    below 2^53; beyond that the library rounds. *)
Definition digit_of (c : ascii) : option Z :=
  let n := nat_of_ascii c in
  if ((48 <=? n) && (n <=? 57))%nat then Some (Z.of_nat n - 48) else None.

Fixpoint parse_digits (acc : option Z) (s : string) : option Z :=
  match s with
  | EmptyString => acc
  | String c s' =>
      match digit_of c with
      | Some d => parse_digits (Some (10 * default 0 acc + d)) s'
      | None => acc
      end
  end.

Definition parseInt (s : string) : value :=
  match parse_digits None s with
  | Some n => Num n
  | None => NaN
  end.

Definition defaultPorts : list (string * value) :=
  [ ("node-express", Num 3000); ("next-js", Num 3000); ("react", Num 3000);
    ("flask", Num 5000); ("django", Num 8000); ("fastapi", Num 8000);
    ("spring-boot", Num 8080); ("go", Num 8080); ("static", Num 80) ].

(** [detectPort(configFiles, analysis)]. The regular-expression search
    over the configuration text is taken as given: [captures] lists, for
    the four port patterns in order, the text of [match[1]] when the
    pattern matched and that text is non-empty. *)
Definition detectPort (captures : list (option string)) (analysis : list (string * value))
  : list (string * value) :=
  let analysis :=
    match omap id captures with
    | c :: _ => set "port" (parseInt c) analysis
    | [] => analysis
    end in
  (* Default ports by application type *)
  if negb (truthy (member analysis "port")) then
    set "port"
      (or (member defaultPorts (to_string (member analysis "appType"))) (Num 8080)) analysis
  else analysis.

(** [repositoryUrl.split("/").pop().replace(".git", "")]. *)
Fixpoint remove_first (pat s : string) : string :=
  if starts_with pat s then String.substring (String.length pat) (String.length s) s
  else match s with
       | EmptyString => EmptyString
       | String c s' => String c (remove_first pat s')
       end.

Definition extractRepoName (repositoryUrl : string) : string :=
  remove_first ".git" (default "" (last (segments repositoryUrl))).

(** [this.extractRepoName(repositoryUrl)] on any value: only a string
    has a [split] method. *)
Definition method_extractRepoName (repositoryUrl : value) : completion string :=
  match repositoryUrl with
  | Str s => Return (extractRepoName s)
  | Undefined =>
      Throw (TypeError "Cannot read properties of undefined (reading 'split')")
  | Null => Throw (TypeError "Cannot read properties of null (reading 'split')")
  | _ => Throw (TypeError "repositoryUrl.split is not a function")
  end.

Section Methods.
Context (ext : Externals).

Definition cloneRepository (repositoryUrl : value) (destinationDir : string) : M string :=
  try_catch
    (repoName ← lift (method_extractRepoName repositoryUrl);
     clonePath ← lift (path_join [Str destinationDir; Str repoName]);
     _ ← log "info" ("Cloning repository " +:+ to_string repositoryUrl +:+ " to " +:+ clonePath);
     _ ← external (git_clone ext (to_string repositoryUrl) clonePath);
     _ ← ensureDir clonePath;
     _ ← log "info" ("Repository cloned successfully to " +:+ clonePath);
     mret clonePath)
    (λ error,
       _ ← log "error" ("Failed to clone repository " +:+ to_string repositoryUrl +:+ ":");
       throw (Error ("Failed to clone repository: " +:+ message error))).

End Methods.
End RepositoryAnalyzer.

(* ===================================================================== *)
(** ** TerraformService *)
(* ===================================================================== *)

Module TerraformService.

(** *** Template texts

    Each template literal of the service, line by line; the parameters
    are its interpolations. *)

Definition main_before_user_data : string :=
  String.concat EmptyString
  [ nl;
    "# EC2 Instance for application deployment"; nl;
    "resource "; dq; "aws_instance"; dq; " "; dq; "app_instance"; dq; " {"; nl;
    "  ami           = var.ami_id"; nl;
    "  instance_type = var.instance_type"; nl;
    "  "; nl;
    "  vpc_security_group_ids = [aws_security_group.app_sg.id]"; nl;
    "  subnet_id              = aws_subnet.app_subnet.id"; nl;
    "  "; nl;
    "  user_data = base64encode(<<-EOF"; nl ].

Definition main_after_user_data : string :=
  String.concat EmptyString
  [ nl;
    "EOF"; nl;
    "  )"; nl;
    "  "; nl;
    "  root_block_device {"; nl;
    "    volume_type = "; dq; "gp3"; dq; nl;
    "    volume_size = 20"; nl;
    "    encrypted   = true"; nl;
    "  }"; nl;
    "  "; nl;
    "  tags = {"; nl;
    "    Name        = "; dq; "${var.app_name}-instance"; dq; nl;
    "    Environment = var.environment"; nl;
    "    ManagedBy   = "; dq; "Terraform"; dq; nl;
    "  }"; nl;
    "}"; nl;
    nl;
    "# VPC Configuration"; nl;
    "resource "; dq; "aws_vpc"; dq; " "; dq; "app_vpc"; dq; " {"; nl;
    "  cidr_block           = var.vpc_cidr"; nl;
    "  enable_dns_hostnames = true"; nl;
    "  enable_dns_support   = true"; nl;
    "  "; nl;
    "  tags = {"; nl;
    "    Name        = "; dq; "${var.app_name}-vpc"; dq; nl;
    "    Environment = var.environment"; nl;
    "    ManagedBy   = "; dq; "Terraform"; dq; nl;
    "  }"; nl;
    "}"; nl;
    nl;
    "# Internet Gateway"; nl;
    "resource "; dq; "aws_internet_gateway"; dq; " "; dq; "app_igw"; dq; " {"; nl;
    "  vpc_id = aws_vpc.app_vpc.id"; nl;
    "  "; nl;
    "  tags = {"; nl;
    "    Name        = "; dq; "${var.app_name}-igw"; dq; nl;
    "    Environment = var.environment"; nl;
    "    ManagedBy   = "; dq; "Terraform"; dq; nl;
    "  }"; nl;
    "}"; nl;
    nl;
    "# Public Subnet"; nl;
    "resource "; dq; "aws_subnet"; dq; " "; dq; "app_subnet"; dq; " {"; nl;
    "  vpc_id                  = aws_vpc.app_vpc.id"; nl;
    "  cidr_block              = var.subnet_cidr"; nl;
    "  availability_zone       = var.availability_zone"; nl;
    "  map_public_ip_on_launch = true"; nl;
    "  "; nl;
    "  tags = {"; nl;
    "    Name        = "; dq; "${var.app_name}-subnet"; dq; nl;
    "    Environment = var.environment"; nl;
    "    ManagedBy   = "; dq; "Terraform"; dq; nl;
    "  }"; nl;
    "}"; nl;
    nl;
    "# Route Table"; nl;
    "resource "; dq; "aws_route_table"; dq; " "; dq; "app_rt"; dq; " {"; nl;
    "  vpc_id = aws_vpc.app_vpc.id"; nl;
    "  "; nl;
    "  route {"; nl;
    "    cidr_block = "; dq; "0.0.0.0/0"; dq; nl;
    "    gateway_id = aws_internet_gateway.app_igw.id"; nl;
    "  }"; nl;
    "  "; nl;
    "  tags = {"; nl;
    "    Name        = "; dq; "${var.app_name}-rt"; dq; nl;
    "    Environment = var.environment"; nl;
    "    ManagedBy   = "; dq; "Terraform"; dq; nl;
    "  }"; nl;
    "}"; nl;
    nl;
    "# Route Table Association"; nl;
    "resource "; dq; "aws_route_table_association"; dq; " "; dq; "app_rta"; dq; " {"; nl;
    "  subnet_id      = aws_subnet.app_subnet.id"; nl;
    "  route_table_id = aws_route_table.app_rt.id"; nl;
    "}"; nl;
    nl;
    "# Security Group"; nl;
    "resource "; dq; "aws_security_group"; dq; " "; dq; "app_sg"; dq; " {"; nl;
    "  name_prefix = "; dq; "${var.app_name}-sg-"; dq; nl;
    "  description = "; dq; "Security group for ${var.app_name}"; dq; nl;
    "  vpc_id      = aws_vpc.app_vpc.id"; nl;
    "  "; nl;
    "  ingress {"; nl;
    "    description = "; dq; "SSH"; dq; nl;
    "    from_port   = 22"; nl;
    "    to_port     = 22"; nl;
    "    protocol    = "; dq; "tcp"; dq; nl;
    "    cidr_blocks = ["; dq; "0.0.0.0/0"; dq; "]"; nl;
    "  }"; nl;
    "  "; nl;
    "  ingress {"; nl;
    "    description = "; dq; "HTTP"; dq; nl;
    "    from_port   = 80"; nl;
    "    to_port     = 80"; nl;
    "    protocol    = "; dq; "tcp"; dq; nl;
    "    cidr_blocks = ["; dq; "0.0.0.0/0"; dq; "]"; nl;
    "  }"; nl;
    "  "; nl;
    "  ingress {"; nl;
    "    description = "; dq; "HTTPS"; dq; nl;
    "    from_port   = 443"; nl;
    "    to_port     = 443"; nl;
    "    protocol    = "; dq; "tcp"; dq; nl;
    "    cidr_blocks = ["; dq; "0.0.0.0/0"; dq; "]"; nl;
    "  }"; nl;
    "  "; nl;
    "  ingress {"; nl;
    "    description = "; dq; "Application Port"; dq; nl;
    "    from_port   = 8080"; nl;
    "    to_port     = 8080"; nl;
    "    protocol    = "; dq; "tcp"; dq; nl;
    "    cidr_blocks = ["; dq; "0.0.0.0/0"; dq; "]"; nl;
    "  }"; nl;
    "  "; nl;
    "  egress {"; nl;
    "    description = "; dq; "All outbound traffic"; dq; nl;
    "    from_port   = 0"; nl;
    "    to_port     = 0"; nl;
    "    protocol    = "; dq; "-1"; dq; nl;
    "    cidr_blocks = ["; dq; "0.0.0.0/0"; dq; "]"; nl;
    "  }"; nl;
    "  "; nl;
    "  tags = {"; nl;
    "    Name        = "; dq; "${var.app_name}-sg"; dq; nl;
    "    Environment = var.environment"; nl;
    "    ManagedBy   = "; dq; "Terraform"; dq; nl;
    "  }"; nl;
    "}"; nl;
    nl;
    "# Elastic IP for static public IP"; nl;
    "resource "; dq; "aws_eip"; dq; " "; dq; "app_eip"; dq; " {"; nl;
    "  instance = aws_instance.app_instance.id"; nl;
    "  domain   = "; dq; "vpc"; dq; nl;
    "  "; nl;
    "  tags = {"; nl;
    "    Name        = "; dq; "${var.app_name}-eip"; dq; nl;
    "    Environment = var.environment"; nl;
    "    ManagedBy   = "; dq; "Terraform"; dq; nl;
    "  }"; nl;
    "  "; nl;
    "  depends_on = [aws_internet_gateway.app_igw]"; nl;
    "}"; nl ].

Definition user_data_text (repositoryUrl appPort appName framework language appType : string) : string :=
  String.concat EmptyString
  [ "#!/bin/bash"; nl;
    "set -e  # Exit on any error"; nl;
    "exec > >(tee /var/log/user-data.log) 2>&1  # Log all output"; nl;
    nl;
    "echo "; dq; "Starting deployment of "; appName; " at $(date)"; dq; nl;
    nl;
    "# Update system"; nl;
    "yum update -y"; nl;
    nl;
    "# Install git for cloning repository"; nl;
    "yum install -y git"; nl;
    nl;
    "# Install application-specific packages"; nl;
    "if [ "; dq; framework; dq; " = "; dq; "flask"; dq; " ] || [ "; dq; framework; dq; " = "; dq; "django"; dq; " ] || [ "; dq; language; dq; " = "; dq; "python"; dq; " ] || [ "; dq; appType; dq; " = "; dq; "python"; dq; " ]; then"; nl;
    "    echo "; dq; "Installing Python environment..."; dq; nl;
    "    yum install -y python3 python3-pip python3-venv"; nl;
    "    "; nl;
    "    # Create app directory and clone repository"; nl;
    "    mkdir -p /app"; nl;
    "    cd /app"; nl;
    "    "; nl;
    "    echo "; dq; "Cloning repository "; repositoryUrl; "..."; dq; nl;
    "    git clone "; repositoryUrl; " ./app-source"; nl;
    "    "; nl;
    "    # Find the application directory (look for main Python file)"; nl;
    "    MAIN_PY_FILE="; dq; dq; nl;
    "    if [ -f "; dq; "./app-source/app/app.py"; dq; " ]; then"; nl;
    "        APP_DIR="; dq; "/app/app-source/app"; dq; nl;
    "        MAIN_PY_FILE="; dq; "app.py"; dq; nl;
    "    elif [ -f "; dq; "./app-source/app.py"; dq; " ]; then"; nl;
    "        APP_DIR="; dq; "/app/app-source"; dq; nl;
    "        MAIN_PY_FILE="; dq; "app.py"; dq; nl;
    "    elif [ -f "; dq; "./app-source/main.py"; dq; " ]; then"; nl;
    "        APP_DIR="; dq; "/app/app-source"; dq; nl;
    "        MAIN_PY_FILE="; dq; "main.py"; dq; nl;
    "    elif [ -f "; dq; "./app-source/server.py"; dq; " ]; then"; nl;
    "        APP_DIR="; dq; "/app/app-source"; dq; nl;
    "        MAIN_PY_FILE="; dq; "server.py"; dq; nl;
    "    else"; nl;
    "        echo "; dq; "Could not find main Python file, defaulting to app.py..."; dq; nl;
    "        APP_DIR="; dq; "/app/app-source"; dq; nl;
    "        MAIN_PY_FILE="; dq; "app.py"; dq; nl;
    "    fi"; nl;
    "    "; nl;
    "    echo "; dq; "Application directory: $APP_DIR"; dq; nl;
    "    echo "; dq; "Main Python file: $MAIN_PY_FILE"; dq; nl;
    "    cd "; dq; "$APP_DIR"; dq; nl;
    "    "; nl;
    "    # Create virtual environment"; nl;
    "    python3 -m venv /app/venv"; nl;
    "    source /app/venv/bin/activate"; nl;
    "    "; nl;
    "    # Install requirements if they exist"; nl;
    "    if [ -f "; dq; "requirements.txt"; dq; " ]; then"; nl;
    "        echo "; dq; "Installing requirements from requirements.txt..."; dq; nl;
    "        pip install -r requirements.txt"; nl;
    "    else"; nl;
    "        echo "; dq; "No requirements.txt found, installing basic Flask..."; dq; nl;
    "        pip install flask flask-cors gunicorn"; nl;
    "    fi"; nl;
    "    "; nl;
    "    # Instead of modifying the original file, create a wrapper script"; nl;
    "    echo "; dq; "Creating wrapper script for Flask app..."; dq; nl;
    "    cat > "; dq; "$APP_DIR/run_app.py"; dq; " << 'WRAPPER_EOF'"; nl;
    "#!/usr/bin/env python3"; nl;
    "import sys"; nl;
    "import os"; nl;
    nl;
    "# Add the app directory to Python path"; nl;
    "sys.path.insert(0, os.path.dirname(os.path.abspath(__file__)))"; nl;
    nl;
    "# Import the original app"; nl;
    "if os.path.exists('app.py'):"; nl;
    "    from app import app"; nl;
    "elif os.path.exists('main.py'):"; nl;
    "    from main import app"; nl;
    "elif os.path.exists('server.py'):"; nl;
    "    from server import app"; nl;
    "else:"; nl;
    "    print("; dq; "No Flask app file found!"; dq; ")"; nl;
    "    sys.exit(1)"; nl;
    nl;
    "if __name__ == "; dq; "__main__"; dq; ":"; nl;
    "    print("; dq; "Starting Flask app on 0.0.0.0:"; appPort; "..."; dq; ")"; nl;
    "    app.run(host="; dq; "0.0.0.0"; dq; ", port="; appPort; ", debug=False)"; nl;
    "WRAPPER_EOF"; nl;
    nl;
    "    chmod +x "; dq; "$APP_DIR/run_app.py"; dq; nl;
    "    echo "; dq; "Wrapper script created successfully"; dq; nl;
    "    "; nl;
    "    # Create systemd service for the Flask app"; nl;
    "    cat > /etc/systemd/system/flask-app.service << 'EOL'"; nl;
    "[Unit]"; nl;
    "Description=Flask Application"; nl;
    "After=network.target"; nl;
    nl;
    "[Service]"; nl;
    "Type=simple"; nl;
    "User=ec2-user"; nl;
    "WorkingDirectory=$APP_DIR"; nl;
    "Environment=PATH=/app/venv/bin"; nl;
    "ExecStart=/app/venv/bin/python $APP_DIR/run_app.py"; nl;
    "Restart=always"; nl;
    "RestartSec=3"; nl;
    "StandardOutput=journal"; nl;
    "StandardError=journal"; nl;
    nl;
    "[Install]"; nl;
    "WantedBy=multi-user.target"; nl;
    "EOL"; nl;
    "    "; nl;
    "    # Replace placeholders with actual paths"; nl;
    "    sed -i "; dq; "s|$APP_DIR|$APP_DIR|g"; dq; " /etc/systemd/system/flask-app.service"; nl;
    "    "; nl;
    "    # Set proper permissions"; nl;
    "    chown -R ec2-user:ec2-user /app"; nl;
    "    "; nl;
    "    # Enable and start the service"; nl;
    "    systemctl daemon-reload"; nl;
    "    systemctl enable flask-app"; nl;
    "    systemctl start flask-app"; nl;
    "    "; nl;
    "    # Check service status and log it"; nl;
    "    sleep 5"; nl;
    "    systemctl status flask-app || true"; nl;
    "    journalctl -u flask-app --no-pager -n 20 || true"; nl;
    "    "; nl;
    "    echo "; dq; "Flask application deployment completed at $(date)"; dq; nl;
    "    echo "; dq; "Application should be accessible on port "; appPort; dq; nl;
    "    echo "; dq; "Service status logged above"; dq; nl;
    "    "; nl;
    "    # Wait a bit and test the application"; nl;
    "    sleep 10"; nl;
    "    echo "; dq; "Testing application accessibility..."; dq; nl;
    "    curl -f http://localhost:"; appPort; "/ && echo "; dq; "✅ Application is responding locally"; dq; " || echo "; dq; "❌ Application not responding locally"; dq; nl;
    "    "; nl;
    "    echo "; dq; "Deployment script finished successfully at $(date)"; dq; nl;
    "    "; nl;
    "elif [ "; dq; framework; dq; " = "; dq; "express"; dq; " ] || [ "; dq; framework; dq; " = "; dq; "node"; dq; " ] || [ "; dq; appType; dq; " = "; dq; "node"; dq; " ]; then"; nl;
    "    echo "; dq; "Installing Node.js environment..."; dq; nl;
    "    curl -fsSL https://rpm.nodesource.com/setup_18.x | bash -"; nl;
    "    yum install -y nodejs npm"; nl;
    "    "; nl;
    "    # Create app directory and clone repository"; nl;
    "    mkdir -p /app"; nl;
    "    cd /app"; nl;
    "    "; nl;
    "    echo "; dq; "Cloning repository "; repositoryUrl; "..."; dq; nl;
    "    git clone "; repositoryUrl; " ./app-source"; nl;
    "    cd /app/app-source"; nl;
    "    "; nl;
    "    # Find the main Node.js file"; nl;
    "    MAIN_JS_FILE="; dq; dq; nl;
    "    if [ -f "; dq; "server.js"; dq; " ]; then"; nl;
    "        MAIN_JS_FILE="; dq; "server.js"; dq; nl;
    "    elif [ -f "; dq; "app.js"; dq; " ]; then"; nl;
    "        MAIN_JS_FILE="; dq; "app.js"; dq; nl;
    "    elif [ -f "; dq; "index.js"; dq; " ]; then"; nl;
    "        MAIN_JS_FILE="; dq; "index.js"; dq; nl;
    "    elif [ -f "; dq; "src/server.js"; dq; " ]; then"; nl;
    "        MAIN_JS_FILE="; dq; "src/server.js"; dq; nl;
    "    elif [ -f "; dq; "src/app.js"; dq; " ]; then"; nl;
    "        MAIN_JS_FILE="; dq; "src/app.js"; dq; nl;
    "    elif [ -f "; dq; "src/index.js"; dq; " ]; then"; nl;
    "        MAIN_JS_FILE="; dq; "src/index.js"; dq; nl;
    "    else"; nl;
    "        # Check package.json for main entry"; nl;
    "        if [ -f "; dq; "package.json"; dq; " ] && command -v node >/dev/null; then"; nl;
    "            MAIN_JS_FILE=$(node -e "; dq; "try { console.log(require('./package.json').main || 'index.js'); } catch(e) { console.log('index.js'); }"; dq; ")"; nl;
    "        else"; nl;
    "            MAIN_JS_FILE="; dq; "server.js"; dq; nl;
    "        fi"; nl;
    "    fi"; nl;
    "    "; nl;
    "    echo "; dq; "Main Node.js file: $MAIN_JS_FILE"; dq; nl;
    "    "; nl;
    "    # Install npm dependencies"; nl;
    "    if [ -f "; dq; "package.json"; dq; " ]; then"; nl;
    "        echo "; dq; "Installing npm dependencies..."; dq; nl;
    "        npm install"; nl;
    "    fi"; nl;
    "    "; nl;
    "    # Create systemd service for Node.js app"; nl;
    "    cat > /etc/systemd/system/node-app.service << EOL"; nl;
    "[Unit]"; nl;
    "Description=Node.js Application"; nl;
    "After=network.target"; nl;
    nl;
    "[Service]"; nl;
    "Type=simple"; nl;
    "User=ec2-user"; nl;
    "WorkingDirectory=/app/app-source"; nl;
    "ExecStart=/usr/bin/node $MAIN_JS_FILE"; nl;
    "Restart=always"; nl;
    "RestartSec=3"; nl;
    "Environment=PORT="; appPort; nl;
    nl;
    "[Install]"; nl;
    "WantedBy=multi-user.target"; nl;
    "EOL"; nl;
    "    "; nl;
    "    # Set proper permissions"; nl;
    "    chown -R ec2-user:ec2-user /app"; nl;
    "    "; nl;
    "    # Enable and start the service"; nl;
    "    systemctl daemon-reload"; nl;
    "    systemctl enable node-app"; nl;
    "    systemctl start node-app"; nl;
    "    "; nl;
    "    echo "; dq; "Node.js application started successfully"; dq; nl;
    "    "; nl;
    "else"; nl;
    "    echo "; dq; "Installing Docker for containerized applications..."; dq; nl;
    "    yum install -y docker"; nl;
    "    systemctl start docker"; nl;
    "    systemctl enable docker"; nl;
    "    usermod -a -G docker ec2-user"; nl;
    "    "; nl;
    "    # Create app directory and clone repository"; nl;
    "    mkdir -p /app"; nl;
    "    cd /app"; nl;
    "    "; nl;
    "    echo "; dq; "Cloning repository "; repositoryUrl; "..."; dq; nl;
    "    git clone "; repositoryUrl; " ./app-source"; nl;
    "    cd /app/app-source"; nl;
    "    "; nl;
    "    if [ -f "; dq; "Dockerfile"; dq; " ]; then"; nl;
    "        echo "; dq; "Building Docker image..."; dq; nl;
    "        docker build -t myapp ."; nl;
    "        "; nl;
    "        echo "; dq; "Running Docker container..."; dq; nl;
    "        docker run -d -p "; appPort; ":80 --name myapp-container myapp"; nl;
    "    else"; nl;
    "        echo "; dq; "No Dockerfile found, creating simple web server..."; dq; nl;
    "        echo "; dq; "<h1>Hello World!</h1><p>Deployed at $(date)</p>"; dq; " > index.html"; nl;
    "        python3 -m http.server "; appPort; " &"; nl;
    "    fi"; nl;
    "fi"; nl;
    nl;
    "echo "; dq; "Deployment completed successfully at $(date)"; dq; nl ].

Definition variables_text (appName environment : string) : string :=
  String.concat EmptyString
  [ nl;
    "variable "; dq; "ami_id"; dq; " {"; nl;
    "  description = "; dq; "AMI ID to use for the instance"; dq; nl;
    "  type        = string"; nl;
    "}"; nl;
    nl;
    "variable "; dq; "instance_type"; dq; " {"; nl;
    "  description = "; dq; "EC2 instance type"; dq; nl;
    "  type        = string"; nl;
    "  default     = "; dq; "t3.micro"; dq; nl;
    "}"; nl;
    nl;
    "variable "; dq; "app_name"; dq; " {"; nl;
    "  description = "; dq; "Name of the application"; dq; nl;
    "  type        = string"; nl;
    "  default     = "; dq; appName; dq; nl;
    "}"; nl;
    nl;
    "variable "; dq; "environment"; dq; " {"; nl;
    "  description = "; dq; "Environment name"; dq; nl;
    "  type        = string"; nl;
    "  default     = "; dq; environment; dq; nl;
    "}"; nl;
    nl;
    "variable "; dq; "vpc_cidr"; dq; " {"; nl;
    "  description = "; dq; "CIDR block for VPC"; dq; nl;
    "  type        = string"; nl;
    "  default     = "; dq; "10.0.0.0/16"; dq; nl;
    "}"; nl;
    nl;
    "variable "; dq; "subnet_cidr"; dq; " {"; nl;
    "  description = "; dq; "CIDR block for subnet"; dq; nl;
    "  type        = string"; nl;
    "  default     = "; dq; "10.0.1.0/24"; dq; nl;
    "}"; nl;
    nl;
    "variable "; dq; "availability_zone"; dq; " {"; nl;
    "  description = "; dq; "Availability zone for the subnet"; dq; nl;
    "  type        = string"; nl;
    "  default     = "; dq; "us-east-1a"; dq; nl;
    "}"; nl ].

Definition outputs_text (appPort : string) : string :=
  String.concat EmptyString
  [ nl;
    "output "; dq; "instance_id"; dq; " {"; nl;
    "  description = "; dq; "ID of the EC2 instance"; dq; nl;
    "  value       = aws_instance.app_instance.id"; nl;
    "}"; nl;
    nl;
    "output "; dq; "instance_public_ip"; dq; " {"; nl;
    "  description = "; dq; "Public IP address of the EC2 instance"; dq; nl;
    "  value       = aws_eip.app_eip.public_ip"; nl;
    "}"; nl;
    nl;
    "output "; dq; "instance_public_dns"; dq; " {"; nl;
    "  description = "; dq; "Public DNS name of the EC2 instance"; dq; nl;
    "  value       = aws_instance.app_instance.public_dns"; nl;
    "}"; nl;
    nl;
    "output "; dq; "application_url"; dq; " {"; nl;
    "  description = "; dq; "URL to access the deployed application"; dq; nl;
    "  value       = "; dq; "http://${aws_eip.app_eip.public_ip}:"; appPort; dq; nl;
    "}"; nl;
    nl;
    "output "; dq; "vpc_id"; dq; " {"; nl;
    "  description = "; dq; "ID of the VPC"; dq; nl;
    "  value       = aws_vpc.app_vpc.id"; nl;
    "}"; nl;
    nl;
    "output "; dq; "subnet_id"; dq; " {"; nl;
    "  description = "; dq; "ID of the subnet"; dq; nl;
    "  value       = aws_subnet.app_subnet.id"; nl;
    "}"; nl;
    nl;
    "output "; dq; "security_group_id"; dq; " {"; nl;
    "  description = "; dq; "ID of the security group"; dq; nl;
    "  value       = aws_security_group.app_sg.id"; nl;
    "}"; nl ].

Definition providers_text : string :=
  String.concat EmptyString
  [ nl;
    "terraform {"; nl;
    "  required_version = "; dq; ">= 1.0"; dq; nl;
    "  "; nl;
    "  required_providers {"; nl;
    "    aws = {"; nl;
    "      source  = "; dq; "hashicorp/aws"; dq; nl;
    "      version = "; dq; "~> 5.31.0"; dq; nl;
    "    }"; nl;
    "  }"; nl;
    "}"; nl;
    nl;
    "provider "; dq; "aws"; dq; " {"; nl;
    "  region = var.aws_region"; nl;
    "  "; nl;
    "  default_tags {"; nl;
    "    tags = {"; nl;
    "      Project     = var.app_name"; nl;
    "      Environment = var.environment"; nl;
    "      ManagedBy   = "; dq; "Terraform"; dq; nl;
    "    }"; nl;
    "  }"; nl;
    "}"; nl;
    nl;
    "variable "; dq; "aws_region"; dq; " {"; nl;
    "  description = "; dq; "AWS region"; dq; nl;
    "  type        = string"; nl;
    "  default     = "; dq; "us-east-1"; dq; nl;
    "}"; nl ].

Section Methods.
Context (ext : Externals).

Definition generateUserDataScript (config : value) : completion string :=
  repositoryUrl ← get config "repositoryUrl";
  appPort ← get config "appPort";
  appName ← get config "appName";
  framework ← get config "framework";
  language ← get config "language";
  appType ← get config "appType";
  mret (user_data_text
          (to_string (or repositoryUrl (Str "https://github.com/Arvo-AI/hello_world")))
          (to_string (or appPort (Num 8080)))
          (to_string (or appName (Str "application")))
          (to_string (or framework (Str "")))
          (to_string (or language (Str "")))
          (to_string (or appType (Str "")))).

Definition generateMainTerraform (config : value) : completion string :=
  userDataScript ← generateUserDataScript config;
  mret (main_before_user_data +:+ userDataScript +:+ main_after_user_data).

Definition generateVariablesTerraform (config : value) : completion string :=
  appName ← get config "appName";
  environment ← get config "environment";
  mret (variables_text (to_string (or appName (Str "hello_world")))
                       (to_string (or environment (Str "development")))).

Definition generateOutputsTerraform (config : value) : completion string :=
  appPort ← get config "appPort";
  mret (outputs_text (to_string (or appPort (Num 8080)))).

Definition generateProvidersTerraform (config : value) : completion string :=
  mret providers_text.

(** Generate Terraform configuration files *)
Definition generateTerraformConfig (deploymentConfig : value) : M value :=
  try_catch
    (deploymentId ← lift (get deploymentConfig "deploymentId");
     _ ← log "info" ("Generating Terraform configuration for " +:+ to_string deploymentId);
     main ← lift (generateMainTerraform deploymentConfig);
     variables ← lift (generateVariablesTerraform deploymentConfig);
     outputs ← lift (generateOutputsTerraform deploymentConfig);
     providers ← lift (generateProvidersTerraform deploymentConfig);
     mret (Obj [ ("main", Str main); ("variables", Str variables);
                 ("outputs", Str outputs); ("providers", Str providers) ]))
    (λ error,
       _ ← log "error" "Error generating Terraform configuration";
       throw error).

(** Get the latest Amazon Linux 2 AMI ID *)
Definition getLatestAMI : M string :=
  let command :=
    "aws ec2 describe-images --owners amazon --filters " +:+ dq
    +:+ "Name=name,Values=amzn2-ami-hvm-*-x86_64-gp2" +:+ dq +:+ " " +:+ dq
    +:+ "Name=state,Values=available" +:+ dq +:+ " --query " +:+ dq
    +:+ "Images | sort_by(@, &CreationDate) | [-1].ImageId" +:+ dq +:+ " --output text" in
  try_catch
    (amiId ← external (execSync ext command);
     if String.eqb amiId "" || String.eqb amiId "None"
     then throw (Error "Failed to retrieve AMI ID")
     else mret amiId)
    (λ error,
       _ ← log "error" "Error getting latest AMI";
       (* Fallback to a known working AMI ID *)
       mret "ami-0e95a5e2743ec9ec9").

Definition record_spawn (binary : string) (args : list string) : M unit := λ w,
  (Return (),
   mkWorld (clock w) (entropy w) (environ w) (cwd w) (files w)
           (logged w) (spawned w ++ [(binary, args)]) (deployments w) (heap w)).

(** Run Terraform command *)
Definition runTerraformCommand (args : list string) (workingDir : string) : M string :=
  _ ← log "info" ("Running terraform command: " +:+ String.concat " " args);
  configured ← getenv "TERRAFORM_PATH";
  let terraformPath := to_string (or configured (Str "terraform")) in
  outcome ← external (λ w, Return (spawn ext terraformPath args workingDir w));
  _ ← record_spawn terraformPath args;
  match outcome with
  | Exited code stdout stderr created =>
      _ ← foldr (λ p k, _ ← writeFile p; k) (mret ()) created;
      _ ← log "info" ("Terraform command completed with code " +:+ pretty code);
      if code =? 0 then mret stdout
      else throw (Error ("Terraform command failed with code " +:+ pretty code +:+ ": "
                         +:+ (if String.eqb stderr "" then stdout else stderr)))
  | SpawnFailed msg =>
      _ ← log "error" "Terraform process error";
      throw (Error msg)
  end.

(** Apply Terraform infrastructure *)
Definition applyInfrastructure (deploymentConfig : value) : M value :=
  try_catch
    (deploymentId ← lift (get deploymentConfig "deploymentId");
     deploymentDir ← (λ w, lift (path_join
       [Str (cwd w); Str "temp"; deploymentId; Str "hello_world"; Str "terraform"]) w);

     (* Ensure deployment directory exists *)
     _ ← ensureDir deploymentDir;

     (* Generate and write Terraform configuration files *)
     configs ← generateTerraformConfig deploymentConfig;
     _ ← writeFile (deploymentDir +:+ "/main.tf");
     _ ← writeFile (deploymentDir +:+ "/variables.tf");
     _ ← writeFile (deploymentDir +:+ "/outputs.tf");
     _ ← writeFile (deploymentDir +:+ "/providers.tf");
     _ ← log "info" ("Terraform configuration written to " +:+ deploymentDir);

     (* Get the latest AMI ID *)
     amiId ← getLatestAMI;
     _ ← log "info" ("Using AMI ID: " +:+ amiId);

     (* Ensure plugin cache directory exists *)
     _ ← (λ w, ensureDir (cwd w +:+ "/.terraform-cache") w);

     _ ← log "info" "Initializing Terraform...";
     _ ← runTerraformCommand ["init"] deploymentDir;
     _ ← log "info" "Planning Terraform deployment...";
     _ ← runTerraformCommand ["plan"] deploymentDir;
     _ ← log "info" "Applying Terraform configuration...";
     applyResult ← runTerraformCommand ["apply"; "-auto-approve"] deploymentDir;
     _ ← log "info" "Getting Terraform outputs...";
     outputResult ← runTerraformCommand ["output"; "-json"] deploymentDir;

     outputs ← lift (JSON_parse ext outputResult);
     application_url ← lift (get outputs "application_url");
     publicUrl ← lift (match application_url with
                       | Undefined | Null => mret Undefined
                       | _ => get application_url "value"
                       end);
     _ ← log "info" "Infrastructure deployment completed successfully";
     mret (Obj [ ("success", Bool true); ("outputs", outputs); ("publicUrl", publicUrl);
                 ("message", Str "Infrastructure deployed successfully") ]))
    (λ error,
       _ ← log "error" "Error applying Terraform infrastructure";
       throw error).

(** Destroy Terraform infrastructure *)
Definition destroyInfrastructure (deploymentId : value) : M value :=
  try_catch
    (deploymentDir ← (λ w, lift (path_join
       [Str (cwd w); Str "temp"; deploymentId; Str "hello_world"; Str "terraform"]) w);

     (* Check if Terraform state exists *)
     stateFile ← lift (path_join [Str deploymentDir; Str "terraform.tfstate"]);
     present ← pathExists stateFile;
     if negb present : bool then
       _ ← log "warn" ("No Terraform state found for deployment " +:+ to_string deploymentId);
       mret (Obj [ ("success", Bool true); ("message", Str "No infrastructure to destroy") ])
     else
       (* Get AMI ID for destroy operation *)
       amiId ← getLatestAMI;
       _ ← log "info" ("Destroying Terraform infrastructure for " +:+ to_string deploymentId);
       (* Run terraform destroy *)
       _ ← runTerraformCommand ["destroy"; "-auto-approve"] deploymentDir;
       _ ← log "info" ("Infrastructure destroyed successfully for " +:+ to_string deploymentId);
       mret (Obj [ ("success", Bool true);
                   ("message", Str "Infrastructure destroyed successfully") ]))
    (λ error,
       _ ← log "error" "Error destroying Terraform infrastructure";
       throw error).

(** [this.terraformService[name](...args)]: dispatch on the methods the
    class defines. Any other name finds [undefined] on the instance, and
    calling it throws. *)
Definition call (name : string) (args : list value) : M value :=
  let arg := default Undefined (args !! 0%nat) in
  if String.eqb name "generateTerraformConfig" then generateTerraformConfig arg
  else if String.eqb name "generateMainTerraform" then Str <$> lift (generateMainTerraform arg)
  else if String.eqb name "generateUserDataScript" then Str <$> lift (generateUserDataScript arg)
  else if String.eqb name "generateVariablesTerraform" then
    Str <$> lift (generateVariablesTerraform arg)
  else if String.eqb name "generateOutputsTerraform" then
    Str <$> lift (generateOutputsTerraform arg)
  else if String.eqb name "generateProvidersTerraform" then
    Str <$> lift (generateProvidersTerraform arg)
  else if String.eqb name "applyInfrastructure" then applyInfrastructure arg
  else if String.eqb name "getLatestAMI" then Str <$> getLatestAMI
  else if String.eqb name "runTerraformCommand" then
    Str <$> runTerraformCommand
              (match arg with Arr elems => map to_string elems | _ => [] end)
              (to_string (default Undefined (args !! 1%nat)))
  else if String.eqb name "destroyInfrastructure" then destroyInfrastructure arg
  else throw (TypeError ("this.terraformService." +:+ name +:+ " is not a function")).

End Methods.
End TerraformService.

(* ===================================================================== *)
(** ** utils/fileSystem *)
(* ===================================================================== *)

Module FileSystem.

(** [process.env.TEMP_DIR || "./temp"] as seen from a given state. *)
Definition tempDir (w : World) : value :=
  or (match environ w !! "TEMP_DIR" with Some v => Str v | None => Undefined end)
     (Str "./temp").

(** Create deployment-specific directory *)
Definition createDeploymentDirectory (deploymentId : value) : M string :=
  configured ← getenv "TEMP_DIR";
  let tempDir := or configured (Str "./temp") in
  deploymentDir ← lift (path_join [tempDir; deploymentId]);
  _ ← ensureDir deploymentDir;
  _ ← log "info" ("Deployment directory created: " +:+ deploymentDir);
  mret deploymentDir.

Section Methods.
Context (ext : Externals).

(** Cleanup deployment files *)
Definition cleanupDeployment (deploymentId : value) : M unit :=
  configured ← getenv "TEMP_DIR";
  let tempDir := or configured (Str "./temp") in
  deploymentDir ← lift (path_join [tempDir; deploymentId]);
  try_catch
    (present ← pathExists deploymentDir;
     if present : bool then
       _ ← external (fs_remove ext deploymentDir);
       _ ← remove deploymentDir;
       log "info" ("Deployment directory cleaned up: " +:+ deploymentDir)
     else mret ())
    (λ error,
       (* Don't throw error for cleanup failures *)
       log "warn" ("Failed to cleanup deployment directory " +:+ deploymentDir +:+ ":")).

End Methods.
End FileSystem.

(* ===================================================================== *)
(** ** DeploymentService *)
(* ===================================================================== *)

Module DeploymentService.
Section Methods.
Context (ext : Externals).

(** *** The in-memory table and the record objects it points to *)

Definition with_memory (f : gmap string nat → gmap string nat)
    (g : gmap nat (list (string * value)) → gmap nat (list (string * value))) : M unit := λ w,
  (Return (),
   mkWorld (clock w) (entropy w) (environ w) (cwd w) (files w)
           (logged w) (spawned w) (f (deployments w)) (g (heap w))).

(** [this.deployments.has(id)] / [.get(id)] / [.set(id, o)] / [.delete(id)]. *)
Definition deployments_has (id : string) : M bool := λ w,
  (Return (bool_decide (is_Some (deployments w !! id))), w).
Definition deployments_get (id : string) : M (option nat) := λ w,
  (Return (deployments w !! id), w).
Definition deployments_set (id : string) (o : nat) : M unit :=
  with_memory (insert id o) (λ h, h).
Definition deployments_delete (id : string) : M unit :=
  with_memory (delete id) (λ h, h).

(** A new object literal. *)
Definition alloc (props : list (string * value)) : M nat := λ w,
  let o := fresh (dom (heap w)) in
  (Return o,
   mkWorld (clock w) (entropy w) (environ w) (cwd w) (files w)
           (logged w) (spawned w) (deployments w) (<[o := props]> (heap w))).

(** The current properties of an object, and [o.k = v]. *)
Definition read (o : nat) : M (list (string * value)) := λ w,
  (Return (default [] (heap w !! o)), w).
Definition assign (o : nat) (k : string) (v : value) : M unit :=
  with_memory (λ d, d) (alter (set k v) o).

Definition timestamp : M value := t ← now; mret (Str (toISOString ext t)).

(** *** Deployment steps shown to the user

    The class body defines [generateDeploymentSteps] twice; the later
    definition is the one in effect. *)

Definition is_python (framework : string) : bool :=
  String.eqb framework "flask" || String.eqb framework "django"
  || String.eqb framework "python".

Definition is_node (framework : string) : bool :=
  String.eqb framework "node" || String.eqb framework "express"
  || String.eqb framework "javascript" || String.eqb framework "nextjs"
  || String.eqb framework "react".

(** Get system configuration details based on framework *)
Definition getSystemConfigDetails (framework : value) : completion value :=
  lowered ← method_toLowerCase framework;
  mret (Arr (map Str
    (if is_python lowered then
       [ "Updating system packages (yum update)"; "Installing Python 3 and pip";
         "Installing Git for repository cloning";
         "Creating application directory structure";
         "Setting up Python virtual environment" ]
     else if is_node lowered then
       [ "Updating system packages (yum update)"; "Installing Node.js 18.x LTS";
         "Installing npm package manager"; "Installing Git for repository cloning";
         "Creating application directory structure" ]
     else
       [ "Updating system packages"; "Installing runtime dependencies";
         "Installing Git for repository cloning";
         "Creating application directory structure" ]))).

(** Get application deployment details based on framework *)
Definition getApplicationDeploymentDetails (framework analysisResult : value)
  : completion value :=
  url ← get analysisResult "repositoryUrl";
  let repositoryUrl := to_string (or url (Str "application repository")) in
  lowered ← method_toLowerCase framework;
  mret (Arr (map Str
    (if is_python lowered then
       [ "Cloning repository: " +:+ repositoryUrl;
         "Detecting main Python application file (app.py, main.py, server.py)";
         "Installing Python dependencies from requirements.txt";
         "Configuring Flask app to run on 0.0.0.0:8080";
         "Setting up application directory permissions" ]
     else if is_node lowered then
       [ "Cloning repository: " +:+ repositoryUrl;
         "Detecting main Node.js entry point (server.js, app.js, index.js)";
         "Installing npm dependencies (npm install)";
         "Configuring application port to 8080";
         "Setting up application directory permissions" ]
     else
       [ "Cloning repository: " +:+ repositoryUrl;
         "Detecting application entry point"; "Installing application dependencies";
         "Configuring application settings"; "Setting up directory permissions" ]))).

(** Get service setup details based on framework *)
Definition getServiceSetupDetails (framework : value) : completion value :=
  lowered ← method_toLowerCase framework;
  mret (Arr (map Str
    (if is_python lowered then
       [ "Creating systemd service file for Flask app";
         "Configuring service to auto-start on boot";
         "Setting correct working directory and permissions";
         "Starting flask-app.service"; "Enabling automatic restart on failure" ]
     else if is_node lowered then
       [ "Creating systemd service file for Node.js app";
         "Configuring service to auto-start on boot";
         "Setting correct working directory and permissions";
         "Starting node-app.service"; "Enabling automatic restart on failure" ]
     else
       [ "Creating systemd service file"; "Configuring service to auto-start on boot";
         "Setting correct working directory and permissions";
         "Starting application service"; "Enabling automatic restart on failure" ]))).

Definition ui_step (id title description : string) (details : value) : value :=
  Obj [ ("id", Str id); ("title", Str title); ("description", Str description);
        ("status", Str "pending"); ("details", details) ].

(** Generate deployment steps based on application analysis *)
Definition generateDeploymentSteps (analysisResult : value) : completion value :=
  appType ← get analysisResult "appType";
  fw ← get analysisResult "framework";
  lang ← get analysisResult "language";
  let framework := or (or fw lang) (Str "generic") in
  system ← getSystemConfigDetails framework;
  application ← getApplicationDeploymentDetails framework analysisResult;
  service ← getServiceSetupDetails framework;
  mret (Arr
    [ ui_step "infrastructure" "Setting up AWS Infrastructure"
        "Creating VPC, subnets, security groups, and EC2 instance with Elastic IP"
        (Arr (map Str
          [ "Allocating static Elastic IP address"; "Creating Virtual Private Cloud (VPC)";
            "Setting up public subnet with internet gateway";
            "Configuring security groups for web traffic";
            "Launching EC2 instance (t3.micro)" ]));
      ui_step "system" "Configuring Server Environment"
        "Installing system dependencies and runtime environment" system;
      ui_step "application" "Deploying Application"
        "Cloning repository and installing dependencies" application;
      ui_step "service" "Configuring Application Service"
        "Setting up systemd service and starting application" service;
      ui_step "verification" "Verifying Deployment"
        "Testing application accessibility and health"
        (Arr (map Str
          [ "Checking service status"; "Verifying port accessibility";
            "Testing HTTP response on port 8080";
            "Confirming application is live on Elastic IP" ])) ]).

(** Generate human-readable deployment instructions for manual replication *)
Definition generateDeploymentInstructions (analysisResult terraformOutputs : value)
  : completion value :=
  repositoryUrl ← get analysisResult "repositoryUrl";
  instance_public_ip ←
    (if truthy terraformOutputs then get terraformOutputs "instance_public_ip"
     else mret terraformOutputs);
  ip ← (if truthy instance_public_ip then get instance_public_ip "value" else mret Undefined);
  appType ← get analysisResult "appType";
  framework ← get analysisResult "framework";
  language ← get analysisResult "language";
  application_url ←
    (if truthy terraformOutputs then get terraformOutputs "application_url"
     else mret terraformOutputs);
  url ← (if truthy application_url then get application_url "value" else mret Undefined);
  mret (Arr (map Str (
    [ "1. Clone the repository:";
      (if truthy repositoryUrl then "   git clone " +:+ to_string repositoryUrl
       else "   # (Upload your codebase manually)");
      "";
      "2. Analyze the codebase and determine dependencies:";
      "   # Inspect requirements.txt, package.json, or other manifest files";
      "";
      "3. Generate and apply Terraform configuration:";
      "   # (Assumes AWS credentials are configured)";
      "   terraform init";
      "   terraform apply -auto-approve";
      "";
      "4. Wait for resources to be provisioned (EC2, VPC, Security Groups, EIP, etc.)";
      "";
      "5. SSH into the EC2 instance:";
      (if truthy instance_public_ip
       then "   ssh -i <your-key.pem> ec2-user@" +:+ to_string ip
       else "   ssh -i <your-key.pem> ec2-user@<EC2_PUBLIC_IP>");
      "" ]
    ++ (if strict_eq appType (Str "flask") || strict_eq framework (Str "flask") then
          [ "6. Set up Python environment and deploy Flask app:";
            "   sudo yum install -y python3 python3-pip git";
            "   python3 -m venv venv && source venv/bin/activate";
            "   pip install -r requirements.txt";
            "   python app.py" ]
        else if strict_eq framework (Str "express") || strict_eq language (Str "javascript") then
          [ "6. Set up Node.js environment and deploy Node app:";
            "   sudo yum install -y nodejs npm git";
            "   npm install";
            "   npm start" ]
        else
          [ "6. Set up application environment and run your app:";
            "   # Install required runtime and dependencies";
            "   # Start your application manually" ])
    ++ [ "";
         "7. (Optional) Set up systemd service for auto-start on boot";
         "   # Create a systemd service file and enable it";
         "";
         "8. Access your application in the browser:";
         (if truthy application_url then "   Open: " +:+ to_string url
          else "   Open: http://<EC2_PUBLIC_IP>:<PORT>") ]))).

(** *** Progress *)

(** Calculate deployment progress *)
Definition calculateProgress (deployment : list (string * value)) : value :=
  let stages := [Str "analyzed"; Str "deploying"; Str "deployed"; Str "failed"] in
  let status := member deployment "status" in
  let currentStageIndex := indexOf stages status in
  if currentStageIndex =? -1 then Num 0
  else if strict_eq status (Str "failed") then Num 100
  else Num (round_ratio ((currentStageIndex + 1) * 100) (Z.of_nat (length stages) - 1)).

(** *** Status updates *)

(** [[...xs]]: array spread of an iterable. *)
Definition spread_array (xs : value) : completion (list value) :=
  match xs with
  | Arr elems => Return elems
  | Str s => Return (map (λ c, Str (String c EmptyString)) (String.list_ascii_of_string s))
  | _ => Throw (TypeError "deployment.steps is not iterable")
  end.

(** Update deployment status *)
Definition updateDeploymentStatus (deploymentId : string) (status message : string)
    (result : value) (error : option error) : M unit :=
  existing ← deployments_get deploymentId;
  deployment ← match existing with
               | Some o => read o
               | None => mret []
               end;
  t ← timestamp;
  let step :=
    [ ("timestamp", t); ("status", Str status); ("message", Str message) ]
    ++ match error with
       | Some e => [ ("error", Str (Js.message e)) ]
       | None => []
       end in
  previous ← lift (spread_array (or (member deployment "steps") (Arr [])));
  lastUpdated ← timestamp;
  let updatedDeployment :=
    spread deployment
      [ ("deploymentId", Str deploymentId); ("status", Str status);
        ("currentStep", Str message); ("lastUpdated", lastUpdated);
        ("steps", Arr (previous ++ [Obj step])) ] in
  let updatedDeployment :=
    if truthy result then set "result" result updatedDeployment else updatedDeployment in
  let updatedDeployment :=
    match error with
    | Some e => set "error" (Str (Js.message e)) updatedDeployment
    | None => updatedDeployment
    end in
  o ← alloc updatedDeployment;
  _ ← deployments_set deploymentId o;
  log "info" ("Deployment " +:+ deploymentId +:+ " status updated:").

(** *** Analysis *)

(** Analyze an application for deployment requirements. The result is
    the address of the stored record. *)
Definition analyzeApplication (deploymentId : string)
    (description repositoryUrl uploadedFile : value) : M nat :=
  try_catch
    (_ ← log "info" ("Analyzing application for deployment " +:+ deploymentId);

     (* Create deployment directory *)
     deploymentDir ← FileSystem.createDeploymentDirectory (Str deploymentId);

     (* Step 1: Download/extract the repository *)
     codebasePath ←
       (if truthy repositoryUrl then
          Str <$> RepositoryAnalyzer.cloneRepository ext repositoryUrl deploymentDir
        else if truthy uploadedFile then
          path ← lift (get uploadedFile "path");
          Str <$> external (extractZipFile ext path deploymentDir)
        else mret Undefined);

     (* Step 2: Analyze the codebase *)
     codeAnalysis ← external (analyzeCodebase ext codebasePath);

     (* Step 3: Process natural language description *)
     nlpAnalysis ← external (processDeploymentDescription ext description);

     (* Step 4: Determine deployment strategy *)
     deploymentStrategy ←
       InfrastructureManager.determineDeploymentStrategy codeAnalysis nlpAnalysis description;

     (* Store analysis results *)
     t ← timestamp;
     analysisResult ← alloc
       [ ("deploymentId", Str deploymentId); ("timestamp", t);
         ("repositoryUrl", repositoryUrl); ("description", description);
         ("codeAnalysis", codeAnalysis); ("nlpAnalysis", nlpAnalysis);
         ("deploymentStrategy", deploymentStrategy); ("codebasePath", codebasePath);
         ("status", Str "analyzed") ];
     _ ← deployments_set deploymentId analysisResult;

     appType ← lift (get codeAnalysis "appType");
     type ← lift (get deploymentStrategy "type");
     _ ← log "info" ("Analysis completed for deployment " +:+ deploymentId);
     mret analysisResult)
    (λ error,
       _ ← log "error" ("Analysis failed for deployment " +:+ deploymentId +:+ ":");
       throw error).

(** *** Deployment *)

(** The public URL recorded by [deployApplication], from the Terraform
    outputs first and the infrastructure manager's URL last. *)
Definition publicUrl_of (infrastructureResult deploymentConfig deploymentResult : value)
  : completion value :=
  outputs ← get infrastructureResult "outputs";
  application_url ← (if truthy outputs then get outputs "application_url" else mret outputs);
  if truthy application_url then get application_url "value"
  else
    instance_public_ip ←
      (if truthy outputs then get outputs "instance_public_ip" else mret outputs);
    if truthy instance_public_ip then
      ip ← get instance_public_ip "value";
      configured ← get deploymentConfig "port";
      mret (Str ("http://" +:+ to_string ip +:+ ":" +:+ to_string (or configured (Num 8080))))
    else
      (* Fallback to deployment result URL if no Terraform outputs available *)
      get deploymentResult "publicUrl".

(** Deploy an application based on analysis *)
Definition deployApplication (deploymentId : string)
    (description repositoryUrl analysisId : value) : M nat :=
  try_catch
    (_ ← log "info" ("Starting deployment " +:+ deploymentId);

     (* Get analysis result *)
     known ← match analysisId with
             | Str id => if truthy analysisId then deployments_get id else mret None
             | _ => mret None
             end;
     analysisResult ← match known with
                      | Some o => mret o
                      | None =>
                          (* Perform new analysis *)
                          analyzeApplication deploymentId description repositoryUrl Undefined
                      end;

     (* Update deployment status *)
     _ ← assign analysisResult "status" (Str "deploying");
     t ← timestamp;
     _ ← assign analysisResult "deploymentStarted" t;

     (* Generate deployment steps for UI display *)
     snapshot ← read analysisResult;
     steps ← lift (generateDeploymentSteps (Obj snapshot));
     _ ← assign analysisResult "steps" steps;

     _ ← deployments_set deploymentId analysisResult;

     (* Step 1: Prepare deployment configuration *)
     analysis ← read analysisResult;
     deploymentConfig ←
       InfrastructureManager.generateDeploymentConfig ext (Obj analysis) (Str deploymentId);

     (* Step 2: Generate Terraform configuration *)
     terraformConfig ← TerraformService.call ext "generateTerraformConfig" [deploymentConfig];

     (* Step 3: Apply Terraform configuration *)
     infrastructureResult ←
       TerraformService.call ext "applyInfrastructure"
         [ Obj [ ("deploymentId", Str deploymentId);
                 ("workingDirectory", member analysis "codebasePath") ];
           terraformConfig ];

     (* Step 4: Deploy application to infrastructure *)
     deploymentResult ←
       InfrastructureManager.deployToInfrastructure ext (Str deploymentId)
         infrastructureResult (member analysis "codebasePath") deploymentConfig;

     (* Get the actual public URL from Terraform outputs (not from infrastructure manager) *)
     publicUrl ← lift (publicUrl_of infrastructureResult deploymentConfig deploymentResult);

     (* Update deployment status *)
     _ ← assign analysisResult "status" (Str "deployed");
     t ← timestamp;
     _ ← assign analysisResult "deploymentCompleted" t;
     _ ← assign analysisResult "infrastructure" infrastructureResult;
     _ ← assign analysisResult "deployment" deploymentResult;
     _ ← assign analysisResult "publicUrl" publicUrl;

     (* Generate deployment instructions for manual replication *)
     current ← read analysisResult;
     outputs ← lift (get infrastructureResult "outputs");
     instructions ← lift (generateDeploymentInstructions (Obj current) outputs);
     _ ← assign analysisResult "instructions" instructions;

     _ ← deployments_set deploymentId analysisResult;
     _ ← log "info" ("Deployment completed for " +:+ deploymentId);
     mret analysisResult)
    (λ error,
       _ ← log "error" ("Deployment failed for " +:+ deploymentId +:+ ":");

       (* Update deployment status *)
       known ← deployments_get deploymentId;
       _ ← match known with
           | Some deployment =>
               _ ← assign deployment "status" (Str "failed");
               _ ← assign deployment "error" (Str (message error));
               t ← timestamp;
               _ ← assign deployment "deploymentFailed" t;
               deployments_set deploymentId deployment
           | None => mret ()
           end;
       throw error).

(** The record stored at intake by [processChatDeployment]. *)
Definition initializeDeploymentStatus (deploymentId : string) (message repositoryUrl : value)
  : M unit :=
  t ← timestamp;
  initial ← alloc
    [ ("deploymentId", Str deploymentId); ("status", Str "initializing");
      ("timestamp", t); ("message", message); ("repositoryUrl", repositoryUrl);
      ("steps", Arr []) ];
  deployments_set deploymentId initial.

(** Process chat-based deployment (combined analyze + deploy) *)
Definition processChatDeployment (deploymentId : string)
    (message repositoryUrl uploadedFile : value) : M value :=
  try_catch
    (_ ← log "info" ("Processing chat deployment " +:+ deploymentId);

     (* Initialize deployment status *)
     _ ← initializeDeploymentStatus deploymentId message repositoryUrl;

     (* Step 1: Analyze the application *)
     _ ← updateDeploymentStatus deploymentId "analyzing" "Analyzing application..." Null None;
     analysisResult ← analyzeApplication deploymentId message repositoryUrl uploadedFile;

     (* Step 2: Deploy the application *)
     _ ← updateDeploymentStatus deploymentId "deploying" "Starting deployment..." Null None;
     deploymentResult ← deployApplication deploymentId message Undefined (Str deploymentId);

     (* Step 3: Generate chat response *)
     _ ← updateDeploymentStatus deploymentId "completing" "Generating response..." Null None;
     analysis ← read analysisResult;
     deployment ← read deploymentResult;
     chatResponse ←
       external (λ w, Return (generateChatResponse ext message (Obj analysis) (Obj deployment) w));

     (* Final result *)
     steps ← lift (generateDeploymentSteps (Obj analysis));
     let finalResult :=
       Obj [ ("analysis", Obj analysis); ("deployment", Obj deployment);
             ("chatResponse", chatResponse); ("steps", steps);
             ("deploymentId", Str deploymentId); ("repositoryUrl", repositoryUrl) ] in
     _ ← updateDeploymentStatus deploymentId "completed" "Deployment completed successfully"
           finalResult None;
     mret finalResult)
    (λ error,
       _ ← log "error" ("Chat deployment failed for " +:+ deploymentId +:+ ":");
       _ ← updateDeploymentStatus deploymentId "failed"
             ("Deployment failed: " +:+ Js.message error) Null (Some error);
       throw error).

(** *** Status *)

(** Get deployment status *)
Definition getDeploymentStatus (deploymentId : string) : M value :=
  known ← deployments_get deploymentId;
  match known with
  | Some o =>
      (* If deployment is in memory, return it *)
      deployment ← read o;
      mret (Obj [ ("deploymentId", Str deploymentId);
                  ("status", member deployment "status");
                  ("timestamp", member deployment "timestamp");
                  ("publicUrl", member deployment "publicUrl");
                  ("error", member deployment "error");
                  ("progress", calculateProgress deployment);
                  ("instructions", or (member deployment "instructions") Null) ])
  | None =>
      (* If not in memory, try to reconstruct from filesystem *)
      try_catch
        (configured ← getenv "TEMP_DIR";
         deploymentDir ← lift (path_join [or configured (Str "./temp"); Str deploymentId]);
         terraformDir ← lift (path_join [Str deploymentDir; Str "hello_world"; Str "terraform"]);
         terraformStateFile ← lift (path_join [Str terraformDir; Str "terraform.tfstate"]);

         (* Check if deployment directory and terraform state exists *)
         dirExists ← pathExists deploymentDir;
         stateExists ← (if dirExists : bool then pathExists terraformStateFile else mret false);
         if dirExists && stateExists then
           _ ← log "info" ("Reconstructing deployment status for " +:+ deploymentId
                           +:+ " from filesystem");
           (* Try to get Terraform outputs to determine if deployment was successful *)
           try_catch
             (terraformOutputs ←
                TerraformService.call ext "getTerraformOutputs" [Str terraformDir];
              application_url ← lift (get terraformOutputs "application_url");
              instance_public_ip ← lift (get terraformOutputs "instance_public_ip");
              publicUrl ← lift (
                if truthy application_url then get application_url "value"
                else if truthy instance_public_ip then
                  ip ← get instance_public_ip "value";
                  mret (Str ("http://" +:+ to_string ip +:+ ":8080"))
                else mret Null);

              (* Generate steps for reconstructed deployment (assume completed) *)
              steps ← lift (generateDeploymentSteps
                (Obj [ ("appType", Str "unknown"); ("framework", Str "flask") ]));
              instructions ← lift (generateDeploymentInstructions
                (Obj [ ("repositoryUrl", Null); ("appType", Str "flask");
                       ("framework", Str "flask") ]) terraformOutputs);

              (* Reconstruct deployment object and store it back in memory *)
              t ← timestamp;
              reconstructedDeployment ← alloc
                [ ("deploymentId", Str deploymentId); ("status", Str "completed");
                  ("timestamp", t); ("publicUrl", publicUrl);
                  ("infrastructure", terraformOutputs); ("steps", steps);
                  ("instructions", instructions); ("reconstructed", Bool true) ];
              _ ← deployments_set deploymentId reconstructedDeployment;
              mret (Obj [ ("deploymentId", Str deploymentId); ("status", Str "completed");
                          ("timestamp", t); ("publicUrl", publicUrl); ("error", Null);
                          ("progress", Num 100);
                          ("note", Str "Status reconstructed from deployment artifacts");
                          ("instructions", instructions) ]))
             (λ terraformError,
                _ ← log "warn" ("Failed to get Terraform outputs for " +:+ deploymentId +:+ ":");
                (* If terraform outputs fail, but state exists, assume it's in progress or failed *)
                t ← timestamp;
                mret (Obj [ ("deploymentId", Str deploymentId); ("status", Str "unknown");
                            ("timestamp", t); ("publicUrl", Null); ("error", Null);
                            ("progress", Num 50);
                            ("note", Str "Deployment artifacts found but status unclear") ]))
         else
           (* No deployment artifacts found *)
           throw (Error "Deployment not found"))
        (λ error,
           _ ← log "warn" ("Failed to reconstruct deployment status for " +:+ deploymentId +:+ ":");
           throw (Error "Deployment not found"))
  end.

(** *** Destruction *)

(** Destroy a deployment *)
Definition destroyDeployment (deploymentId : string) : M unit :=
  try_catch
    (_ ← log "info" ("Destroying deployment " +:+ deploymentId);
     known ← deployments_get deploymentId;
     match known with
     | None => throw (Error "Deployment not found")
     | Some o =>
         deployment ← read o;

         (* Destroy infrastructure using Terraform *)
         _ ← (if truthy (member deployment "infrastructure") then
                _ ← TerraformService.call ext "destroyInfrastructure"
                      [ Obj [ ("deploymentId", Str deploymentId);
                              ("workingDir", member deployment "codebasePath") ] ];
                mret ()
              else mret ());

         (* Cleanup local files *)
         _ ← FileSystem.cleanupDeployment ext (Str deploymentId);

         (* Remove from memory *)
         _ ← deployments_delete deploymentId;
         log "info" ("Deployment " +:+ deploymentId +:+ " destroyed successfully")
     end)
    (λ error,
       _ ← log "error" ("Failed to destroy deployment " +:+ deploymentId +:+ ":");
       throw error).

End Methods.
End DeploymentService.

(* ===================================================================== *)
(** ** The collaborator contracts and sample inputs *)
(* ===================================================================== *)

Module Contract.

Definition is_string (v : value) : bool :=
  match v with Str _ => true | _ => false end.
Definition is_boolean (v : value) : bool :=
  match v with Bool _ => true | _ => false end.
Definition is_object (v : value) : bool :=
  match v with Obj _ => true | _ => false end.
Definition is_string_array (v : value) : bool :=
  match v with Arr elems => forallb is_string elems | _ => false end.
Definition is_optional_string (v : value) : bool :=
  match v with Undefined | Null | Str _ => true | _ => false end.
Definition is_optional_number (v : value) : bool :=
  match v with Undefined | Null | Num _ => true | _ => false end.

(** A [CodeAnalysis] record with every field of the contract present:
    [{language, framework, appType, port?, dependencies, buildCommands[],
    startCommands[], environmentVariables[], databaseRequirements[],
    dockerized:boolean, staticFiles:boolean}]. The analyser leaves
    [language] and [framework] null when it detects none. *)
Definition codeAnalysis (v : value) : bool :=
  match v with
  | Obj props =>
      is_optional_string (member props "language")
      && is_optional_string (member props "framework")
      && is_optional_string (member props "appType")
      && is_optional_number (member props "port")
      && is_object (member props "dependencies")
      && is_string_array (member props "buildCommands")
      && is_string_array (member props "startCommands")
      && is_string_array (member props "environmentVariables")
      && is_string_array (member props "databaseRequirements")
      && is_boolean (member props "dockerized")
      && is_boolean (member props "staticFiles")
  | _ => false
  end.

(** An [IntentAnalysis] record with every field of the contract present:
    [{cloudProvider?, deploymentType?, environment, scalingRequirements,
    estimatedTraffic, databaseNeeded, storageNeeded, customDomain, https,
    monitoring : boolean, requirements : string[]}]. *)
Definition intentAnalysis (v : value) : bool :=
  match v with
  | Obj props =>
      is_optional_string (member props "cloudProvider")
      && is_optional_string (member props "deploymentType")
      && is_string (member props "environment")
      && is_string (member props "scalingRequirements")
      && is_string (member props "estimatedTraffic")
      && is_boolean (member props "databaseNeeded")
      && is_boolean (member props "storageNeeded")
      && is_boolean (member props "customDomain")
      && is_boolean (member props "https")
      && is_boolean (member props "monitoring")
      && is_string_array (member props "requirements")
  | _ => false
  end.

(** What the contracts give the services to rely on, field by field. *)
Record code_shape (props : list (string * value)) : Prop := {
  shape_language : is_optional_string (member props "language") = true;
  shape_framework : is_optional_string (member props "framework") = true;
  shape_appType : is_optional_string (member props "appType") = true;
  shape_port : is_optional_number (member props "port") = true;
  shape_dependencies : ∃ d, member props "dependencies" = Obj d;
  shape_databaseRequirements : ∃ l, member props "databaseRequirements" = Arr l;
  shape_environmentVariables :
    ∃ names, member props "environmentVariables" = Arr (Str <$> names);
  shape_dockerized : ∃ b, member props "dockerized" = Bool b;
  shape_staticFiles : ∃ b, member props "staticFiles" = Bool b;
}.

Record intent_shape (props : list (string * value)) : Prop := {
  shape_deploymentType : is_optional_string (member props "deploymentType") = true;
  shape_requirements : ∃ l, member props "requirements" = Arr l;
}.

(** The analysis record handed to the configuration assembler: both
    collaborator records and the strategy object decided from them. *)
Definition analysis (v : value) : bool :=
  match v with
  | Obj props =>
      codeAnalysis (member props "codeAnalysis")
      && intentAnalysis (member props "nlpAnalysis")
      && is_object (member props "deploymentStrategy")
  | _ => false
  end.

(** The closed set of strategy types. *)
Definition strategy_types : list value :=
  [Str "static"; Str "serverless"; Str "container"; Str "vm"; Str "kubernetes"].

(** None of the rules that select static, serverless, container or
    kubernetes applies to the pair. *)
Definition no_rule_matches (codeAnalysis nlpAnalysis : value) : Prop :=
  (∃ appType staticFiles,
     get codeAnalysis "appType" = Return appType
     ∧ get codeAnalysis "staticFiles" = Return staticFiles
     ∧ strict_eq appType (Str "static") = false
     ∧ truthy staticFiles && negb (truthy appType) = false)
  ∧ (∃ v, InfrastructureManager.shouldUseServerless codeAnalysis nlpAnalysis = Return v
          ∧ truthy v = false)
  ∧ (∃ dockerized, get codeAnalysis "dockerized" = Return dockerized
                   ∧ truthy dockerized = false)
  ∧ (∃ v, InfrastructureManager.shouldUseContainer codeAnalysis nlpAnalysis = Return v
          ∧ truthy v = false)
  ∧ (∃ v, InfrastructureManager.shouldUseKubernetes codeAnalysis nlpAnalysis = Return v
          ∧ truthy v = false).

(** The members of [Object.prototype] whose call with the generator's
    arguments throws. *)
Definition throwing_members : list string :=
  ["__proto__"; "__defineGetter__"; "__defineSetter__"].

End Contract.

(** Predicates used to state the properties. *)
Module Spec.

(** [pat] occurs in [s]. *)
Definition substring_of (pat s : string) : Prop :=
  ∃ before after, s = before +:+ pat +:+ after.

(** The name contains one of the secret keywords once lowercased. *)
Definition is_secret (name : string) : bool :=
  existsb (includes (toLowerCase name)) InfrastructureManager.secretPatterns.

(** The text of one ingress rule of the generated security group that
    opens [port] to all sources. *)
Definition ingress_rule (description port : string) : string :=
  String.concat EmptyString
  [ "  ingress {"; nl;
    "    description = "; dq; description; dq; nl;
    "    from_port   = "; port; nl;
    "    to_port     = "; port; nl;
    "    protocol    = "; dq; "tcp"; dq; nl;
    "    cidr_blocks = ["; dq; "0.0.0.0/0"; dq; "]"; nl;
    "  }"; nl ].

(** The text of the rule that leaves all outbound traffic open. *)
Definition egress_all : string :=
  String.concat EmptyString
  [ "  egress {"; nl;
    "    description = "; dq; "All outbound traffic"; dq; nl;
    "    from_port   = 0"; nl;
    "    to_port     = 0"; nl;
    "    protocol    = "; dq; "-1"; dq; nl;
    "    cidr_blocks = ["; dq; "0.0.0.0/0"; dq; "]"; nl;
    "  }"; nl ].

(** The record stored for an id, if any, and the steps recorded in it
    ([None] when the [steps] property holds something that is not a list). *)
Definition record_of (w : World) (id : string) : option (list (string * value)) :=
  o ← deployments w !! id; Some (default [] (heap w !! o)).

Definition steps_of (w : World) (id : string) : option (list value) :=
  match or (member (default [] (record_of w id)) "steps") (Arr []) with
  | Arr steps => Some steps
  | _ => None
  end.

(** The environment-variable names of the analysed code are of the
    ASCII range. *)
Definition ascii_names (analysis : list (string * value)) : bool :=
  match member analysis "codeAnalysis" with
  | Obj code =>
      match member code "environmentVariables" with
      | Arr names =>
          forallb (λ name, match name with Str s => ascii_only s | _ => true end) names
      | _ => true
      end
  | _ => true
  end.

(** Every id of the table points to a record. *)
Definition memory_consistent (w : World) : Prop :=
  ∀ id o, deployments w !! id = Some o → is_Some (heap w !! o).

(** The statuses for which [calculateProgress] has a bucket. *)
Definition stages : list string := ["analyzed"; "deploying"; "deployed"; "failed"].

End Spec.

Module Sample.

(** A Flask application as the analyser reports it. *)
Definition flask_props (port : value) : list (string * value) :=
  [ ("appType", Str "flask"); ("framework", Str "flask"); ("language", Str "python");
    ("dependencies", Obj [ ("pip", Arr [Str "flask"]) ]);
    ("buildCommands", Arr []); ("startCommands", Arr [Str "python app.py"]);
    ("port", port);
    ("environmentVariables", Arr [Str "DB_PASSWORD"; Str "DB_HOST"]);
    ("databaseRequirements", Arr []);
    ("staticFiles", Bool false); ("dockerized", Bool false) ].
Definition flask (port : value) : value := Obj (flask_props port).

(** The intent extracted from a request, with an optional explicit type. *)
Definition intent (deploymentType : value) : value :=
  Obj [ ("cloudProvider", Str "aws"); ("deploymentType", deploymentType);
        ("environment", Str "production"); ("scalingRequirements", Str "low");
        ("estimatedTraffic", Str "low"); ("databaseNeeded", Bool false);
        ("storageNeeded", Bool false); ("customDomain", Bool false);
        ("https", Bool false); ("monitoring", Bool false); ("requirements", Arr []) ].

(** The outputs a finished apply reports for the generated templates. *)
Definition outputs : value :=
  Obj [ ("application_url", Obj [ ("value", Str "http://203.0.113.7:8080") ]);
        ("instance_public_ip", Obj [ ("value", Str "203.0.113.7") ]);
        ("instance_public_dns", Obj [ ("value", Str "ec2-203-0-113-7.compute-1.amazonaws.com") ]) ].

(** Outputs that carry a public DNS name only. *)
Definition dns_only : value :=
  Obj [ ("instance_public_dns",
         Obj [ ("value", Str "ec2-203-0-113-7.compute-1.amazonaws.com") ]) ].

(** Outputs that carry a public address only. *)
Definition address_only : value :=
  Obj [ ("instance_public_ip", Obj [ ("value", Str "203.0.113.7") ]) ].

(** An environment in which every external step succeeds: the clone
    works, the analysers return [code] and [nlp], the image query fails
    over to the fallback image, and each run of the provisioning binary
    exits with code 0, the apply step leaving a state file behind. *)
Definition externals (code nlp tool_outputs : value) : Externals :=
  mkExternals
    (λ t, pretty t)
    (λ r, pretty r)
    (λ _ _, Throw (Error "aws: command not found"))
    (λ _, Return tool_outputs)
    (λ _ args dir _,
       Exited 0 "" ""
         (if decide (args = ["apply"; "-auto-approve"])
          then [dir +:+ "/terraform.tfstate"] else []))
    (λ _ _ _, Return ())
    (λ _ _ _, Throw (Error "no archive"))
    (λ _ _, Return code)
    (λ _ _, Return nlp)
    (λ _ _ _ _, Str "Your application is live.")
    (λ _ _, Return ())
    (λ _ _, 0).

(** A freshly started process. *)
Definition boot : World := mkWorld 1700000000000 [] ∅ "/srv/arvo" ∅ [] [] ∅ ∅.

(** The value a call returns when run from [boot]. *)
Definition result_of (m : M value) : value :=
  match (m boot).1 with
  | Return v => v
  | Throw _ => Undefined
  end.

(** The record [analyzeApplication] stores for deployment [dep-1] when
    the collaborators report [code] and [nlp]. *)
Definition analysisResult (code nlp : value) : list (string * value) :=
  [ ("deploymentId", Str "dep-1"); ("timestamp", Str "1700000000000");
    ("repositoryUrl", Str "https://example/repo");
    ("description", Str "Deploy my Flask app on AWS");
    ("codeAnalysis", code); ("nlpAnalysis", nlp);
    ("deploymentStrategy",
     result_of (InfrastructureManager.determineDeploymentStrategy code nlp
                  (Str "Deploy my Flask app on AWS")));
    ("codebasePath", Str "temp/dep-1/repo"); ("status", Str "analyzed") ].

(** The configuration assembled from that record. *)
Definition config (code nlp : value) : value :=
  result_of (InfrastructureManager.generateDeploymentConfig (externals code nlp outputs)
               (Obj (analysisResult code nlp)) (Str "dep-1")).

(** The externals of a run in which the Flask application, detected on
    port 5000, is deployed on request. *)
Definition flask_run : Externals :=
  externals (flask (Num 5000)) (intent (Str "vm")) outputs.

(** The process after the chat flow deployed [dep-1] to completion. *)
Definition deployed : World :=
  (DeploymentService.processChatDeployment flask_run "dep-1"
     (Str "Deploy my Flask app on AWS") (Str "https://example/repo") Undefined boot).2.

(** The same machine after the process restarted: the artifacts are on
    disk, the in-memory table is empty. *)
Definition restarted : World :=
  mkWorld (clock deployed) [] ∅ (cwd deployed) (files deployed) [] [] ∅ ∅.

(** The process still holding the deployed record after the temporary
    directory, and the state artifact with it, was cleaned from disk. *)
Definition state_removed : World :=
  mkWorld (clock deployed) [] ∅ (cwd deployed) ∅ [] []
    (deployments deployed) (heap deployed).

(** The chat flow for [dep-1] up to the announcement of the deployment,
    just before [deployApplication] runs. *)
Definition announced : World :=
  ((_ ← DeploymentService.initializeDeploymentStatus flask_run "dep-1"
          (Str "Deploy my Flask app on AWS") (Str "https://example/repo");
    _ ← DeploymentService.updateDeploymentStatus flask_run "dep-1" "analyzing"
          "Analyzing application..." Null None;
    _ ← DeploymentService.analyzeApplication flask_run "dep-1"
          (Str "Deploy my Flask app on AWS") (Str "https://example/repo") Undefined;
    DeploymentService.updateDeploymentStatus flask_run "dep-1" "deploying"
      "Starting deployment..." Null None) boot).2.

(** A process holding one record that reached [completed]. *)
Definition completed : World :=
  mkWorld 1700000000000 [] ∅ "/srv/arvo" ∅ [] []
    {[ "dep-1" := 0%nat ]}
    {[ 0%nat := [ ("deploymentId", Str "dep-1"); ("status", Str "completed") ] ]}.

End Sample.

(* ===================================================================== *)
(** ** File path validation (utils/fileSystem.js) *)
(* ===================================================================== *)

Module Paths.

(** [path.resolve(p)]: the absolute, normalised path [p] denotes for the
    running process; an argument that is not a string is rejected. *)
Definition absolute (segs : list string) : string := "/" +:+ String.concat "/" segs.

Definition path_resolve (p : value) : M string := λ w,
  match p with
  | Str s => (Return (absolute (resolve w s)), w)
  | _ => (Throw invalid_path_argument, w)
  end.

(** Validate file path security *)
Definition validateFilePath (filePath allowedBasePath : value) : M string :=
  resolvedPath ← path_resolve filePath;
  resolvedBasePath ← path_resolve allowedBasePath;
  if negb (starts_with resolvedBasePath resolvedPath)
  then throw (Error "Invalid file path - outside allowed directory")
  else mret resolvedPath.

End Paths.

(* ===================================================================== *)
(** ** NLPProcessor: keyword extraction *)
(* ===================================================================== *)

(** The keyword pass of the description processor. Descriptions are
    strings of the ASCII range, like every string here. The later passes
    ([analyzeWithGemini], [analyzeWithRules]) are collaborators of the
    deployment service and stay external. *)
Module NLPProcessor.

(** Keywords for deployment requirements *)
Definition cloudProviders : list string :=
  ["aws"; "azure"; "gcp"; "google cloud"; "amazon"; "microsoft"].
Definition deploymentTypes : list string :=
  ["serverless"; "container"; "vm"; "kubernetes"; "docker"; "lambda"; "ec2"; "ecs"; "fargate"].
Definition environments : list string :=
  ["production"; "staging"; "development"; "test"; "demo"].
Definition frameworks : list string :=
  ["flask"; "django"; "express"; "react"; "vue"; "angular"; "spring"; "laravel"].

Definition normalizeCloudProvider (provider : string) : value :=
  let mapping :=
    [ ("aws", Str "aws"); ("amazon", Str "aws"); ("azure", Str "azure");
      ("microsoft", Str "azure"); ("gcp", Str "gcp"); ("google cloud", Str "gcp") ] in
  or (member mapping (toLowerCase provider)) (Str "aws").

Definition normalizeDeploymentType (type : string) : value :=
  let mapping :=
    [ ("serverless", Str "serverless"); ("lambda", Str "serverless");
      ("container", Str "container"); ("docker", Str "container");
      ("kubernetes", Str "kubernetes"); ("vm", Str "vm"); ("ec2", Str "vm");
      ("static", Str "static") ] in
  or (member mapping (toLowerCase type)) (Str "vm").

(** [/a|b|c/i.test(text)] for alternatives that are plain lowercase
    words: some alternative occurs in the text, letter case aside. *)
Definition test_words (words : list string) (text : string) : bool :=
  existsb (includes (toLowerCase text)) words.

(** What is left of [s] after the prefix [pat], if [s] starts with it. *)
Fixpoint strip_prefix (pat s : string) : option string :=
  match pat, s with
  | EmptyString, _ => Some s
  | String p pat', String c s' => if Ascii.eqb p c then strip_prefix pat' s' else None
  | String _ _, EmptyString => None
  end.

(** A regular expression matches somewhere in [s] when it matches at
    the start of one of the suffixes of [s]. *)
Fixpoint search (here : string → bool) (s : string) : bool :=
  here s ||
  match s with
  | EmptyString => false
  | String _ s' => search here s'
  end.

(** [.] matches every character but a line terminator. *)
Definition line_terminator (c : ascii) : bool :=
  Ascii.eqb c "010"%char || Ascii.eqb c "013"%char.

(** [/auto.?scale/] at the start of [s]. *)
Definition auto_scale_here (s : string) : bool :=
  match strip_prefix "auto" s with
  | Some after =>
      match after with
      | String c after' => negb (line_terminator c) && starts_with "scale" after'
      | EmptyString => false
      end
      || starts_with "scale" after
  | None => false
  end.

(** Extract specific requirements from text *)
Definition extractRequirements (description : string) : value :=
  Arr (map Str (
    (* Security requirements *)
    (if test_words ["secure"; "security"; "auth"; "login"] description
     then ["security"] else [])
    (* Performance requirements *)
    ++ (if test_words ["fast"; "performance"; "speed"; "optimize"] description
        then ["performance"] else [])
    (* Scalability requirements *)
    ++ (if test_words ["scale"; "scalable"] description
           || search auto_scale_here (toLowerCase description)
        then ["auto-scaling"] else [])
    (* High availability *)
    ++ (if test_words ["availability"; "uptime"; "reliable"] description
        then ["high-availability"] else [])
    (* Cost optimization *)
    ++ (if test_words ["cheap"; "cost"; "budget"; "affordable"] description
        then ["cost-optimization"] else []))).

(** [for (const k of keywords) if (lowered.includes(k)) { ...; break; }]:
    the first keyword of the list that occurs in the text. *)
Definition first_keyword (keywords : list string) (lowered : string) : option string :=
  List.find (includes lowered) keywords.

(** Extract keywords from description. The analysis object is updated
    in place; the tokens and stems computed first are not used. *)
Definition extractKeywords (description : value) (analysis : list (string * value))
  : completion (list (string * value)) :=
  lowered ← method_toLowerCase description;
  (* Find cloud provider *)
  let analysis :=
    match first_keyword cloudProviders lowered with
    | Some provider => set "cloudProvider" (normalizeCloudProvider provider) analysis
    | None => analysis
    end in
  (* Find deployment type *)
  let analysis :=
    match first_keyword deploymentTypes lowered with
    | Some type => set "deploymentType" (normalizeDeploymentType type) analysis
    | None => analysis
    end in
  (* Find environment *)
  let analysis :=
    match first_keyword environments lowered with
    | Some env => set "environment" (Str env) analysis
    | None => analysis
    end in
  (* Find framework *)
  let analysis :=
    match first_keyword frameworks lowered with
    | Some framework => set "framework" (Str framework) analysis
    | None => analysis
    end in
  (* Extract requirements *)
  mret (set "requirements" (extractRequirements (to_string description)) analysis).

End NLPProcessor.

(* ===================================================================== *)
(** ** Routes of the deployment API *)
(* ===================================================================== *)

(** The handlers that answer after the service call has finished. A
    handler's effect is the response it sends: the status code and the
    JSON body. What runs before a handler (the request logger of the
    application and, for [/analyze], multer's [upload.single]) is not
    part of it: a handler starts from the state these left, with
    [req.body] and [req.file] as they set them. The handlers of
    [/deploy] and [/chat] answer before the deployment they start has
    finished and are not modelled. *)
Module Routes.

Record response : Type := mkResponse {
  code : Z;
  body : list (string * value);
}.

Section Handlers.
Context (ext : Externals).

(** [res.json(body)] and [res.status(code).json(body)]. *)
Definition json (body : list (string * value)) : M response := mret (mkResponse 200 body).
Definition status_json (code : Z) (body : list (string * value)) : M response :=
  mret (mkResponse code body).

(** The handler of POST /api/deployment/analyze: analyze a repository
    or uploaded zip file. [deploymentId] is the fresh [uuidv4()], [body]
    the object the body parsers left in [req.body], [file] is the
    [req.file] that [upload.single("codebase")] set. *)
Definition analyze (deploymentId : string) (body : list (string * value)) (file : value)
  : M response :=
  try_catch
    (let description := member body "description" in
     let repositoryUrl := member body "repositoryUrl" in
     if negb (truthy description) then
       status_json 400 [ ("success", Bool false);
                         ("error", Str "Missing required field: description") ]
     else if negb (truthy repositoryUrl) && negb (truthy file) then
       status_json 400 [ ("success", Bool false);
                         ("error", Str "Either repositoryUrl or codebase file must be provided") ]
     else
       _ ← log "info" ("Starting analysis for deployment " +:+ deploymentId);
       analysisResult ←
         DeploymentService.analyzeApplication ext deploymentId description repositoryUrl file;
       analysis ← DeploymentService.read analysisResult;
       json [ ("success", Bool true); ("deploymentId", Str deploymentId);
              ("analysis", Obj analysis);
              ("message", Str "Application analysis completed successfully") ])
    (λ error,
       _ ← log "error" ("Analysis failed for deployment " +:+ deploymentId +:+ ":");
       status_json 500 [ ("success", Bool false); ("deploymentId", Str deploymentId);
                         ("error", Str "Analysis failed");
                         ("message", Str (message error)) ]).

(** GET /api/deployment/:deploymentId/status *)
Definition status (deploymentId : string) : M response :=
  try_catch
    (status ← DeploymentService.getDeploymentStatus ext deploymentId;
     json [ ("success", Bool true); ("deploymentId", Str deploymentId); ("status", status) ])
    (λ error,
       _ ← log "error" "Failed to get deployment status:";
       status_json 500 [ ("success", Bool false);
                         ("error", Str "Failed to get deployment status");
                         ("message", Str (message error)) ]).

(** GET /api/deployment/:deploymentId/steps *)
Definition steps (deploymentId : string) : M response :=
  try_catch
    (status ← DeploymentService.getDeploymentStatus ext deploymentId;
     listed ← lift (get status "steps");
     let steps := or listed (Arr []) in
     json [ ("success", Bool true); ("deploymentId", Str deploymentId); ("steps", steps) ])
    (λ error,
       _ ← log "error" "Failed to get deployment steps:";
       status_json 500 [ ("success", Bool false);
                         ("error", Str "Failed to get deployment steps");
                         ("message", Str (message error)) ]).

(** GET /api/deployment/:deploymentId/instructions *)
Definition instructions (deploymentId : string) : M response :=
  try_catch
    (status ← DeploymentService.getDeploymentStatus ext deploymentId;
     instructions ← lift (get status "instructions");
     if truthy instructions then
       json [ ("success", Bool true); ("deploymentId", Str deploymentId);
              ("instructions", instructions) ]
     else
       json [ ("success", Bool true); ("deploymentId", Str deploymentId);
              ("instructions", Arr [Str "Instructions not available for this deployment"]) ])
    (λ error,
       _ ← log "error" "Failed to get deployment instructions:";
       status_json 500 [ ("success", Bool false);
                         ("error", Str "Failed to get deployment instructions");
                         ("message", Str (message error)) ]).

(** DELETE /api/deployment/:deploymentId *)
Definition destroy (deploymentId : string) : M response :=
  try_catch
    (_ ← DeploymentService.destroyDeployment ext deploymentId;
     json [ ("success", Bool true); ("deploymentId", Str deploymentId);
            ("message", Str "Deployment destroyed successfully") ])
    (λ error,
       _ ← log "error" "Failed to destroy deployment:";
       status_json 500 [ ("success", Bool false);
                         ("error", Str "Failed to destroy deployment");
                         ("message", Str (message error)) ]).

End Handlers.
End Routes.

(* ===================================================================== *)
(** ** Vocabulary for frames, outcomes and URLs *)
(* ===================================================================== *)

(** What a call leaves as it was, and how it ends. *)
Module Frame.

(** The deployment table and every record object are as before. *)
Definition memory_untouched (w w' : World) : Prop :=
  deployments w' = deployments w ∧ heap w' = heap w.

(** Nothing but the clock, the random stream and the log has changed. *)
Definition inert (w w' : World) : Prop :=
  environ w' = environ w ∧ cwd w' = cwd w ∧ files w' = files w
  ∧ spawned w' = spawned w ∧ deployments w' = deployments w ∧ heap w' = heap w.

(** [m] relates the state it ends in to the state it starts from by
    [R], from every state and whether it returns or throws. *)
Definition keeps (R : World → World → Prop) {A} (m : M A) : Prop :=
  ∀ w, R w (m w).2.

(** No other id's entry of the deployment table is added, removed or
    pointed elsewhere. *)
Definition others_untouched (id : string) (w w' : World) : Prop :=
  ∀ other, other ≠ id → deployments w' !! other = deployments w !! other.


(** [m] run from [w] ends in one of two ways: it returns with [Qr] or
    throws with [Qt]. *)
Definition outcome {A} (m : M A) (w : World)
    (Qr : A → World → Prop) (Qt : error → World → Prop) : Prop :=
  match m w with
  | (Return a, w') => Qr a w'
  | (Throw e, w') => Qt e w'
  end.

(** [process.env.TERRAFORM_PATH || "terraform"] as seen from a state. *)
Definition terraformPath (w : World) : string :=
  to_string (or (match environ w !! "TERRAFORM_PATH" with Some v => Str v | None => Undefined end)
                (Str "terraform")).

(** The provisioning commands of an apply, in the order they are run. *)
Definition apply_sequence : list (list string) :=
  [ ["init"]; ["plan"]; ["apply"; "-auto-approve"]; ["output"; "-json"] ].

(** What the process itself holds is as before: its environment, its
    working directory and the deployment memory. Nothing is said of the
    disk or of the programs consulted on the way. *)
Definition process_kept (w w' : World) : Prop :=
  environ w' = environ w ∧ cwd w' = cwd w
  ∧ deployments w' = deployments w ∧ heap w' = heap w.

(** Between [w] and [w'] the provisioning binary was run through
    [spawn] exactly for [runs], in that order; files may have been
    added, and the environment, the working directory and the
    deployment memory are as before. *)
Definition ran (runs : list (string * list string)) (w w' : World) : Prop :=
  spawned w' = spawned w ++ runs
  ∧ environ w' = environ w ∧ cwd w' = cwd w
  ∧ files w ⊆ files w'
  ∧ deployments w' = deployments w ∧ heap w' = heap w.

End Frame.


(** Helpers to state what the URL derivations read. *)
Module Url.

(** [output && output.value] for one entry of the provisioning
    outputs, as a value: the entry's [value] when the entry is an object,
    [undefined] otherwise. *)
Definition value_of (output : value) : value :=
  match output with
  | Obj props => member props "value"
  | _ => Undefined
  end.

(** The value announced under one key of the provisioning outputs. *)
Definition announced (infrastructure : list (string * value)) (key : string) : value :=
  value_of (member infrastructure key).

(** [deploymentConfig.port || 8080] and [infrastructure.region ||
    "us-east-1"], as interpolated into a URL. *)
Definition port_of (deploymentConfig : list (string * value)) : string :=
  to_string (or (member deploymentConfig "port") (Num 8080)).
Definition region_of (infrastructure : list (string * value)) : string :=
  to_string (or (member infrastructure "region") (Str "us-east-1")).

(** The [n]-th coming draw of [Math.random]. *)
Definition draw (n : nat) (w : World) : Z := default 0 (entropy w !! n).

(** The state after [n] draws. *)
Definition drawn (n : nat) (w : World) : World :=
  mkWorld (clock w) (drop n (entropy w)) (environ w) (cwd w) (files w)
          (logged w) (spawned w) (deployments w) (heap w).

(** The fabricated URL of the legacy fallback. *)
Definition mock_url (w : World) (region port : string) : string :=
  "http://ec2-" +:+ pretty (InfrastructureManager.octet (draw 0 w)) +:+ "-"
  +:+ pretty (InfrastructureManager.octet (draw 1 w)) +:+ "-"
  +:+ pretty (InfrastructureManager.octet (draw 2 w)) +:+ "-"
  +:+ pretty (InfrastructureManager.octet (draw 3 w)) +:+ "."
  +:+ region +:+ ".compute.amazonaws.com:" +:+ port.

End Url.

(** Inputs for the instances at which the general statements are
    checked to apply. *)
Module Scenario.

(** The environment of [Sample.flask_run], except that the plan step of
    the provisioning binary fails. *)
Definition plan_fails : Externals :=
  mkExternals
    (λ t, pretty t)
    (λ r, pretty r)
    (λ _ _, Throw (Error "aws: command not found"))
    (λ _, Return Sample.outputs)
    (λ _ args _ _,
       if decide (args = ["plan"])
       then Exited 1 "" "Error: No valid credential sources found" []
       else Exited 0 "" "" [])
    (λ _ _ _, Return ())
    (λ _ _ _, Throw (Error "no archive"))
    (λ _ _, Return (Sample.flask (Num 5000)))
    (λ _ _, Return (Sample.intent (Str "vm")))
    (λ _ _ _ _, Str "Your application is live.")
    (λ _ _, Return ())
    (λ _ _, 0).

(** The same environment, except that the repository cannot be cloned. *)
Definition clone_fails : Externals :=
  mkExternals
    (λ t, pretty t)
    (λ r, pretty r)
    (λ _ _, Throw (Error "aws: command not found"))
    (λ _, Return Sample.outputs)
    (λ _ _ _ _, Exited 0 "" "" [])
    (λ _ _ _, Throw (Error "Repository not found"))
    (λ _ _ _, Throw (Error "no archive"))
    (λ _ _, Return (Sample.flask (Num 5000)))
    (λ _ _, Return (Sample.intent (Str "vm")))
    (λ _ _ _ _, Str "Your application is live.")
    (λ _ _, Return ())
    (λ _ _, 0).

(** A configuration that names deployment [dep-1], and the working
    directory of its provisioning run. *)
Definition config : list (string * value) := [ ("deploymentId", Str "dep-1") ].
Definition terraformDir : string := "/srv/arvo/temp/dep-1/hello_world/terraform".
Definition stateFile : string := "/srv/arvo/temp/dep-1/hello_world/terraform/terraform.tfstate".

(** The outputs of [Sample.outputs], as properties. *)
Definition outputs : list (string * value) :=
  [ ("application_url", Obj [ ("value", Str "http://203.0.113.7:8080") ]);
    ("instance_public_ip", Obj [ ("value", Str "203.0.113.7") ]);
    ("instance_public_dns", Obj [ ("value", Str "ec2-203-0-113-7.compute-1.amazonaws.com") ]) ].

(** What [applyInfrastructure] returns for these outputs. *)
Definition applied : value :=
  Obj [ ("success", Bool true); ("outputs", Obj outputs);
        ("publicUrl", Str "http://203.0.113.7:8080");
        ("message", Str "Infrastructure deployed successfully") ].


(** The step recorded when the analysis of [dep-1] was announced, and a
    process whose record of [dep-1] holds that one step. *)
Definition analyzing_step : value :=
  Obj [ ("timestamp", Str "1700000000000"); ("status", Str "analyzing");
        ("message", Str "Analyzing application...") ].
Definition analyzing : World :=
  mkWorld 1700000000000 [] ∅ "/srv/arvo" ∅ [] []
    {[ "dep-1" := 0%nat ]}
    {[ 0%nat := [ ("deploymentId", Str "dep-1"); ("status", Str "analyzing");
                  ("message", Str "Analyzing application...");
                  ("steps", Arr [analyzing_step]) ] ]}.

(** A restarted process on the machine where the provisioning run of
    [dep-1] left its state artifact: the deployment directory and
    everything down to the state file are on disk, memory is empty. *)
Definition provisioned : World :=
  mkWorld 1700000000000 [] ∅ "/srv/arvo"
    (list_to_set
       (with_ancestors [ "srv"; "arvo"; "temp"; "dep-1"; "hello_world"; "terraform";
                         "terraform.tfstate" ]))
    [] [] ∅ ∅.


(** The analysis of a Flask application that talks to a MySQL database,
    for a request that asks for storage. *)
Definition stateful : list (string * value) :=
  Sample.analysisResult
    (Obj (set "databaseRequirements" (Arr [Str "mysql"]) (Sample.flask_props (Num 5000))))
    (Obj [ ("cloudProvider", Str "aws"); ("deploymentType", Str "vm");
           ("environment", Str "production"); ("scalingRequirements", Str "low");
           ("estimatedTraffic", Str "low"); ("databaseNeeded", Bool true);
           ("storageNeeded", Bool true); ("customDomain", Bool false);
           ("https", Bool false); ("monitoring", Bool false); ("requirements", Arr []) ]).

(** A Flask application and a request for high traffic that names no
    deployment type. *)
Definition busy_intent : list (string * value) :=
  [ ("cloudProvider", Str "aws"); ("deploymentType", Null);
    ("environment", Str "production"); ("scalingRequirements", Str "low");
    ("estimatedTraffic", Str "high"); ("databaseNeeded", Bool false);
    ("storageNeeded", Bool false); ("customDomain", Bool false);
    ("https", Bool false); ("monitoring", Bool false); ("requirements", Arr []) ].

End Scenario.


(* ===================================================================== *)
(** * Properties *)
(* ===================================================================== *)

(** ** Reasoning about completions *)

Ltac unfold_monad :=
  unfold mbind, mret, fmap, completion_bind, completion_ret, M_bind, M_ret, M_fmap in *.

(** Decide a membership in a list literal of distinct constants. *)
Ltac not_in_literal :=
  rewrite ?elem_of_cons, ?elem_of_nil; intros ?; destruct_or!; congruence.

Section Returns.
Context {A B : Type}.
Implicit Types (m : M A) (k : A → M B) (w : World).

Lemma returns_ret (a : A) w (Q : A → World → Prop) : Q a w → returns (mret a) w Q.
Proof. intros HQ. by exists a, w. Qed.

Lemma returns_bind m k w (Q : B → World → Prop) :
  returns m w (λ a w', returns (k a) w' Q) → returns (m ≫= k) w Q.
Proof.
  intros (a & w' & Hm & b & w'' & Hk & HQ). exists b, w''. split; [|done].
  unfold_monad. by rewrite Hm.
Qed.

Lemma returns_lift (c : completion A) (a : A) w (Q : A → World → Prop) :
  c = Return a → Q a w → returns (lift c) w Q.
Proof. intros -> HQ. by exists a, w. Qed.

Lemma returns_try_catch m (h : error → M A) w (Q : A → World → Prop) :
  returns m w Q → returns (try_catch m h) w Q.
Proof.
  intros (a & w' & Hm & HQ). exists a, w'. split; [|done].
  unfold try_catch. by rewrite Hm.
Qed.

Lemma returns_mono m w (P Q : A → World → Prop) :
  returns m w P → (∀ a w', P a w' → Q a w') → returns m w Q.
Proof. intros (a & w' & Hm & HP) HPQ. exists a, w'. eauto. Qed.

End Returns.

Lemma returns_log level msg w (Q : unit → World → Prop) :
  Q () (mkWorld (clock w) (entropy w) (environ w) (cwd w) (files w)
          (logged w ++ [(level, msg)]) (spawned w) (deployments w) (heap w)) →
  returns (log level msg) w Q.
Proof. intros HQ. by eexists _, _. Qed.

Lemma returns_now w (Q : Z → World → Prop) : Q (clock w) w → returns now w Q.
Proof. intros HQ. by eexists _, _. Qed.

(** ** Strings *)

Lemma starts_with_spec pat s :
  starts_with pat s = true ↔ ∃ after, s = pat +:+ after.
Proof.
  revert s. induction pat as [|p pat IH]; intros s; simpl.
  - split; [eauto | done].
  - destruct s as [|c s].
    + split; [done | intros [after H]; discriminate].
    + destruct (Ascii.eqb_spec p c) as [->|Hne].
      * rewrite IH. split; intros [after H]; exists after; [by rewrite H | by injection H].
      * split; [done | intros [after H]; injection H; congruence].
Qed.

Lemma includes_spec s pat : includes s pat = true ↔ Spec.substring_of pat s.
Proof.
  induction s as [|c s IH]; simpl.
  - rewrite orb_false_r, starts_with_spec. split.
    + intros [after H]. by exists EmptyString, after.
    + intros (before & after & H). destruct before; [by exists after | discriminate].
  - rewrite orb_true_iff, starts_with_spec, IH. split.
    + intros [[after H] | (before & after & H)].
      * by exists EmptyString, after.
      * exists (String c before), after. simpl. by rewrite H.
    + intros (before & after & H). destruct before as [|b before].
      * left. by exists after.
      * right. simpl in H. injection H as -> H. by exists before, after.
Qed.

(** ** Secret identification *)

Lemma some_pattern_includes name patterns :
  some_pattern (λ pattern,
      lowered ← method_toLowerCase (Str name); mret (includes lowered pattern)) patterns
  = Return (existsb (includes (toLowerCase name)) patterns).
Proof.
  induction patterns as [|p patterns IH]; [done|].
  simpl. unfold_monad. simpl.
  destruct (includes (toLowerCase name) p); [done | apply IH].
Qed.

Lemma filter_elems_strings (pred : value → completion bool) (f : string → bool) names :
  (∀ n, pred (Str n) = Return (f n)) →
  filter_elems pred (Str <$> names) = Return (Str <$> filter (λ n, f n = true) names).
Proof.
  intros Hpred. induction names as [|n names IH]; [done|].
  rewrite fmap_cons. cbn [filter_elems]. rewrite Hpred, IH.
  unfold_monad. rewrite filter_cons. destruct (f n) eqn:E.
  - by rewrite decide_True.
  - by rewrite decide_False.
Qed.

Lemma identifySecrets_filter names :
  InfrastructureManager.identifySecrets (Arr (Str <$> names))
  = Return (Arr (Str <$> filter (λ n, Spec.is_secret n = true) names)).
Proof.
  unfold InfrastructureManager.identifySecrets, method_filter.
  erewrite filter_elems_strings; [done|].
  intros n. apply some_pattern_includes.
Qed.

(** C6. An environment-variable name is flagged as a secret exactly
    when its lowercased form contains one of the substrings password,
    secret, key, token, api; the flagged names come in the order of the
    input. DB_PASSWORD is flagged and DB_HOST is not. The names are
    those of the ASCII range, where [toLowerCase] is the lowercasing of
    the language. *)
Theorem identifySecrets_flags_by_substring (names : list string)
    (Hascii : Forall (λ name, ascii_only name = true) names) :
  ∃ flagged,
    InfrastructureManager.identifySecrets (Arr (Str <$> names)) = Return (Arr (Str <$> flagged))
    ∧ flagged `sublist_of` names
    ∧ (∀ name, name ∈ flagged ↔
         name ∈ names ∧
         ∃ pattern, pattern ∈ ["password"; "secret"; "key"; "token"; "api"]
                    ∧ Spec.substring_of pattern (toLowerCase name))
    ∧ InfrastructureManager.identifySecrets (Arr [Str "DB_PASSWORD"; Str "DB_HOST"])
      = Return (Arr [Str "DB_PASSWORD"]).
Proof.
  exists (filter (λ n, Spec.is_secret n = true) names).
  split; [apply identifySecrets_filter|].
  split; [apply sublist_filter|]. split; [|reflexivity].
  intros name. rewrite list_elem_of_filter. unfold Spec.is_secret.
  rewrite existsb_exists. split.
  - intros [(p & Hp & Hinc) Hin]. split; [done|]. exists p.
    split; [by apply list_elem_of_In | by apply includes_spec].
  - intros [Hin (p & Hp & Hsub)]. split; [|done]. exists p.
    split; [by apply list_elem_of_In | by apply includes_spec].
Qed.

Lemma identifySecrets_flags_by_substring_witness :
  ∃ flagged,
    InfrastructureManager.identifySecrets
      (Arr [Str "DB_PASSWORD"; Str "DB_HOST"; Str "Api_Url"; Str "PORT"; Str "SESSION_KEY"])
    = Return (Arr (Str <$> flagged))
    ∧ "DB_PASSWORD" ∈ flagged ∧ "Api_Url" ∈ flagged ∧ "SESSION_KEY" ∈ flagged
    ∧ ("DB_HOST" ∉ flagged) ∧ ("PORT" ∉ flagged).
Proof.
  destruct (identifySecrets_flags_by_substring
              ["DB_PASSWORD"; "DB_HOST"; "Api_Url"; "PORT"; "SESSION_KEY"])
    as (flagged & Hrun & _ & Hflagged & _).
  { repeat constructor. }
  exists flagged. split; [exact Hrun|].
  split.
  { apply Hflagged. split; [rewrite !elem_of_cons; auto 10|]. exists "password". split; [rewrite !elem_of_cons; auto 10|].
    by exists "db_", "". }
  split.
  { apply Hflagged. split; [rewrite !elem_of_cons; auto 10|]. exists "api". split; [rewrite !elem_of_cons; auto 10|].
    by exists "", "_url". }
  split.
  { apply Hflagged. split; [rewrite !elem_of_cons; auto 10|]. exists "key". split; [rewrite !elem_of_cons; auto 10|].
    by exists "session_", "". }
  split.
  - intros Hin. apply Hflagged in Hin as [_ (pattern & Hpattern & Hsub)].
    apply includes_spec in Hsub.
    rewrite !elem_of_cons, elem_of_nil in Hpattern.
    destruct_or!; subst pattern; try done; vm_compute in Hsub; discriminate.
  - intros Hin. apply Hflagged in Hin as [_ (pattern & Hpattern & Hsub)].
    apply includes_spec in Hsub.
    rewrite !elem_of_cons, elem_of_nil in Hpattern.
    destruct_or!; subst pattern; try done; vm_compute in Hsub; discriminate.
Defined.

(** ** Progress *)

Lemma calculateProgress_cases deployment :
  DeploymentService.calculateProgress deployment =
    match member deployment "status" with
    | Str s =>
        if String.eqb s "analyzed" then Num 33
        else if String.eqb s "deploying" then Num 67
        else if String.eqb s "deployed" then Num 100
        else if String.eqb s "failed" then Num 100
        else Num 0
    | _ => Num 0
    end.
Proof.
  unfold DeploymentService.calculateProgress.
  destruct (member deployment "status") as [| |b|n| |s|l|p|f]; try reflexivity.
  unfold indexOf, indexOf_from, strict_eq.
  rewrite !(String.eqb_sym _ s).
  destruct (String.eqb_spec s "analyzed") as [->|]; [reflexivity|].
  destruct (String.eqb_spec s "deploying") as [->|]; [reflexivity|].
  destruct (String.eqb_spec s "deployed") as [->|]; [reflexivity|].
  destruct (String.eqb_spec s "failed") as [->|]; reflexivity.
Qed.

(** C10. [calculateProgress] returns 100 for status failed and a
    non-zero value only for the statuses of its fixed list; every other
    status, among them initializing, analyzing, completing and completed,
    yields 0, so a record polled at status completed reports progress 0. *)
Theorem calculateProgress_zero_outside_stage_list (ext : Externals)
    (w : World) (deploymentId : string) (o : nat) (deployment : list (string * value))
    (Hid : deployments w !! deploymentId = Some o)
    (Hrecord : heap w !! o = Some deployment) :
  (member deployment "status" = Str "failed" →
     DeploymentService.calculateProgress deployment = Num 100)
  ∧ (DeploymentService.calculateProgress deployment ≠ Num 0 →
       ∃ s, member deployment "status" = Str s ∧ s ∈ Spec.stages)
  ∧ (∀ s, s ∈ ["initializing"; "analyzing"; "completing"; "completed"] →
       member deployment "status" = Str s →
       DeploymentService.calculateProgress deployment = Num 0)
  ∧ (member deployment "status" = Str "completed" →
       ∃ polled, DeploymentService.getDeploymentStatus ext deploymentId w = (Return polled, w)
                 ∧ get polled "status" = Return (Str "completed")
                 ∧ get polled "progress" = Return (Num 0)).
Proof.
  rewrite calculateProgress_cases. split; [|split; [|split]].
  - by intros ->.
  - destruct (member deployment "status") as [| |b|n| |s|l|p|f]; try done.
    intros H. exists s. split; [done|]. unfold Spec.stages.
    rewrite !elem_of_cons.
    destruct (String.eqb_spec s "analyzed") as [E|]; [by left|].
    destruct (String.eqb_spec s "deploying") as [E|]; [by right; left|].
    destruct (String.eqb_spec s "deployed") as [E|]; [by right; right; left|].
    destruct (String.eqb_spec s "failed") as [E|]; [by right; right; right; left|done].
  - intros s Hs ->.
    repeat (apply elem_of_cons in Hs as [->|Hs]; [reflexivity|]).
    by apply elem_of_nil in Hs.
  - intros Hstatus.
    unfold DeploymentService.getDeploymentStatus, DeploymentService.deployments_get,
      DeploymentService.read.
    unfold_monad. rewrite Hid, Hrecord. simpl default.
    eexists. split; [reflexivity|].
    rewrite calculateProgress_cases, Hstatus. split; reflexivity.
Qed.

Lemma calculateProgress_zero_outside_stage_list_witness :
  deployments Sample.completed !! "dep-1" = Some 0%nat
  ∧ heap Sample.completed !! 0%nat
    = Some [ ("deploymentId", Str "dep-1"); ("status", Str "completed") ]
  ∧ ∃ polled,
      DeploymentService.getDeploymentStatus (Sample.externals Null Null Null) "dep-1"
        Sample.completed = (Return polled, Sample.completed)
      ∧ get polled "status" = Return (Str "completed")
      ∧ get polled "progress" = Return (Num 0).
Proof.
  split; [reflexivity|]. split; [reflexivity|].
  apply (calculateProgress_zero_outside_stage_list (Sample.externals Null Null Null)
           Sample.completed "dep-1" 0%nat
           [ ("deploymentId", Str "dep-1"); ("status", Str "completed") ]);
    reflexivity.
Defined.

(** ** Strategy determination *)

Lemma string_array_names v :
  Contract.is_string_array v = true → ∃ names, v = Arr (Str <$> names).
Proof.
  destruct v as [| | | | | |l| |]; try done. simpl. intros H. 
  assert (∃ names, l = Str <$> names) as [names ->]; [|by exists names].
  induction l as [|e l IH]; [by exists []|].
  simpl in H. apply andb_prop in H as [He Hl]. destruct (IH Hl) as [names ->].
  destruct e; try done. by exists (s :: names).
Qed.

Lemma codeAnalysis_shape v :
  Contract.codeAnalysis v = true → ∃ props, v = Obj props ∧ Contract.code_shape props.
Proof.
  destruct v as [| | | | | | |props|]; try done. unfold Contract.codeAnalysis.
  rewrite !andb_true_iff. intros H. exists props. split; [done|].
  destruct H as ((((((((((Hl & Hf) & Ha) & Hp) & Hd) & Hb) & Hs) & He) & Hr) & Hk) & Hsf).
  split; try done.
  - destruct (member props "dependencies"); try done. by eexists.
  - destruct (member props "databaseRequirements"); try done. by eexists.
  - by apply string_array_names.
  - destruct (member props "dockerized"); try done. by eexists.
  - destruct (member props "staticFiles"); try done. by eexists.
Qed.

Lemma intentAnalysis_shape v :
  Contract.intentAnalysis v = true → ∃ props, v = Obj props ∧ Contract.intent_shape props.
Proof.
  destruct v as [| | | | | | |props|]; try done. unfold Contract.intentAnalysis.
  rewrite !andb_true_iff. intros H. exists props. split; [done|].
  destruct H as ((((((((((Hl & Hf) & Ha) & Hp) & Hd) & Hb) & Hs) & He) & Hr) & Hk) & Hsf).
  split; try done.
  destruct (member props "requirements"); try done. by eexists.
Qed.

Lemma shouldUseServerless_returns code nlp :
  Contract.code_shape code → ∃ v, InfrastructureManager.shouldUseServerless (Obj code) (Obj nlp) = Return v.
Proof.
  intros [_ Hf Ha _ [d Hd] [l Hl] _ _ _]. unfold InfrastructureManager.shouldUseServerless.
  cbn [get]. unfold_monad. rewrite Hl, Hd. cbn [method_includes].
  repeat match goal with |- context [if ?b then _ else _] => destruct b end; by eexists.
Qed.

Lemma shouldUseContainer_returns code nlp :
  Contract.code_shape code → ∃ v, InfrastructureManager.shouldUseContainer (Obj code) (Obj nlp) = Return v.
Proof.
  intros [_ Hf Ha _ [d Hd] [l Hl] _ [b Hb] _]. unfold InfrastructureManager.shouldUseContainer.
  cbn [get]. unfold_monad. rewrite Hl, Hb. cbn [get method_includes].
  repeat match goal with |- context [if ?b then _ else _] => destruct b end; by eexists.
Qed.

Lemma shouldUseKubernetes_returns code nlp :
  Contract.code_shape code → Contract.intent_shape nlp →
  ∃ v, InfrastructureManager.shouldUseKubernetes (Obj code) (Obj nlp) = Return v.
Proof.
  intros [_ Hf Ha _ [d Hd] [l Hl] _ [b Hb] _] [_ [r Hr]]. unfold InfrastructureManager.shouldUseKubernetes.
  cbn [get]. unfold_monad. rewrite Hl, Hr. cbn [get method_includes].
  repeat match goal with |- context [if ?b then _ else _] => destruct b end; by eexists.
Qed.

Lemma decide_named strategy code nlp (named : value) :
  member nlp "deploymentType" = named → truthy named = true →
  InfrastructureManager.decideStrategy strategy (Obj code) (Obj nlp)
  = Return (InfrastructureManager.choose strategy named ("User requested " +:+ to_string named +:+ " deployment")).
Proof.
  intros Hn Ht. unfold InfrastructureManager.decideStrategy. cbn [get]. unfold_monad. by rewrite Hn, Ht.
Qed.

Lemma decide_unnamed strategy code nlp :
  Contract.code_shape code → Contract.intent_shape nlp →
  truthy (member nlp "deploymentType") = false →
  ∃ t reason,
    InfrastructureManager.decideStrategy strategy (Obj code) (Obj nlp) = Return (InfrastructureManager.choose strategy (Str t) reason)
    ∧ Str t ∈ Contract.strategy_types.
Proof.
  intros Hcode Hintent Hn.
  destruct (shouldUseServerless_returns code nlp Hcode) as [v3 H3].
  destruct (shouldUseContainer_returns code nlp Hcode) as [v4 H4].
  destruct (shouldUseKubernetes_returns code nlp Hcode Hintent) as [v5 H5].
  unfold InfrastructureManager.decideStrategy. cbn [get]. unfold_monad. rewrite Hn, H3, H4, H5.
  unfold Contract.strategy_types.
  repeat match goal with |- context [if ?b then _ else _] => destruct b end;
    eexists _, _; (split; [reflexivity | rewrite !elem_of_cons; tauto]).
Qed.

Lemma decide_unmatched strategy codeAnalysis nlpAnalysis named :
  get nlpAnalysis "deploymentType" = Return named → truthy named = false →
  Contract.no_rule_matches codeAnalysis nlpAnalysis →
  InfrastructureManager.decideStrategy strategy codeAnalysis nlpAnalysis
  = Return (InfrastructureManager.choose strategy (Str "vm") "Standard VM deployment for flexibility").
Proof.
  intros Hn Ht ((a & sf & Ha & Hsf & H2a & H2b) & (v3 & H3 & Hv3) & (d & Hd & Hdt)
                & (v4 & H4 & Hv4) & (v5 & H5 & Hv5)).
  unfold InfrastructureManager.decideStrategy. unfold_monad.
  by rewrite Hn, Ht, Ha, Hsf, H2a, H2b, H3, Hv3, Hd, Hdt, H4, Hv4, H5, Hv5.
Qed.

Lemma generateStrategyDetails_named t reason codeAnalysis nlpAnalysis :
  let strategy := InfrastructureManager.choose InfrastructureManager.initial_strategy (Str t) reason in
  (∃ detailed, InfrastructureManager.generateStrategyDetails strategy codeAnalysis nlpAnalysis = Return detailed
               ∧ member detailed "type" = Str t)
  ∨ (t ∈ Contract.throwing_members
     ∧ ∃ e, InfrastructureManager.generateStrategyDetails strategy codeAnalysis nlpAnalysis = Throw e).
Proof.
  intros strategy. unfold InfrastructureManager.generateStrategyDetails.
  change (assoc "type" strategy) with (Str t). cbn [to_string].
  unfold InfrastructureManager.deploymentStrategies. cbn [get]. unfold member, has_own. cbn [existsb assoc fst].
  destruct (String.eqb_spec t "static") as [->|?];
    [left; eexists; split; reflexivity|].
  destruct (String.eqb_spec t "serverless") as [->|?];
    [left; eexists; split; reflexivity|].
  destruct (String.eqb_spec t "container") as [->|?];
    [left; eexists; split; reflexivity|].
  destruct (String.eqb_spec t "vm") as [->|?];
    [left; eexists; split; reflexivity|].
  destruct (String.eqb_spec t "kubernetes") as [->|?];
    [left; eexists; split; reflexivity|].
  cbn [orb object_prototype assoc].
  destruct (String.eqb_spec t "constructor") as [->|?];
    [left; eexists; split; reflexivity|].
  destruct (String.eqb_spec t "__defineGetter__") as [->|?];
    [right; split; [unfold Contract.throwing_members; rewrite !elem_of_cons; auto | eexists; reflexivity]|].
  destruct (String.eqb_spec t "__defineSetter__") as [->|?];
    [right; split; [unfold Contract.throwing_members; rewrite !elem_of_cons; auto | eexists; reflexivity]|].
  destruct (String.eqb_spec t "hasOwnProperty") as [->|?];
    [left; eexists; split; reflexivity|].
  destruct (String.eqb_spec t "__lookupGetter__") as [->|?];
    [left; eexists; split; reflexivity|].
  destruct (String.eqb_spec t "__lookupSetter__") as [->|?];
    [left; eexists; split; reflexivity|].
  destruct (String.eqb_spec t "isPrototypeOf") as [->|?];
    [left; eexists; split; reflexivity|].
  destruct (String.eqb_spec t "propertyIsEnumerable") as [->|?];
    [left; eexists; split; reflexivity|].
  destruct (String.eqb_spec t "toString") as [->|?];
    [left; eexists; split; reflexivity|].
  destruct (String.eqb_spec t "valueOf") as [->|?];
    [left; eexists; split; reflexivity|].
  destruct (String.eqb_spec t "__proto__") as [->|?];
    [right; split; [unfold Contract.throwing_members; rewrite !elem_of_cons; auto | eexists; reflexivity]|].
  destruct (String.eqb_spec t "toLocaleString") as [->|?];
    [left; eexists; split; reflexivity|].
  left. eexists. split; reflexivity.
Qed.

Lemma determineDeploymentStrategy_run codeAnalysis nlpAnalysis description w decided :
  InfrastructureManager.decideStrategy InfrastructureManager.initial_strategy codeAnalysis nlpAnalysis = Return decided →
  match InfrastructureManager.generateStrategyDetails decided codeAnalysis nlpAnalysis with
  | Return detailed =>
      ∃ w', InfrastructureManager.determineDeploymentStrategy codeAnalysis nlpAnalysis description w
            = (Return (Obj detailed), w')
  | Throw e =>
      ∃ w', InfrastructureManager.determineDeploymentStrategy codeAnalysis nlpAnalysis description w
            = (Throw (Error ("Strategy determination failed: " +:+ message e)), w')
  end.
Proof.
  intros Hd. unfold InfrastructureManager.determineDeploymentStrategy, try_catch, lift, log, throw. unfold_monad.
  rewrite Hd. destruct (InfrastructureManager.generateStrategyDetails decided codeAnalysis nlpAnalysis);
    by eexists.
Qed.

(** C1, as the code has it. For every pair that meets the collaborator
    contracts: when the intent names no deployment type, the call returns
    a strategy whose type is one of static, serverless, container, vm and
    kubernetes, and it is vm when no rule matches; when the intent names a
    type, that name is the strategy type verbatim, whether or not it is
    one of the five, and the call returns unless the name is one of three
    inherited members of the dispatch table whose call throws. *)
Theorem determineDeploymentStrategy_type
    (codeAnalysis nlpAnalysis description : value) (w : World)
    (Hcode : Contract.codeAnalysis codeAnalysis = true)
    (Hintent : Contract.intentAnalysis nlpAnalysis = true) :
  ∃ named,
    get nlpAnalysis "deploymentType" = Return named
    ∧ (truthy named = false →
         ∃ strategy w',
           InfrastructureManager.determineDeploymentStrategy codeAnalysis nlpAnalysis description w
             = (Return (Obj strategy), w')
           ∧ member strategy "type" ∈ Contract.strategy_types
           ∧ (Contract.no_rule_matches codeAnalysis nlpAnalysis →
                member strategy "type" = Str "vm"))
    ∧ (truthy named = true →
         (to_string named ∉ Contract.throwing_members →
            ∃ strategy w',
              InfrastructureManager.determineDeploymentStrategy codeAnalysis nlpAnalysis description w
                = (Return (Obj strategy), w')
              ∧ member strategy "type" = named)
         ∧ (∀ result w',
              InfrastructureManager.determineDeploymentStrategy codeAnalysis nlpAnalysis description w
                = (Return result, w') →
              get result "type" = Return named)).
Proof.
  destruct (codeAnalysis_shape _ Hcode) as (code & -> & Hc).
  destruct (intentAnalysis_shape _ Hintent) as (nlp & -> & Hn).
  exists (member nlp "deploymentType"). split; [reflexivity|]. split.
  - intros Hfalsy.
    destruct (decide_unnamed InfrastructureManager.initial_strategy code nlp Hc Hn Hfalsy)
      as (t & reason & Hdecide & Ht).
    pose proof (determineDeploymentStrategy_run _ _ description w _ Hdecide) as Hrun.
    destruct (generateStrategyDetails_named t reason (Obj code) (Obj nlp))
      as [(detailed & Hdet & Htype) | [Hbad _]].
    + rewrite Hdet in Hrun. destruct Hrun as [w' Hrun].
      exists detailed, w'. split; [done|]. rewrite Htype. split; [done|].
      intros Hnone.
      pose proof (decide_unmatched InfrastructureManager.initial_strategy (Obj code) (Obj nlp)
                    (member nlp "deploymentType") eq_refl Hfalsy Hnone) as Hvm.
      rewrite Hdecide in Hvm. by simplify_eq.
    + exfalso. unfold Contract.strategy_types, Contract.throwing_members in *.
      rewrite !elem_of_cons, elem_of_nil in Ht. rewrite !elem_of_cons, elem_of_nil in Hbad.
      destruct_or!; congruence.
  - intros Htruthy.
    pose proof (Contract.shape_deploymentType _ Hn) as Hopt.
    destruct (member nlp "deploymentType") as [| | | | |t| | |] eqn:Hnamed; try done.
    pose proof (decide_named InfrastructureManager.initial_strategy code nlp _ Hnamed Htruthy) as Hdecide.
    pose proof (determineDeploymentStrategy_run _ _ description w _ Hdecide) as Hrun.
    cbn [to_string] in *.
    destruct (generateStrategyDetails_named t ("User requested " +:+ t +:+ " deployment")
                (Obj code) (Obj nlp)) as [(detailed & Hdet & Htype) | [Hbad [e He]]].
    + rewrite Hdet in Hrun. destruct Hrun as [w' Hrun]. split.
      * intros _. by exists detailed, w'.
      * intros result w'' Hresult. rewrite Hrun in Hresult.
        injection Hresult as <- _. cbn [get]. by rewrite Htype.
    + rewrite He in Hrun. destruct Hrun as [w' Hrun]. split; [done|].
      intros result w'' Hresult. by rewrite Hrun in Hresult.
Qed.

Lemma determineDeploymentStrategy_type_witness :
  Contract.codeAnalysis (Sample.flask Null) = true
  ∧ Contract.intentAnalysis (Sample.intent (Str "kubernetes")) = true
  ∧ ∃ strategy w',
      InfrastructureManager.determineDeploymentStrategy (Sample.flask Null) (Sample.intent (Str "kubernetes"))
        (Str "Deploy my Flask app on kubernetes") Sample.boot = (Return (Obj strategy), w')
      ∧ member strategy "type" = Str "kubernetes".
Proof.
  split; [reflexivity|]. split; [reflexivity|].
  destruct (determineDeploymentStrategy_type (Sample.flask Null)
              (Sample.intent (Str "kubernetes")) (Str "Deploy my Flask app on kubernetes")
              Sample.boot eq_refl eq_refl) as (named & Hnamed & _ & Hverbatim).
  injection Hnamed as <-.
  destruct (Hverbatim eq_refl) as [Hreturns _].
  apply Hreturns. unfold Contract.throwing_members. cbn [to_string].
  rewrite !elem_of_cons, elem_of_nil. intros H. destruct_or!; discriminate.
Defined.

(** A valid pair whose intent names the type lambda is given a strategy
    of type lambda, which is none of the five. *)
Lemma determineDeploymentStrategy_lambda_counterexample :
  Contract.codeAnalysis (Sample.flask Null) = true
  ∧ Contract.intentAnalysis (Sample.intent (Str "lambda")) = true
  ∧ ∃ strategy,
      (InfrastructureManager.determineDeploymentStrategy (Sample.flask Null) (Sample.intent (Str "lambda"))
         (Str "Deploy my Flask app as a lambda") Sample.boot).1 = Return strategy
      ∧ get strategy "type" = Return (Str "lambda")
      ∧ Str "lambda" ∉ Contract.strategy_types.
Proof.
  split; [reflexivity|]. split; [reflexivity|].
  eexists. split; [vm_compute; reflexivity|]. split; [reflexivity|].
  unfold Contract.strategy_types. not_in_literal.
Qed.

(** ** Configuration assembly *)

(** One step of a sequence whose head is a property read that succeeds. *)
Ltac wp_lift := apply returns_bind; eapply returns_lift; [reflexivity|].

Section Assembly.
Context (ext : Externals).

Lemma getAMI_returns language region w :
  returns (InfrastructureManager.getAMI ext language region) w (λ _ _, True).
Proof.
  unfold returns, InfrastructureManager.getAMI, try_catch, external, log. unfold_monad.
  destruct (execSync ext _ w) as [amiId|e]; [|by eexists _, _].
  destruct (negb (String.eqb amiId "") && starts_with "ami-" amiId); by eexists _, _.
Qed.

Lemma generateInfrastructureConfig_returns strategy cloudProvider code nlpAnalysis w :
  returns (InfrastructureManager.generateInfrastructureConfig ext (Obj strategy)
             cloudProvider (Obj code) nlpAnalysis) w (λ _ _, True).
Proof.
  unfold InfrastructureManager.generateInfrastructureConfig.
  apply returns_bind. eapply returns_lift; [reflexivity|].
  repeat match goal with |- context [if ?b then _ else _] => destruct b end.
  - apply returns_bind, returns_now. by apply returns_ret.
  - apply returns_bind. eapply returns_lift; [reflexivity|]. by apply returns_ret.
  - by apply returns_ret.
  - apply returns_bind. eapply returns_lift; [reflexivity|].
    apply returns_bind. eapply returns_mono; [apply getAMI_returns|].
    intros ami w' _. by apply returns_ret.
  - by apply returns_ret.
  - by apply returns_ret.
Qed.

Lemma requirements_include_returns nlp x :
  Contract.intent_shape nlp →
  ∃ v, InfrastructureManager.requirements_include (Obj nlp) x = Return v.
Proof.
  intros [_ [l Hl]]. unfold InfrastructureManager.requirements_include.
  cbn [get]. unfold_monad. rewrite Hl. by eexists.
Qed.

Lemma generateSecurityConfig_returns nlp :
  Contract.intent_shape nlp →
  ∃ v, InfrastructureManager.generateSecurityConfig (Obj nlp) = Return v.
Proof.
  intros Hn. unfold InfrastructureManager.generateSecurityConfig.
  destruct (requirements_include_returns nlp "security" Hn) as [v ->].
  cbn [get]. unfold_monad. by eexists.
Qed.

Lemma generateMonitoringConfig_returns nlp :
  Contract.intent_shape nlp →
  ∃ v, InfrastructureManager.generateMonitoringConfig (Obj nlp) = Return v.
Proof.
  intros Hn. unfold InfrastructureManager.generateMonitoringConfig.
  destruct (requirements_include_returns nlp "performance" Hn) as [v ->].
  cbn [get]. unfold_monad. by eexists.
Qed.

(** The assembler returns a configuration for every well-formed
    analysis record; the configuration carries the detected port, or
    8080, under [appPort] and has no [port] property. *)
Lemma generateDeploymentConfig_returns analysis deploymentId w :
  Contract.analysis (Obj analysis) = true →
  returns (InfrastructureManager.generateDeploymentConfig ext (Obj analysis) (Str deploymentId)) w
    (λ config _,
       ∃ props code,
         config = Obj props
         ∧ member analysis "codeAnalysis" = Obj code
         ∧ member props "appPort" = or (member code "port") (Num 8080)
         ∧ member props "port" = Undefined).
Proof.
  unfold Contract.analysis. rewrite !andb_true_iff. intros [[Hcode Hintent] Hstrategy].
  destruct (codeAnalysis_shape _ Hcode) as (code & Hc & Hcs).
  destruct (intentAnalysis_shape _ Hintent) as (nlp & Hn & Hns).
  destruct (member analysis "deploymentStrategy") as [| | | | | | |strategy|] eqn:Hs; try done.
  destruct (generateSecurityConfig_returns nlp Hns) as [security Hsec].
  destruct (generateMonitoringConfig_returns nlp Hns) as [monitoring Hmon].
  destruct (Contract.shape_environmentVariables _ Hcs) as [names Hnames].
  destruct (Contract.shape_databaseRequirements _ Hcs) as [dbs Hdbs].
  unfold InfrastructureManager.generateDeploymentConfig.
  apply returns_try_catch.
  apply returns_bind, returns_log.
  repeat wp_lift. rewrite Hc, Hn, Hs. repeat wp_lift.
  apply returns_bind. eapply returns_mono; [apply generateInfrastructureConfig_returns|].
  intros infrastructure w1 _.
  wp_lift.
  apply returns_bind. eapply returns_lift; [exact Hsec|].
  apply returns_bind. eapply returns_lift; [exact Hmon|].
  wp_lift. rewrite Hnames.
  apply returns_bind. eapply returns_lift; [apply identifySecrets_filter|].
  wp_lift. rewrite Hdbs. repeat wp_lift.
  apply returns_bind.
  destruct (truthy (member nlp "storageNeeded")).
  - apply returns_bind. unfold InfrastructureManager.generateStorageConfig.
    apply returns_bind, returns_now. apply returns_ret, returns_ret.
    apply returns_bind, returns_log, returns_ret.
    eexists _, code. split; [reflexivity|]. split; [done|].
    destruct (gt _ 0 || truthy _); split; reflexivity.
  - apply returns_ret. apply returns_bind, returns_log, returns_ret.
    eexists _, code. split; [reflexivity|]. split; [done|].
    destruct (gt _ 0 || truthy _); split; reflexivity.
Qed.

End Assembly.

Lemma member_set_eq k v props : member (set k v props) k = v.
Proof.
  unfold member.
  assert (has_own k (set k v props) = true ∧ assoc k (set k v props) = v) as [-> ->]; [|done].
  induction props as [|[k' v'] props [IH1 IH2]].
  - simpl. by rewrite String.eqb_refl.
  - simpl. destruct (String.eqb k k') eqn:E; simpl; rewrite ?String.eqb_refl, ?E; simpl; auto.
Qed.

Lemma detectPort_default analysis captures :
  omap id captures = [] →
  truthy (member analysis "port") = false →
  member (RepositoryAnalyzer.detectPort captures analysis) "port"
  = or (member RepositoryAnalyzer.defaultPorts (to_string (member analysis "appType")))
       (Num 8080).
Proof.
  intros Hnone Hport. unfold RepositoryAnalyzer.detectPort.
  rewrite Hnone, Hport. cbn [negb]. apply member_set_eq.
Qed.

(** C4, as the code has it. The assembled configuration takes its
    application port from [codeAnalysis.port] and falls back to 8080,
    whatever the framework. The per-framework table belongs to the
    codebase inspector: [detectPort] fills [codeAnalysis.port] from the
    application type when the configuration files name no port
    (node-express, next-js and react 3000; flask 5000; django and fastapi
    8000; spring-boot and go 8080; static 80; a type the table does not
    list, such as node or vue, 8080), and the assembler then carries
    that port over. *)
Theorem generateDeploymentConfig_port (ext : Externals)
    (analysis : list (string * value)) (deploymentId : string) (w : World)
    (Hvalid : Contract.analysis (Obj analysis) = true) :
  returns (InfrastructureManager.generateDeploymentConfig ext (Obj analysis) (Str deploymentId)) w
    (λ config _,
       ∃ props code,
         config = Obj props
         ∧ member analysis "codeAnalysis" = Obj code
         ∧ member props "appPort" = or (member code "port") (Num 8080)
         ∧ (truthy (member code "port") = false → member props "appPort" = Num 8080))
  ∧ (∀ inspected captures,
       omap id captures = [] →
       truthy (member inspected "port") = false →
       let detected := member (RepositoryAnalyzer.detectPort captures inspected) "port" in
       (member inspected "appType" ∈ [Str "node-express"; Str "next-js"; Str "react"] →
          detected = Num 3000)
       ∧ (member inspected "appType" = Str "flask" → detected = Num 5000)
       ∧ (member inspected "appType" ∈ [Str "django"; Str "fastapi"] → detected = Num 8000)
       ∧ (member inspected "appType" ∈ [Str "spring-boot"; Str "go"] → detected = Num 8080)
       ∧ (member inspected "appType" = Str "static" → detected = Num 80)
       ∧ (member inspected "appType" ∈ [Str "node"; Str "vue"] → detected = Num 8080)
       ∧ (member RepositoryAnalyzer.defaultPorts (to_string (member inspected "appType"))
            = Undefined → detected = Num 8080)).
Proof.
  split.
  - eapply returns_mono; [by apply generateDeploymentConfig_returns|].
    intros config _ (props & code & -> & Hcode & Hport & _).
    exists props, code. repeat split; try done.
    intros Hfalsy. rewrite Hport. unfold or. by rewrite Hfalsy.
  - intros inspected captures Hnone Hport detected. subst detected.
    rewrite detectPort_default by done.
    repeat split;
      first [ by intros ->
            | rewrite !elem_of_cons, elem_of_nil; intros H; by destruct_or!; rewrite H ].
Qed.

Lemma generateDeploymentConfig_port_witness :
  Contract.analysis
    (Obj (Sample.analysisResult
            (Obj (RepositoryAnalyzer.detectPort [] (Sample.flask_props Null)))
            (Sample.intent (Str "vm")))) = true
  ∧ returns
      (InfrastructureManager.generateDeploymentConfig
         (Sample.externals Null Null Null)
         (Obj (Sample.analysisResult
                 (Obj (RepositoryAnalyzer.detectPort [] (Sample.flask_props Null)))
                 (Sample.intent (Str "vm")))) (Str "dep-1")) Sample.boot
      (λ config _, get config "appPort" = Return (Num 5000)).
Proof.
  split; [reflexivity|].
  eapply returns_mono;
    [exact (proj1 (generateDeploymentConfig_port (Sample.externals Null Null Null)
                     (Sample.analysisResult
                        (Obj (RepositoryAnalyzer.detectPort [] (Sample.flask_props Null)))
                        (Sample.intent (Str "vm")))
                     "dep-1" Sample.boot eq_refl))|].
  intros config _ (props & code & -> & Hcode & Hport & _).
  injection Hcode as <-. cbn [get]. by rewrite Hport.
Defined.

(** A Flask analysis handed over with port null is assembled with port
    8080, not 5000. *)
Lemma generateDeploymentConfig_flask_counterexample :
  Contract.analysis
    (Obj (Sample.analysisResult (Sample.flask Null) (Sample.intent (Str "vm")))) = true
  ∧ get (Sample.flask Null) "port" = Return Null
  ∧ ∃ config,
      (InfrastructureManager.generateDeploymentConfig (Sample.externals Null Null Null)
         (Obj (Sample.analysisResult (Sample.flask Null) (Sample.intent (Str "vm"))))
         (Str "dep-1") Sample.boot).1 = Return config
      ∧ get config "framework" = Return (Str "flask")
      ∧ get config "appPort" = Return (Num 8080)
      ∧ (application ← get config "application"; get application "port") = Return (Num 8080)
      ∧ Num 8080 ≠ Num 5000.
Proof.
  split; [reflexivity|]. split; [reflexivity|].
  eexists. split; [vm_compute; reflexivity|]. repeat split; done.
Qed.

(** ** Public URL *)

(** With outputs that carry only a public address, the URL is built on
    [deploymentConfig.port || 8080]. *)
Lemma generatePublicUrl_address_only (ext : Externals) (ip : string) config w :
  ip ≠ "" →
  InfrastructureManager.generatePublicUrl ext
    (Obj [ ("instance_public_ip", Obj [ ("value", Str ip) ]) ]) (Obj config) w
  = (Return (Str ("http://" +:+ ip +:+ ":" +:+ to_string (or (member config "port") (Num 8080)))),
     w).
Proof.
  intros Hip. unfold InfrastructureManager.generatePublicUrl, lift. unfold_monad.
  cbn [get]. unfold member at 1 2. cbn. 
  destruct (String.eqb_spec ip "") as [|_]; [done|]. reflexivity.
Qed.

(** No assembled configuration has a [port] property, so the address
    fallback always ends in 8080. *)
Lemma generatePublicUrl_assembled_8080 (ext : Externals) analysis deploymentId (ip : string) w :
  Contract.analysis (Obj analysis) = true → ip ≠ "" →
  returns (InfrastructureManager.generateDeploymentConfig ext (Obj analysis) (Str deploymentId)) w
    (λ config w',
       ∀ w'', InfrastructureManager.generatePublicUrl ext
                (Obj [ ("instance_public_ip", Obj [ ("value", Str ip) ]) ]) config w''
              = (Return (Str ("http://" +:+ ip +:+ ":8080")), w'')).
Proof.
  intros Hvalid Hip.
  eapply returns_mono; [by apply generateDeploymentConfig_returns|].
  intros config _ (props & code & -> & _ & _ & Hport) w''.
  rewrite generatePublicUrl_address_only by done. by rewrite Hport.
Qed.

(** C2, at the failing input: a Flask application whose detected port is
    5000 and outputs holding only the public address. The configuration
    records port 5000 and the generated outputs template announces port
    5000, yet both derivations of the public URL end in 8080, because
    they read a [port] property that the assembled configuration does
    not have. The order of precedence itself is as specified: the
    reported application URL first, then the address, then the DNS name. *)
Theorem publicUrl_ignores_configured_port :
  let config := Sample.config (Sample.flask (Num 5000)) (Sample.intent (Str "vm")) in
  let ext := Sample.externals Null Null Null in
  get config "appPort" = Return (Num 5000)
  ∧ get config "port" = Return Undefined
  ∧ (InfrastructureManager.generatePublicUrl ext Sample.address_only config Sample.boot).1
    = Return (Str "http://203.0.113.7:8080")
  ∧ DeploymentService.publicUrl_of (Obj [ ("success", Bool true); ("outputs", Sample.address_only) ])
      config (Obj [ ("publicUrl", Str "unused") ])
    = Return (Str "http://203.0.113.7:8080")
  ∧ (outputs ← TerraformService.generateOutputsTerraform config;
     mret (includes outputs ("http://${aws_eip.app_eip.public_ip}:5000"))) = Return true
  ∧ (InfrastructureManager.generatePublicUrl ext Sample.outputs config Sample.boot).1
    = Return (Str "http://203.0.113.7:8080")
  ∧ (InfrastructureManager.generatePublicUrl ext Sample.dns_only config Sample.boot).1
    = Return (Str "http://ec2-203-0-113-7.compute-1.amazonaws.com:8080").
Proof. vm_compute. repeat split; reflexivity. Qed.

(** ** Generated security group *)

(** The main template is the bootstrap script between two fixed texts. *)
Lemma generateMainTerraform_shape config main :
  TerraformService.generateMainTerraform config = Return main →
  ∃ script,
    TerraformService.generateUserDataScript config = Return script
    ∧ main = TerraformService.main_before_user_data +:+ script
             +:+ TerraformService.main_after_user_data.
Proof.
  unfold TerraformService.generateMainTerraform. unfold_monad.
  destruct (TerraformService.generateUserDataScript config) as [script|e]; [|done].
  intros [= <-]. by exists script.
Qed.

(** C5, at the failing input: for a configuration whose application
    port is 5000 the bootstrap script starts the application on 5000, but
    the security group of the same template opens 22, 80, 443 and the
    constant 8080; no rule opens 5000. *)
Theorem generateMainTerraform_application_port_fixed :
  let config := Sample.config (Sample.flask (Num 5000)) (Sample.intent (Str "vm")) in
  get config "appPort" = Return (Num 5000)
  ∧ ∃ script main,
      TerraformService.generateUserDataScript config = Return script
      ∧ TerraformService.generateMainTerraform config = Return main
      ∧ main = TerraformService.main_before_user_data +:+ script
               +:+ TerraformService.main_after_user_data
      ∧ includes script "port=5000, debug=False)" = true
      ∧ includes main (Spec.ingress_rule "SSH" "22") = true
      ∧ includes main (Spec.ingress_rule "HTTP" "80") = true
      ∧ includes main (Spec.ingress_rule "HTTPS" "443") = true
      ∧ includes main Spec.egress_all = true
      ∧ includes main (Spec.ingress_rule "Application Port" "8080") = true
      ∧ includes main (Spec.ingress_rule "Application Port" "5000") = false
      ∧ includes main "from_port   = 5000" = false.
Proof.
  split; [reflexivity|]. eexists _, _.
  split; [vm_compute; reflexivity|]. split; [vm_compute; reflexivity|].
  repeat split; vm_compute; reflexivity.
Qed.

(** ** Determinism of template generation *)

Lemma generateTerraformConfig_as_function deploymentConfig w :
  (TerraformService.generateTerraformConfig deploymentConfig w).1
  = (deploymentId ← get deploymentConfig "deploymentId";
     main ← TerraformService.generateMainTerraform deploymentConfig;
     variables ← TerraformService.generateVariablesTerraform deploymentConfig;
     outputs ← TerraformService.generateOutputsTerraform deploymentConfig;
     providers ← TerraformService.generateProvidersTerraform deploymentConfig;
     mret (Obj [ ("main", Str main); ("variables", Str variables);
                 ("outputs", Str outputs); ("providers", Str providers) ])).
Proof.
  unfold TerraformService.generateTerraformConfig, try_catch, lift, log, throw. unfold_monad.
  destruct (get deploymentConfig "deploymentId"); [|done].
  destruct (TerraformService.generateMainTerraform deploymentConfig); [|done].
  destruct (TerraformService.generateVariablesTerraform deploymentConfig); [|done].
  destruct (TerraformService.generateOutputsTerraform deploymentConfig); [|done].
  destruct (TerraformService.generateProvidersTerraform deploymentConfig); done.
Qed.

Lemma generateTerraformConfig_only_logs deploymentConfig w :
  let w' := (TerraformService.generateTerraformConfig deploymentConfig w).2 in
  clock w' = clock w ∧ entropy w' = entropy w ∧ environ w' = environ w ∧ cwd w' = cwd w
  ∧ files w' = files w ∧ spawned w' = spawned w ∧ deployments w' = deployments w
  ∧ heap w' = heap w.
Proof.
  unfold TerraformService.generateTerraformConfig, try_catch, lift, log, throw. unfold_monad.
  destruct (get deploymentConfig "deploymentId"); [|done].
  destruct (TerraformService.generateMainTerraform deploymentConfig); [|done].
  destruct (TerraformService.generateVariablesTerraform deploymentConfig); [|done].
  destruct (TerraformService.generateOutputsTerraform deploymentConfig); [|done].
  destruct (TerraformService.generateProvidersTerraform deploymentConfig); done.
Qed.

(** C7. Template generation is deterministic: whatever the state of the
    process (clock, random source, environment, disk, memory), the same
    configuration yields the same completion, in particular the same
    main, variables, outputs and provider texts and the same bootstrap
    script; a second call right after the first repeats its result; and
    for every configuration object the four texts are produced. *)
Theorem generateTerraformConfig_deterministic (deploymentConfig : value) (w1 w2 : World) :
  (TerraformService.generateTerraformConfig deploymentConfig w1).1
  = (TerraformService.generateTerraformConfig deploymentConfig w2).1
  ∧ (let first := TerraformService.generateTerraformConfig deploymentConfig w1 in
     (TerraformService.generateTerraformConfig deploymentConfig first.2).1 = first.1)
  ∧ (∀ props, deploymentConfig = Obj props →
       ∃ script main variables outputs providers,
         TerraformService.generateUserDataScript deploymentConfig = Return script
         ∧ main = TerraformService.main_before_user_data +:+ script
                  +:+ TerraformService.main_after_user_data
         ∧ TerraformService.generateVariablesTerraform deploymentConfig = Return variables
         ∧ TerraformService.generateOutputsTerraform deploymentConfig = Return outputs
         ∧ TerraformService.generateProvidersTerraform deploymentConfig = Return providers
         ∧ (TerraformService.generateTerraformConfig deploymentConfig w1).1
           = Return (Obj [ ("main", Str main); ("variables", Str variables);
                           ("outputs", Str outputs); ("providers", Str providers) ])).
Proof.
  split; [by rewrite !generateTerraformConfig_as_function|].
  split; [cbn zeta; by rewrite !generateTerraformConfig_as_function|].
  intros props ->. rewrite generateTerraformConfig_as_function.
  eexists _, _, _, _, _. repeat split; try reflexivity.
Qed.

(** ** Status reconciliation *)

(** The Terraform service defines no [getTerraformOutputs]. *)
Lemma call_getTerraformOutputs (ext : Externals) args :
  TerraformService.call ext "getTerraformOutputs" args
  = throw (TypeError "this.terraformService.getTerraformOutputs is not a function").
Proof. reflexivity. Qed.

Lemma call_destroyInfrastructure (ext : Externals) arg rest :
  TerraformService.call ext "destroyInfrastructure" (arg :: rest)
  = TerraformService.destroyInfrastructure ext arg.
Proof. reflexivity. Qed.

Section Reconciliation.
Context (ext : Externals) (w : World) (deploymentId : string).
Context (deploymentDir terraformDir terraformStateFile : string).
Hypothesis Hdir : path_join [FileSystem.tempDir w; Str deploymentId] = Return deploymentDir.
Hypothesis Hterraform :
  path_join [Str deploymentDir; Str "hello_world"; Str "terraform"] = Return terraformDir.
Hypothesis Hstate :
  path_join [Str terraformDir; Str "terraform.tfstate"] = Return terraformStateFile.
Hypothesis Habsent : deployments w !! deploymentId = None.

(** With the state artifact on disk and no record in memory, the status
    is reported as unknown at 50 percent, whatever the provisioning tool
    would answer; nothing is stored back in memory and the tool is not
    run. *)
Lemma getDeploymentStatus_state_on_disk :
  resolve w deploymentDir ∈ files w →
  resolve w terraformStateFile ∈ files w →
  returns (DeploymentService.getDeploymentStatus ext deploymentId) w
    (λ polled w',
       get polled "status" = Return (Str "unknown")
       ∧ get polled "publicUrl" = Return Null
       ∧ get polled "progress" = Return (Num 50)
       ∧ deployments w' = deployments w ∧ spawned w' = spawned w).
Proof.
  intros Hd Hs. unfold returns, DeploymentService.getDeploymentStatus.
  unfold DeploymentService.deployments_get, DeploymentService.timestamp, try_catch, getenv,
    lift, pathExists, log, throw, now. unfold_monad.
  rewrite Habsent. fold (FileSystem.tempDir w). rewrite Hdir, Hterraform, Hstate. cbn [cwd files].
  unfold resolve in *. cbn [cwd]. rewrite !bool_decide_eq_true_2 by done. cbn [andb].
  rewrite call_getTerraformOutputs. unfold throw.
  eexists _, _. split; [reflexivity|]. by repeat split.
Qed.

(** Without the artifact the lookup fails with a not-found error. *)
Lemma getDeploymentStatus_not_found :
  ¬ (resolve w deploymentDir ∈ files w ∧ resolve w terraformStateFile ∈ files w) →
  throws (DeploymentService.getDeploymentStatus ext deploymentId) w
    (λ e w', e = Error "Deployment not found"
             ∧ deployments w' = deployments w ∧ spawned w' = spawned w).
Proof.
  intros Hnone. unfold throws, DeploymentService.getDeploymentStatus.
  unfold DeploymentService.deployments_get, DeploymentService.timestamp, try_catch, getenv,
    lift, pathExists, log, throw, now. unfold_monad.
  rewrite Habsent. fold (FileSystem.tempDir w). rewrite Hdir, Hterraform, Hstate. cbn [cwd files].
  unfold resolve in *. cbn [cwd].
  destruct (bool_decide_reflect (normalize
    (if is_absolute deploymentDir then segments deploymentDir
     else segments (cwd w) ++ segments deploymentDir) ∈ files w)) as [Hd|Hd].
  - destruct (bool_decide_reflect (normalize
      (if is_absolute terraformStateFile then segments terraformStateFile
       else segments (cwd w) ++ segments terraformStateFile) ∈ files w)) as [Hs|Hs];
      [by destruct Hnone|].
    eexists _, _. split; [reflexivity|]. by repeat split.
  - eexists _, _. split; [reflexivity|]. by repeat split.
Qed.

End Reconciliation.

(** C3, at the failing input: after a restart, deployment [dep-1] is
    absent from memory, its state artifact is on disk, and the
    provisioning tool would answer the output query with the application
    URL. The status is nevertheless reported as unknown at 50 percent with
    no public URL, because the output query goes through a method the
    Terraform service does not define. *)
Theorem getDeploymentStatus_never_reconstructs :
  let ext := Sample.flask_run in
  let w := Sample.restarted in
  deployments w !! "dep-1" = None
  ∧ (pathExists "temp/dep-1/hello_world/terraform/terraform.tfstate" w).1 = Return true
  ∧ (∃ stdout created,
       spawn ext "terraform" ["output"; "-json"]
         "temp/dep-1/hello_world/terraform" w = Exited 0 stdout "" created
       ∧ (outputs ← JSON_parse ext stdout;
          url ← get outputs "application_url"; get url "value")
         = Return (Str "http://203.0.113.7:8080"))
  ∧ ∃ polled w',
      DeploymentService.getDeploymentStatus ext "dep-1" w = (Return polled, w')
      ∧ get polled "status" = Return (Str "unknown")
      ∧ get polled "publicUrl" = Return Null
      ∧ get polled "progress" = Return (Num 50)
      ∧ deployments w' !! "dep-1" = None.
Proof.
  cbn zeta. split; [reflexivity|]. split; [vm_compute; reflexivity|].
  split; [eexists _, _; split; reflexivity|].
  destruct (getDeploymentStatus_state_on_disk Sample.flask_run Sample.restarted "dep-1"
              "temp/dep-1" "temp/dep-1/hello_world/terraform"
              "temp/dep-1/hello_world/terraform/terraform.tfstate")
    as (polled & w' & Hrun & Hstatus & Hurl & Hprogress & Hmem & _);
    try reflexivity.
  exists polled, w'. rewrite Hmem. by repeat split.
Qed.

(** ** Destruction *)

Lemma tempDir_string w : ∃ t, FileSystem.tempDir w = Str t.
Proof.
  unfold FileSystem.tempDir, or. destruct (environ w !! "TEMP_DIR") as [v|]; [|by eexists].
  cbn [truthy]. destruct (negb (String.eqb v "")); by eexists.
Qed.

Lemma path_join_two a b : ∃ p, path_join [Str a; Str b] = Return p.
Proof. unfold path_join. cbn [path_parts]. unfold_monad. by eexists. Qed.

Section Destroy.
Context (ext : Externals) (w : World) (deploymentId : string).
Context (o : nat) (deployment : list (string * value)).
Hypothesis Hid : deployments w !! deploymentId = Some o.
Hypothesis Hrecord : heap w !! o = Some deployment.

(** A record that carries provisioning results cannot be destroyed: the
    driver is handed an object where it expects the id and fails while
    building the working directory path, before it looks for the state
    artifact. The record stays, nothing on disk changes, and the
    provisioning binary is not run. *)
Lemma destroyDeployment_with_infrastructure :
  truthy (member deployment "infrastructure") = true →
  throws (DeploymentService.destroyDeployment ext deploymentId) w
    (λ e w',
       e = invalid_path_argument
       ∧ deployments w' = deployments w ∧ heap w' = heap w
       ∧ files w' = files w ∧ spawned w' = spawned w).
Proof.
  intros Hinfra. unfold throws, DeploymentService.destroyDeployment.
  unfold DeploymentService.deployments_get, DeploymentService.read, try_catch, log, throw.
  unfold_monad. cbn [deployments]. rewrite Hid. cbn [heap]. rewrite Hrecord. cbn [default from_option id].
  rewrite Hinfra, call_destroyInfrastructure.
  unfold TerraformService.destroyInfrastructure, try_catch, lift, log, throw. unfold_monad.
  cbn [path_join path_parts]. unfold_monad.
  eexists _, _. split; [reflexivity|]. by repeat split.
Qed.

(** A record without provisioning results is destroyed without running
    the provisioning binary. *)
Lemma destroyDeployment_without_infrastructure :
  truthy (member deployment "infrastructure") = false →
  returns (DeploymentService.destroyDeployment ext deploymentId) w
    (λ _ w',
       deployments w' = delete deploymentId (deployments w) ∧ spawned w' = spawned w).
Proof.
  intros Hinfra. unfold returns, DeploymentService.destroyDeployment.
  unfold DeploymentService.deployments_get, DeploymentService.read,
    DeploymentService.deployments_delete, DeploymentService.with_memory,
    FileSystem.cleanupDeployment, try_catch, getenv, lift, pathExists, remove, with_files,
    external, log, throw.
  unfold_monad. cbn [deployments]. rewrite Hid. cbn [heap]. rewrite Hrecord. cbn [default from_option id].
  rewrite Hinfra. cbn [environ]. fold (FileSystem.tempDir w).
  destruct (tempDir_string w) as [t ->].
  destruct (path_join_two t deploymentId) as [p ->].
  destruct (bool_decide _); [destruct (fs_remove ext p _)|];
    eexists _, _; (split; [reflexivity|]); by split.
Qed.

End Destroy.

(** C8, at the failing input: the deployed record of [dep-1] is in
    memory and no state artifact is left on disk. Destroying it raises a
    type error instead of succeeding, and the record is retained; the
    provisioning binary is indeed not run. *)
Theorem destroyDeployment_deployed_record_fails :
  let w := Sample.state_removed in
  let run := DeploymentService.destroyDeployment Sample.flask_run "dep-1" w in
  is_Some (deployments w !! "dep-1")
  ∧ (pathExists "/srv/arvo/temp/dep-1/hello_world/terraform/terraform.tfstate" w).1
    = Return false
  ∧ run.1 = Throw invalid_path_argument
  ∧ is_Some (deployments run.2 !! "dep-1")
  ∧ spawned run.2 = [].
Proof.
  vm_compute. split; [by eexists|]. split; [done|]. split; [done|]. split; [by eexists|done].
Qed.

(** ** Recorded steps *)

Lemma has_own_set_ne k k' v props :
  k ≠ k' → has_own k (set k' v props) = has_own k props.
Proof.
  intros Hne. induction props as [|[k0 v0] props IH]; simpl.
  - rewrite orb_false_r. by apply String.eqb_neq.
  - destruct (String.eqb_spec k' k0) as [->|]; simpl; [|by rewrite IH].
    by apply String.eqb_neq in Hne as ->.
Qed.

Lemma assoc_set_ne k k' v props :
  k ≠ k' → assoc k (set k' v props) = assoc k props.
Proof.
  intros Hne. induction props as [|[k0 v0] props IH]; simpl.
  - by apply String.eqb_neq in Hne as ->.
  - destruct (String.eqb_spec k' k0) as [->|]; simpl; [|by rewrite IH].
    by apply String.eqb_neq in Hne as ->.
Qed.

Lemma member_set_ne k k' v props :
  k ≠ k' → member (set k' v props) k = member props k.
Proof. intros Hne. unfold member. by rewrite has_own_set_ne, assoc_set_ne. Qed.

Section Memory.
Context (ext : Externals).

Lemma returns_deployments_get id w (Q : option nat → World → Prop) :
  Q (deployments w !! id) w → returns (DeploymentService.deployments_get id) w Q.
Proof. intros HQ. by eexists _, _. Qed.

Lemma returns_read o w (Q : list (string * value) → World → Prop) :
  Q (default [] (heap w !! o)) w → returns (DeploymentService.read o) w Q.
Proof. intros HQ. by eexists _, _. Qed.

Lemma returns_timestamp w (Q : value → World → Prop) :
  Q (Str (toISOString ext (clock w))) w → returns (DeploymentService.timestamp ext) w Q.
Proof. intros HQ. by eexists _, _. Qed.

Lemma returns_alloc props w (Q : nat → World → Prop) :
  Q (fresh (dom (heap w)))
    (mkWorld (clock w) (entropy w) (environ w) (cwd w) (files w) (logged w) (spawned w)
       (deployments w) (<[fresh (dom (heap w)) := props]> (heap w))) →
  returns (DeploymentService.alloc props) w Q.
Proof. intros HQ. by eexists _, _. Qed.

Lemma returns_deployments_set id o w (Q : unit → World → Prop) :
  Q () (mkWorld (clock w) (entropy w) (environ w) (cwd w) (files w) (logged w) (spawned w)
          (<[id := o]> (deployments w)) (heap w)) →
  returns (DeploymentService.deployments_set id o) w Q.
Proof. intros HQ. by eexists _, _. Qed.

(** C9, as the code has it. A status update never removes or truncates
    recorded steps: it appends exactly one entry, carrying the new status
    and message, to the list recorded for the id, and leaves the record of
    every other id as it was. *)
Theorem updateDeploymentStatus_appends (w : World)
    (deploymentId status message : string) (result : value) (error : option error)
    (previous : list value)
    (Hconsistent : Spec.memory_consistent w)
    (Hsteps : Spec.steps_of w deploymentId = Some previous) :
  returns (DeploymentService.updateDeploymentStatus ext deploymentId status message result error)
    w
    (λ _ w',
       ∃ step,
         Spec.steps_of w' deploymentId = Some (previous ++ [step])
         ∧ get step "status" = Return (Str status)
         ∧ get step "message" = Return (Str message)
         ∧ (∀ other, other ≠ deploymentId → Spec.record_of w' other = Spec.record_of w other)
         ∧ Spec.memory_consistent w').
Proof.
  unfold Spec.steps_of in Hsteps.
  destruct (or (member (default [] (Spec.record_of w deploymentId)) "steps") (Arr []))
    as [| | | | | |steps| |] eqn:Hrecorded; try done. injection Hsteps as ->.
  assert (heap w !! fresh (dom (heap w)) = None) as Hfresh.
  { apply not_elem_of_dom, is_fresh. }
  unfold DeploymentService.updateDeploymentStatus.
  apply returns_bind, returns_deployments_get.
  apply returns_bind.
  apply (returns_mono _ _ (λ d w', d = default [] (Spec.record_of w deploymentId) ∧ w' = w)).
  { unfold Spec.record_of. destruct (deployments w !! deploymentId) as [o|].
    - by apply returns_read.
    - by apply returns_ret. }
  intros deployment _ [-> ->].
  apply returns_bind, returns_timestamp.
  apply returns_bind. eapply returns_lift; [by rewrite Hrecorded|].
  apply returns_bind, returns_timestamp.
  apply returns_bind, returns_alloc.
  apply returns_bind, returns_deployments_set.
  apply returns_log. cbn [clock entropy environ cwd files logged spawned deployments heap].
  eexists (Obj _). split; [|split; [|split; [|split]]].
  - unfold Spec.steps_of, Spec.record_of at 1. cbn [deployments heap].
    rewrite lookup_insert_eq. cbn [mbind option_bind default from_option id].
    rewrite lookup_insert_eq. cbn [default from_option id].
    assert (∀ props, member
      (match error with
       | Some e => set "error" (Str (Js.message e)) props
       | None => props
       end) "steps" = member props "steps") as ->.
    { intros props. destruct error; [|done]. by rewrite member_set_ne. }
    assert (∀ props, member (if truthy result then set "result" result props else props)
                       "steps" = member props "steps") as ->.
    { intros props. destruct (truthy result); [|done]. by rewrite member_set_ne. }
    unfold spread. cbn [fold_left fst snd]. rewrite member_set_eq. reflexivity.
  - by destruct error.
  - by destruct error.
  - intros other Hother. unfold Spec.record_of. cbn [deployments heap].
    rewrite lookup_insert_ne by done.
    destruct (deployments w !! other) as [o|] eqn:Ho; [|done]. cbn [mbind option_bind].
    destruct (Hconsistent _ _ Ho) as [r Hr].
    rewrite lookup_insert_ne; [done|]. intros <-. congruence.
  - intros id o. cbn [deployments heap]. rewrite lookup_insert.
    destruct (decide (deploymentId = id)) as [->|Hne].
    + intros [= <-]. rewrite lookup_insert_eq. by eexists.
    + intros Ho. destruct (Hconsistent _ _ Ho) as [r Hr].
      rewrite lookup_insert_ne; [by eexists|]. intros <-. congruence.
Qed.

End Memory.

Lemma updateDeploymentStatus_appends_witness :
  Spec.memory_consistent Scenario.analyzing
  ∧ Spec.steps_of Scenario.analyzing "dep-1" = Some [Scenario.analyzing_step]
  ∧ returns (DeploymentService.updateDeploymentStatus (Sample.externals Null Null Null)
               "dep-1" "failed" "Deployment failed: boom" Null (Some (Error "boom")))
      Scenario.analyzing
      (λ _ w', ∃ step, Spec.steps_of w' "dep-1" = Some [Scenario.analyzing_step; step]
                       ∧ get step "status" = Return (Str "failed")
                       ∧ get step "message" = Return (Str "Deployment failed: boom")).
Proof.
  assert (Spec.memory_consistent Scenario.analyzing) as Hconsistent.
  { intros id o Hid. unfold Scenario.analyzing in Hid. cbn [deployments] in Hid.
    apply lookup_singleton_Some in Hid as [_ <-]. by eexists. }
  split; [exact Hconsistent|]. split; [reflexivity|].
  eapply returns_mono;
    [exact (updateDeploymentStatus_appends (Sample.externals Null Null Null)
              Scenario.analyzing "dep-1" "failed" "Deployment failed: boom" Null
              (Some (Error "boom")) [Scenario.analyzing_step] Hconsistent eq_refl)|].
  intros _ w' (step & Hsteps & Hstatus & Hmessage & _). by exists step.
Defined.

(** The step recorded when the deployment of [dep-1] is announced is
    gone once [deployApplication] has run: the list is replaced by the
    five generated display steps. *)
Lemma deployApplication_replaces_steps_counterexample :
  let before := Sample.announced in
  let after :=
    (DeploymentService.deployApplication Sample.flask_run "dep-1"
       (Str "Deploy my Flask app on AWS") Undefined (Str "dep-1") before).2 in
  ∃ announced,
    Spec.steps_of before "dep-1" = Some [announced]
    ∧ get announced "status" = Return (Str "deploying")
    ∧ ∃ steps, Spec.steps_of after "dep-1" = Some steps
               ∧ length steps = 5%nat
               ∧ announced ∉ steps.
Proof.
  cbn zeta. eexists. split; [vm_compute; reflexivity|]. split; [reflexivity|].
  eexists. split; [vm_compute; reflexivity|]. split; [reflexivity|].
  not_in_literal.
Qed.

(* ===================================================================== *)
(** * Further properties of the code *)
(* ===================================================================== *)

(** ** What a call leaves alone *)

#[local] Instance memory_untouched_preorder : PreOrder Frame.memory_untouched.
Proof.
  split; [by intros w|]. intros w1 w2 w3 [H1 H2] [H3 H4]. split; congruence.
Qed.
#[local] Instance inert_preorder : PreOrder Frame.inert.
Proof.
  split; [by intros w|]. intros w1 w2 w3 (?&?&?&?&?&?) (?&?&?&?&?&?).
  repeat split; congruence.
Qed.

Section Keeps.
Context (R : World → World → Prop) `{!PreOrder R}.
Context {A B : Type}.

Lemma keeps_ret (a : A) : Frame.keeps R (mret a).
Proof. intros w. reflexivity. Qed.

Lemma keeps_lift (c : completion A) : Frame.keeps R (lift c).
Proof. intros w. reflexivity. Qed.

Lemma keeps_throw (e : error) : Frame.keeps R (throw (A:=A) e).
Proof. intros w. reflexivity. Qed.

Lemma keeps_external (f : World → completion A) : Frame.keeps R (external f).
Proof. intros w. reflexivity. Qed.

Lemma keeps_bind (m : M A) (k : A → M B) :
  Frame.keeps R m → (∀ a, Frame.keeps R (k a)) → Frame.keeps R (m ≫= k).
Proof.
  intros Hm Hk w. specialize (Hm w). unfold_monad.
  destruct (m w) as [[a|e] w']; [|done]. etrans; [exact Hm|apply Hk].
Qed.

Lemma keeps_fmap (f : A → B) (m : M A) : Frame.keeps R m → Frame.keeps R (f <$> m).
Proof. intros Hm w. specialize (Hm w). unfold_monad. by destruct (m w) as [[a|e] w']. Qed.

Lemma keeps_try_catch (m : M A) (h : error → M A) :
  Frame.keeps R m → (∀ e, Frame.keeps R (h e)) → Frame.keeps R (try_catch m h).
Proof.
  intros Hm Hh w. specialize (Hm w). unfold try_catch.
  destruct (m w) as [[a|e] w']; [done|]. etrans; [exact Hm|apply Hh].
Qed.

End Keeps.

(** One step of a frame argument: primitives first, then structure. *)
Ltac keeps_prim :=
  lazymatch goal with
  | |- Frame.keeps _ (mret _) => apply keeps_ret, _
  | |- Frame.keeps _ (lift _) => apply keeps_lift, _
  | |- Frame.keeps _ (throw _) => apply keeps_throw, _
  | |- Frame.keeps _ (external _) => apply keeps_external, _
  | |- Frame.keeps _ random => intros w; unfold random; by destruct (entropy w)
  | |- Frame.keeps _ (log _ _) => by intros ?
  | |- Frame.keeps _ now => by intros ?
  | |- Frame.keeps _ (delay _ _) => by intros ?
  | |- Frame.keeps _ (getenv _) => by intros ?
  | |- Frame.keeps _ (pathExists _) => by intros ?
  | |- Frame.keeps _ (ensureDir _) => by intros ?
  | |- Frame.keeps _ (writeFile _) => by intros ?
  | |- Frame.keeps _ (remove _) => by intros ?
  | |- Frame.keeps _ (TerraformService.record_spawn _ _) => by intros ?
  | |- Frame.keeps _ (DeploymentService.deployments_get _) => by intros ?
  | |- Frame.keeps _ (DeploymentService.read _) => by intros ?
  end.

Ltac keeps_step :=
  first
    [ keeps_prim
    | lazymatch goal with
      | |- Frame.keeps _ (if ?b then _ else _) => destruct b
      | |- Frame.keeps _ (match ?x with _ => _ end) => destruct x
      | |- Frame.keeps _ (_ ≫= _) => apply keeps_bind; [apply _| |intros ?]
      | |- Frame.keeps _ (_ <$> _) => apply keeps_fmap
      | |- Frame.keeps _ (try_catch _ _) => apply keeps_try_catch; [apply _| |intros ?]
      | |- Frame.keeps _ (λ w, _) => by intros ?
      end ].

Section FrameLemmas.
Context (ext : Externals).

Lemma keeps_determineDeploymentStrategy codeAnalysis nlpAnalysis description :
  Frame.keeps Frame.inert
    (InfrastructureManager.determineDeploymentStrategy codeAnalysis nlpAnalysis description).
Proof.
  unfold InfrastructureManager.determineDeploymentStrategy.
  repeat keeps_step.
Qed.

Lemma keeps_getAMI language region :
  Frame.keeps Frame.inert (InfrastructureManager.getAMI ext language region).
Proof. unfold InfrastructureManager.getAMI. repeat keeps_step. Qed.

Lemma keeps_generateDeploymentConfig analysis deploymentId :
  Frame.keeps Frame.inert (InfrastructureManager.generateDeploymentConfig ext analysis deploymentId).
Proof.
  unfold InfrastructureManager.generateDeploymentConfig,
    InfrastructureManager.generateInfrastructureConfig, InfrastructureManager.generateStorageConfig.
  repeat first
    [ lazymatch goal with
      | |- Frame.keeps _ (InfrastructureManager.getAMI _ _ _) => apply keeps_getAMI
      end
    | keeps_step ].
Qed.

Lemma keeps_generatePublicUrl infrastructure deploymentConfig :
  Frame.keeps Frame.inert (InfrastructureManager.generatePublicUrl ext infrastructure deploymentConfig).
Proof. unfold InfrastructureManager.generatePublicUrl. repeat keeps_step. Qed.

Lemma keeps_deployToInfrastructure deploymentId infrastructure codebasePath deploymentConfig :
  Frame.keeps Frame.inert
    (InfrastructureManager.deployToInfrastructure ext deploymentId infrastructure codebasePath
       deploymentConfig).
Proof.
  unfold InfrastructureManager.deployToInfrastructure,
    InfrastructureManager.prepareApplicationCode, InfrastructureManager.uploadCodeToInfrastructure,
    InfrastructureManager.configureApplication, InfrastructureManager.startApplication,
    InfrastructureManager.verifyDeployment, InfrastructureManager.simulated_step.
  repeat first
    [ lazymatch goal with
      | |- Frame.keeps _ (InfrastructureManager.generatePublicUrl _ _ _) =>
          apply keeps_generatePublicUrl
      end
    | keeps_step ].
Qed.

Lemma keeps_generateTerraformConfig deploymentConfig :
  Frame.keeps Frame.inert (TerraformService.generateTerraformConfig deploymentConfig).
Proof. unfold TerraformService.generateTerraformConfig. repeat keeps_step. Qed.

Lemma keeps_getLatestAMI : Frame.keeps Frame.inert (TerraformService.getLatestAMI ext).
Proof. unfold TerraformService.getLatestAMI. repeat keeps_step. Qed.

End FrameLemmas.

Section Keeps2.
Context (R : World → World → Prop) `{!PreOrder R}.
Context {A B : Type}.

Lemma keeps_bind_throw (e : error) (k : A → M B) : Frame.keeps R (throw e ≫= k).
Proof. intros w. reflexivity. Qed.

Lemma keeps_foldr (f : A → M ()) (xs : list A) :
  (∀ x, Frame.keeps R (f x)) → Frame.keeps R (foldr (λ x k, _ ← f x; k) (mret ()) xs).
Proof.
  intros Hf. induction xs as [|x xs IH]; [apply keeps_ret, _|].
  cbn [foldr]. apply keeps_bind; [apply _|apply Hf|]. intros _. apply IH.
Qed.

End Keeps2.

Lemma keeps_inert_memory {A} (m : M A) :
  Frame.keeps Frame.inert m → Frame.keeps Frame.memory_untouched m.
Proof. intros H w. destruct (H w) as (_ & _ & _ & _ & ? & ?). by split. Qed.

Lemma keeps_inert_process {A} (m : M A) :
  Frame.keeps Frame.inert m → Frame.keeps Frame.process_kept m.
Proof. intros H w. destruct (H w) as (? & ? & _ & _ & ? & ?). by repeat split. Qed.

Section FrameLemmas2.
Context (ext : Externals).

Lemma keeps_runTerraformCommand args workingDir :
  Frame.keeps Frame.memory_untouched (TerraformService.runTerraformCommand ext args workingDir).
Proof.
  unfold TerraformService.runTerraformCommand.
  repeat first
    [ lazymatch goal with
      | |- Frame.keeps _ (foldr _ _ _) => apply keeps_foldr; [apply _|intros ?]
      end
    | keeps_step ].
Qed.

Ltac keeps_terraform :=
  lazymatch goal with
  | |- Frame.keeps _ (TerraformService.runTerraformCommand _ _ _) =>
      apply keeps_runTerraformCommand
  | |- Frame.keeps _ (TerraformService.generateTerraformConfig _) =>
      apply keeps_inert_memory, keeps_generateTerraformConfig
  | |- Frame.keeps _ (TerraformService.getLatestAMI _) =>
      apply keeps_inert_memory, keeps_getLatestAMI
  end.

Lemma keeps_applyInfrastructure deploymentConfig :
  Frame.keeps Frame.memory_untouched (TerraformService.applyInfrastructure ext deploymentConfig).
Proof.
  unfold TerraformService.applyInfrastructure.
  repeat first [keeps_terraform | keeps_step].
Qed.

Lemma keeps_destroyInfrastructure deploymentId :
  Frame.keeps Frame.memory_untouched (TerraformService.destroyInfrastructure ext deploymentId).
Proof.
  unfold TerraformService.destroyInfrastructure.
  repeat first [keeps_terraform | keeps_step].
Qed.

Lemma keeps_getDeploymentStatus deploymentId :
  Frame.keeps Frame.inert (DeploymentService.getDeploymentStatus ext deploymentId).
Proof.
  unfold DeploymentService.getDeploymentStatus, DeploymentService.timestamp.
  repeat first
    [ lazymatch goal with
      | |- Frame.keeps _ (TerraformService.call _ "getTerraformOutputs" _ ≫= _) =>
          rewrite call_getTerraformOutputs; apply keeps_bind_throw, _
      end
    | keeps_step ].
Qed.

End FrameLemmas2.

(** ** Running a computation step by step *)

Section Runs.
Context {A B : Type}.
Implicit Types (m : M A) (k : A → M B) (w : World).

Lemma bind_run m k w a w' : m w = (Return a, w') → (m ≫= k) w = k a w'.
Proof. intros Hm. unfold_monad. by rewrite Hm. Qed.

Lemma returns_run m w a w' (Q : A → World → Prop) :
  m w = (Return a, w') → Q a w' → returns m w Q.
Proof. intros Hm HQ. by exists a, w'. Qed.

Lemma throws_run m w e w' (Q : error → World → Prop) :
  m w = (Throw e, w') → Q e w' → throws m w Q.
Proof. intros Hm HQ. by exists e, w'. Qed.

Lemma throws_bind m k w (Q : error → World → Prop) :
  returns m w (λ a w', throws (k a) w' Q) → throws (m ≫= k) w Q.
Proof.
  intros (a & w' & Hm & e & w'' & Hk & HQ). exists e, w''. split; [|done].
  unfold_monad. by rewrite Hm.
Qed.

Lemma throws_bind_head m k w (Q : error → World → Prop) :
  throws m w Q → throws (m ≫= k) w Q.
Proof.
  intros (e & w' & Hm & HQ). exists e, w'. split; [|done].
  unfold_monad. by rewrite Hm.
Qed.

Lemma throws_try_catch m (h : error → M A) w (Q : error → World → Prop) :
  throws m w (λ e w', throws (h e) w' Q) → throws (try_catch m h) w Q.
Proof.
  intros (e & w' & Hm & e' & w'' & Hh & HQ). exists e', w''. split; [|done].
  unfold try_catch. by rewrite Hm.
Qed.


Lemma throws_mono m w (P Q : error → World → Prop) :
  throws m w P → (∀ e w', P e w' → Q e w') → throws m w Q.
Proof. intros (e & w' & Hm & HP) HPQ. exists e, w'. eauto. Qed.

Lemma returns_fmap (f : A → B) m w (Q : B → World → Prop) :
  returns m w (λ a w', Q (f a) w') → returns (f <$> m) w Q.
Proof.
  intros (a & w' & Hm & HQ). exists (f a), w'. split; [|done].
  unfold_monad. by rewrite Hm.
Qed.

Lemma throws_fmap (f : A → B) m w (Q : error → World → Prop) :
  throws m w Q → throws (f <$> m) w Q.
Proof.
  intros (e & w' & Hm & HQ). exists e, w'. split; [|done].
  unfold_monad. by rewrite Hm.
Qed.

End Runs.

(** A step whose outcome is computed from the state at hand. *)
Ltac wp_run := apply returns_bind; eapply returns_run; [reflexivity|].
Ltac wp_run_throws := apply throws_bind; eapply returns_run; [reflexivity|].

Ltac world_simpl :=
  unfold resolve in *;
  cbn [clock entropy environ cwd files logged spawned deployments heap fst snd] in *.

Lemma returns_ensureDir p w (Q : unit → World → Prop) :
  Q () (mkWorld (clock w) (entropy w) (environ w) (cwd w)
          (list_to_set (with_ancestors (resolve w p)) ∪ files w)
          (logged w) (spawned w) (deployments w) (heap w)) →
  returns (ensureDir p) w Q.
Proof. intros HQ. by eexists _, _. Qed.

Lemma returns_writeFile p w (Q : unit → World → Prop) :
  Q () (mkWorld (clock w) (entropy w) (environ w) (cwd w)
          (list_to_set (with_ancestors (resolve w p)) ∪ files w)
          (logged w) (spawned w) (deployments w) (heap w)) →
  returns (writeFile p) w Q.
Proof. intros HQ. by eexists _, _. Qed.


Lemma returns_getenv name w (Q : value → World → Prop) :
  Q (match environ w !! name with Some v => Str v | None => Undefined end) w →
  returns (getenv name) w Q.
Proof. intros HQ. by eexists _, _. Qed.

Lemma returns_delay ms overrun w (Q : unit → World → Prop) :
  (∀ late, 0 ≤ late →
     Q () (mkWorld (clock w + ms + late) (entropy w) (environ w) (cwd w) (files w)
             (logged w) (spawned w) (deployments w) (heap w))) →
  returns (delay ms overrun) w Q.
Proof. intros HQ. eexists _, _. split; [reflexivity|]. apply HQ. lia. Qed.

Lemma returns_external {A} (f : World → completion A) a w (Q : A → World → Prop) :
  f w = Return a → Q a w → returns (external f) w Q.
Proof. intros Hf HQ. exists a, w. split; [|done]. unfold external. by rewrite Hf. Qed.

Lemma throws_external {A} (f : World → completion A) e w (Q : error → World → Prop) :
  f w = Throw e → Q e w → throws (external f) w Q.
Proof. intros Hf HQ. exists e, w. split; [|done]. unfold external. by rewrite Hf. Qed.

Lemma throws_throw {A} e w (Q : error → World → Prop) : Q e w → throws (throw (A:=A) e) w Q.
Proof. intros HQ. by exists e, w. Qed.

Lemma throws_lift {A} (c : completion A) e w (Q : error → World → Prop) :
  c = Throw e → Q e w → throws (lift c) w Q.
Proof. intros -> HQ. by exists e, w. Qed.

(** ** Paths *)

Lemma path_parts_strings (parts : list string) : path_parts (Str <$> parts) = Return parts.
Proof.
  induction parts as [|p parts IH]; [done|]. rewrite fmap_cons. cbn [path_parts].
  rewrite IH. reflexivity.
Qed.

Lemma path_join_strings (parts : list string) : ∃ p, path_join (Str <$> parts) = Return p.
Proof. unfold path_join. rewrite path_parts_strings. unfold_monad. by eexists. Qed.

(** ** The provisioning driver *)

#[local] Instance ran_nil_refl : Reflexive (Frame.ran []).
Proof. intros w. unfold Frame.ran. rewrite app_nil_r. by repeat split. Qed.

Lemma ran_trans runs1 runs2 w1 w2 w3 :
  Frame.ran runs1 w1 w2 → Frame.ran runs2 w2 w3 → Frame.ran (runs1 ++ runs2) w1 w3.
Proof.
  intros (Hs1 & He1 & Hc1 & Hf1 & Hd1 & Hh1) (Hs2 & He2 & Hc2 & Hf2 & Hd2 & Hh2).
  split; [by rewrite Hs2, Hs1, app_assoc|]. repeat split; try congruence.
  by etrans.
Qed.

Section Driver.
Context (ext : Externals).

Lemma writeFiles_ran (created : list string) w :
  ∃ w', foldr (λ p k, _ ← writeFile p; k) (mret ()) created w = (Return (), w')
        ∧ Frame.ran [] w w' ∧ logged w' = logged w.
Proof.
  revert w. induction created as [|p created IH]; intros w.
  - exists w. split; [done|]. split; [reflexivity|done].
  - cbn [foldr]. erewrite bind_run by reflexivity.
    destruct (IH (mkWorld (clock w) (entropy w) (environ w) (cwd w)
                    (list_to_set (with_ancestors (resolve w p)) ∪ files w)
                    (logged w) (spawned w) (deployments w) (heap w)))
      as (w' & -> & (Hs & He & Hc & Hf & Hd & Hh) & Hl).
    exists w'. split; [done|]. split; [|done]. world_simpl.
    repeat split; try done. etrans; [|exact Hf]. apply union_subseteq_r.
Qed.

(** [runTerraformCommand] starts exactly one process, the configured
    binary with the given arguments; its exit code decides between the
    captured output and an error that quotes the error stream, or the
    output when the error stream is empty. *)
Lemma runTerraformCommand_outcome args workingDir w :
  ∃ w', (TerraformService.runTerraformCommand ext args workingDir w).2 = w'
    ∧ Frame.ran [(Frame.terraformPath w, args)] w w'
    ∧ (TerraformService.runTerraformCommand ext args workingDir w).1
      = match spawn ext (Frame.terraformPath w) args workingDir
                (log "info" ("Running terraform command: " +:+ String.concat " " args) w).2 with
        | Exited code stdout stderr _ =>
            if code =? 0 then Return stdout
            else Throw (Error ("Terraform command failed with code " +:+ pretty code +:+ ": "
                               +:+ (if String.eqb stderr "" then stdout else stderr)))
        | SpawnFailed msg => Throw (Error msg)
        end.
Proof.
  eexists. split; [reflexivity|].
  unfold TerraformService.runTerraformCommand.
  do 4 (erewrite bind_run by reflexivity). world_simpl. fold (Frame.terraformPath w).
  destruct (spawn ext _ args workingDir _) as [code stdout stderr created|msg].
  - match goal with |- context [(foldr _ _ created ≫= _) ?w0] =>
      destruct (writeFiles_ran created w0) as (w' & Hrun & (Hs & He & Hc & Hf & Hd & Hh) & Hl)
    end.
    erewrite bind_run by exact Hrun. erewrite bind_run by reflexivity.
    rewrite app_nil_r in Hs.
    destruct (code =? 0); (split; [|reflexivity]); by repeat split.
  - erewrite bind_run by reflexivity. split; [|reflexivity]. by repeat split.
Qed.


Lemma terraformPath_environ w w' :
  environ w' = environ w → Frame.terraformPath w' = Frame.terraformPath w.
Proof. unfold Frame.terraformPath. by intros ->. Qed.

Lemma runTerraformCommand_exits args workingDir w code stdout stderr created :
  spawn ext (Frame.terraformPath w) args workingDir
    (log "info" ("Running terraform command: " +:+ String.concat " " args) w).2
  = Exited code stdout stderr created →
  ∃ w', TerraformService.runTerraformCommand ext args workingDir w
        = ((if code =? 0 then Return stdout
            else Throw (Error ("Terraform command failed with code " +:+ pretty code +:+ ": "
                               +:+ (if String.eqb stderr "" then stdout else stderr)))), w')
        ∧ Frame.ran [(Frame.terraformPath w, args)] w w'.
Proof.
  intros Hspawn.
  destruct (runTerraformCommand_outcome args workingDir w) as (w' & Hw & Hran & Hout).
  rewrite Hspawn in Hout. exists w'. split; [|done].
  destruct (TerraformService.runTerraformCommand ext args workingDir w) as [c w0].
  simpl in *. by subst.
Qed.

Lemma generateTerraformConfig_object props w :
  ∃ configs,
    TerraformService.generateTerraformConfig (Obj props) w
    = (Return configs,
       mkWorld (clock w) (entropy w) (environ w) (cwd w) (files w)
         (logged w ++ [("info", "Generating Terraform configuration for "
                                +:+ to_string (member props "deploymentId"))])
         (spawned w) (deployments w) (heap w)).
Proof. eexists. reflexivity. Qed.

Lemma getLatestAMI_total w :
  ∃ amiId w', TerraformService.getLatestAMI ext w = (Return amiId, w') ∧ Frame.ran [] w w'.
Proof.
  unfold TerraformService.getLatestAMI, try_catch, external, throw, log. unfold_monad.
  destruct (execSync ext _ w) as [amiId|e].
  - destruct (String.eqb amiId "" || String.eqb amiId "None");
      eexists _, _; (split; [reflexivity|]); unfold Frame.ran; world_simpl;
      rewrite app_nil_r; by repeat split.
  - eexists _, _; (split; [reflexivity|]); unfold Frame.ran; world_simpl;
      rewrite app_nil_r; by repeat split.
Qed.

End Driver.

(** Closing a goal [Frame.ran runs w w'] from the facts collected for
    the intermediate states. *)
Ltac files_mono :=
  repeat first
    [ reflexivity
    | match goal with H : _ ⊆ files ?w' |- _ ⊆ files ?w' => etrans; [|exact H] end
    | etrans; [|apply union_subseteq_r] ].

Ltac ran_open :=
  repeat match goal with
         | H : Frame.ran _ _ _ |- _ => destruct H as (? & ? & ? & ? & ? & ?)
         end;
  world_simpl; rewrite ?app_nil_r in *.

Ltac ran_close :=
  ran_open; unfold Frame.ran; world_simpl;
  split; [repeat match goal with H : spawned _ = _ |- _ => rewrite H; clear H end;
          rewrite <- ?app_assoc, ?app_nil_r; reflexivity|];
  split; [congruence|]; split; [congruence|];
  split; [files_mono|]; split; congruence.

Ltac bind_step := first [apply throws_bind | apply returns_bind].

Lemma run_step (ext : Externals) (dir : string) (w : World) args w0 code stdout stderr created :
  environ w0 = environ w →
  spawn ext (Frame.terraformPath w) args dir
    (log "info" ("Running terraform command: " +:+ String.concat " " args) w0).2
  = Exited code stdout stderr created →
  ∃ w1, TerraformService.runTerraformCommand ext args dir w0
        = ((if code =? 0 then Return stdout
            else Throw (Error ("Terraform command failed with code " +:+ pretty code +:+ ": "
                               +:+ (if String.eqb stderr "" then stdout else stderr)))), w1)
        ∧ Frame.ran [(Frame.terraformPath w, args)] w0 w1.
Proof.
  intros Henv Hspawn.
  pose proof (runTerraformCommand_exits ext args dir w0 code stdout stderr created) as Hrun.
  rewrite (terraformPath_environ w) in Hrun by done. apply Hrun, Hspawn.
Qed.

(** One command of the sequence, run from the state at hand: it
    succeeds ([run_ok]) or fails ([run_failed]). *)
Ltac use_run :=
  match goal with
  | Hrun : TerraformService.runTerraformCommand _ _ _ _ = _ |- _ =>
      cbn [Z.eqb] in Hrun;
      first [eapply returns_run; [exact Hrun|] | eapply throws_run; [exact Hrun|]];
      clear Hrun
  end; ran_open.

Ltac run_ok Hok :=
  bind_step;
  match goal with |- returns (TerraformService.runTerraformCommand _ ?args _) ?w0 _ =>
    destruct (Hok args (log "info" ("Running terraform command: " +:+ String.concat " " args) w0).2)
      as (? & ? & ? & ?);
    [|match goal with
      | Hs : spawn _ _ _ _ _ = Exited _ _ _ _ |- _ =>
          apply (run_step _ _ _ args w0) in Hs; [|world_simpl; congruence];
          destruct Hs as (? & ? & ?)
      end; use_run]
  end;
  try (bind_step; apply returns_log; world_simpl).

Ltac run_failed Hfail Hcode :=
  apply throws_bind_head;
  match goal with |- throws (TerraformService.runTerraformCommand _ ?args _) ?w0 _ =>
    let Hs := fresh "Hs" in
    pose proof (Hfail (log "info" ("Running terraform command: " +:+ String.concat " " args)
                         w0).2) as Hs;
    apply (run_step _ _ _ args w0) in Hs; [|world_simpl; congruence];
    destruct Hs as (? & ? & ?)
  end;
  match goal with
  | Hrun : TerraformService.runTerraformCommand _ _ _ _ = _ |- _ => rewrite Hcode in Hrun
  end; use_run;
  bind_step; apply returns_log; world_simpl;
  apply throws_throw; (split; [done|]); ran_close.

Section Apply.
Context (ext : Externals) (props : list (string * value)) (id dir : string) (w : World).
Hypothesis Hid : member props "deploymentId" = Str id.
Hypothesis Hdir :
  path_join [Str (cwd w); Str "temp"; Str id; Str "hello_world"; Str "terraform"] = Return dir.

(** The steps of [applyInfrastructure] that precede the first command. *)
Ltac apply_prefix :=
  unfold TerraformService.applyInfrastructure;
  bind_step; [eapply returns_lift; [reflexivity|]];
  bind_step;
  [eapply (returns_run _ _ dir); [cbv beta; unfold lift; by rewrite Hid, Hdir|]];
  bind_step; apply returns_ensureDir; world_simpl;
  bind_step;
  match goal with |- returns _ ?w0 _ =>
    let H := fresh in
    pose proof (generateTerraformConfig_object props w0) as [? H];
    eapply returns_run; [exact H|]; clear H
  end; world_simpl;
  do 4 (bind_step; apply returns_writeFile; world_simpl);
  bind_step; apply returns_log; world_simpl;
  bind_step;
  match goal with |- returns _ ?w0 _ =>
    let H := fresh in
    pose proof (getLatestAMI_total ext w0) as (? & ? & H & ?);
    eapply returns_run; [exact H|]; clear H
  end; ran_open;
  bind_step; apply returns_log; world_simpl;
  bind_step; apply returns_ensureDir; world_simpl;
  bind_step; apply returns_log; world_simpl.

(** X1. A failing provisioning command is fatal for
    [applyInfrastructure]: the commands before it have run, the ones
    after it never do, and its error, which quotes the error stream, or
    the output when that is empty, is what the call throws. *)
Theorem applyInfrastructure_stops_at_first_failure
    (n : nat) (args : list string) (code : Z) (stdout stderr : string) (created : list string)
    (Hn : Frame.apply_sequence !! n = Some args)
    (Hok : ∀ j earlier, (j < n)%nat → Frame.apply_sequence !! j = Some earlier →
           ∀ w', ∃ out err made,
             spawn ext (Frame.terraformPath w) earlier dir w' = Exited 0 out err made)
    (Hfail : ∀ w', spawn ext (Frame.terraformPath w) args dir w'
                   = Exited code stdout stderr created)
    (Hcode : code ≠ 0) :
  throws (TerraformService.applyInfrastructure ext (Obj props)) w
    (λ e w',
       e = Error ("Terraform command failed with code " +:+ pretty code +:+ ": "
                  +:+ (if String.eqb stderr "" then stdout else stderr))
       ∧ Frame.ran (pair (Frame.terraformPath w) <$> take (S n) Frame.apply_sequence) w w').
Proof.
  apply Z.eqb_neq in Hcode.
  assert (∀ earlier w', (∃ j, (j < n)%nat ∧ Frame.apply_sequence !! j = Some earlier) →
            ∃ out err made,
              spawn ext (Frame.terraformPath w) earlier dir w' = Exited 0 out err made) as Hok'.
  { intros earlier w' (j & Hj & Hearlier). eauto. }
  clear Hok. apply throws_try_catch.
  destruct n as [|[|[|[|n]]]]; [..|done]; injection Hn as <-; apply_prefix.
  - run_failed Hfail Hcode.
  - run_ok Hok'; [by exists 0%nat; split; [lia|]|].
    run_failed Hfail Hcode.
  - run_ok Hok'; [by exists 0%nat; split; [lia|]|].
    run_ok Hok'; [by exists 1%nat; split; [lia|]|].
    run_failed Hfail Hcode.
  - run_ok Hok'; [by exists 0%nat; split; [lia|]|].
    run_ok Hok'; [by exists 1%nat; split; [lia|]|].
    run_ok Hok'; [by exists 2%nat; split; [lia|]|].
    run_failed Hfail Hcode.
Qed.



End Apply.

Section DriverDestroy.
Context (ext : Externals) (id dir stateFile : string) (w : World).
Hypothesis Hdir :
  path_join [Str (cwd w); Str "temp"; Str id; Str "hello_world"; Str "terraform"] = Return dir.
Hypothesis Hstate : path_join [Str dir; Str "terraform.tfstate"] = Return stateFile.


End DriverDestroy.

(** ** The public URL *)

Lemma value_of_get (v : value) :
  (if truthy v then get v "value" else mret Undefined) = Return (Url.value_of v)
  ∧ truthy v && truthy (Url.value_of v) = truthy (Url.value_of v).
Proof. destruct v as [| |[]|n| |s|l|p|f]; cbn; try done; by destruct (_ =? _)%Z || destruct (String.eqb _ _). Qed.

Lemma random_draw w : random w = (Return (Url.draw 0 w), Url.drawn 1 w).
Proof. destruct w as [c [|r e] ? ? ? ? ? ? ?]; reflexivity. Qed.

Lemma drawn_drawn n m w : Url.drawn n (Url.drawn m w) = Url.drawn (m + n) w.
Proof. unfold Url.drawn. world_simpl. by rewrite drop_drop. Qed.

Lemma draw_drawn n m w : Url.draw n (Url.drawn m w) = Url.draw (m + n) w.
Proof. unfold Url.draw, Url.drawn. world_simpl. by rewrite lookup_drop. Qed.

Section PublicUrl.
Context (ext : Externals) (infrastructure deploymentConfig : list (string * value)).

(** The decision table of [generatePublicUrl]. *)
Lemma generatePublicUrl_cases (w : World) :
  InfrastructureManager.generatePublicUrl ext (Obj infrastructure) (Obj deploymentConfig) w
  = if truthy (Url.announced infrastructure "application_url") then
      (Return (Url.announced infrastructure "application_url"), w)
    else if truthy (Url.announced infrastructure "instance_public_ip") then
      (Return (Str ("http://" +:+ to_string (Url.announced infrastructure "instance_public_ip")
                    +:+ ":" +:+ Url.port_of deploymentConfig)), w)
    else if truthy (Url.announced infrastructure "instance_public_dns") then
      (Return (Str ("http://" +:+ to_string (Url.announced infrastructure "instance_public_dns")
                    +:+ ":" +:+ Url.port_of deploymentConfig)), w)
    else if strict_eq (member infrastructure "type") (Str "static") then
      (Return (Str ("https://d" +:+ base36 ext (Url.draw 0 w) +:+ ".cloudfront.net")),
       Url.drawn 1 w)
    else if strict_eq (member infrastructure "type") (Str "serverless") then
      (Return (Str ("https://" +:+ base36 ext (Url.draw 0 w) +:+ ".execute-api."
                    +:+ Url.region_of infrastructure +:+ ".amazonaws.com/prod")),
       Url.drawn 1 w)
    else
      (Return (Str (Url.mock_url w (Url.region_of infrastructure)
                      (Url.port_of deploymentConfig))),
       Url.drawn 4 w).
Proof.
  unfold Url.announced, Url.port_of, Url.region_of.
  unfold InfrastructureManager.generatePublicUrl.
  erewrite bind_run by reflexivity.
  destruct (value_of_get (member infrastructure "application_url")) as [Hg Ht].
  rewrite Hg. erewrite bind_run by reflexivity. rewrite Ht. clear Hg Ht.
  destruct (truthy (Url.value_of (member infrastructure "application_url"))); [done|].
  erewrite bind_run by reflexivity.
  destruct (value_of_get (member infrastructure "instance_public_ip")) as [Hg Ht].
  rewrite Hg. erewrite bind_run by reflexivity. rewrite Ht. clear Hg Ht.
  destruct (truthy (Url.value_of (member infrastructure "instance_public_ip")));
    [by erewrite bind_run by reflexivity|].
  erewrite bind_run by reflexivity.
  destruct (value_of_get (member infrastructure "instance_public_dns")) as [Hg Ht].
  rewrite Hg. erewrite bind_run by reflexivity. rewrite Ht. clear Hg Ht.
  destruct (truthy (Url.value_of (member infrastructure "instance_public_dns")));
    [by erewrite bind_run by reflexivity|].
  do 2 (erewrite bind_run by reflexivity).
  destruct (strict_eq (member infrastructure "type") (Str "static"));
    [by erewrite bind_run by apply random_draw|].
  destruct (strict_eq (member infrastructure "type") (Str "serverless"));
    [by erewrite bind_run by apply random_draw|].
  erewrite bind_run by reflexivity.
  do 4 (erewrite bind_run by apply random_draw).
  rewrite !drawn_drawn, !draw_drawn. reflexivity.
Qed.

(** X4. [generatePublicUrl] prefers the announced application URL, then
    the public address, then the DNS name, each taken only when its value
    is truthy and then without drawing a random number; otherwise the URL
    is made up from the infrastructure type and random draws. *)
Theorem generatePublicUrl_precedence (w : World) :
  let run :=
    InfrastructureManager.generatePublicUrl ext (Obj infrastructure) (Obj deploymentConfig) w in
  let application_url := Url.announced infrastructure "application_url" in
  let address := Url.announced infrastructure "instance_public_ip" in
  let dns := Url.announced infrastructure "instance_public_dns" in
  let port := Url.port_of deploymentConfig in
  (truthy application_url = true → run = (Return application_url, w))
  ∧ (truthy application_url = false → truthy address = true →
       run = (Return (Str ("http://" +:+ to_string address +:+ ":" +:+ port)), w))
  ∧ (truthy application_url = false → truthy address = false → truthy dns = true →
       run = (Return (Str ("http://" +:+ to_string dns +:+ ":" +:+ port)), w))
  ∧ (truthy application_url = false → truthy address = false → truthy dns = false →
       (∃ made_up, run.1 = Return (Str made_up))
       ∧ entropy run.2
         = drop (if strict_eq (member infrastructure "type") (Str "static")
                    || strict_eq (member infrastructure "type") (Str "serverless")
                 then 1 else 4) (entropy w)
       ∧ (strict_eq (member infrastructure "type") (Str "static") = false →
          strict_eq (member infrastructure "type") (Str "serverless") = false →
          run.1 = Return (Str (Url.mock_url w (Url.region_of infrastructure) port)))).
Proof.
  cbv zeta. rewrite generatePublicUrl_cases.
  split; [by intros ->|]. split; [by intros -> ->|]. split; [by intros -> -> ->|].
  intros -> -> ->.
  destruct (strict_eq (member infrastructure "type") (Str "static"));
    [split; [by eexists|]; by split|].
  destruct (strict_eq (member infrastructure "type") (Str "serverless"));
    [split; [by eexists|]; by split|].
  split; [by eexists|]. by split.
Qed.

End PublicUrl.

(** Whatever [generatePublicUrl] is given, it returns, and it leaves
    everything but the random source as it was. *)
Lemma generatePublicUrl_returns (ext : Externals) infrastructure deploymentConfig w :
  ∃ url w',
    InfrastructureManager.generatePublicUrl ext (Obj infrastructure) (Obj deploymentConfig) w
    = (Return url, w')
    ∧ clock w' = clock w ∧ Frame.inert w w'.
Proof.
  pose proof (keeps_generatePublicUrl ext (Obj infrastructure) (Obj deploymentConfig) w)
    as Hinert.
  rewrite generatePublicUrl_cases in *.
  repeat match goal with |- context [if ?b then _ else _] => destruct b end;
    by eexists _, _.
Qed.

(** ** Deployment to the provisioned infrastructure *)

(** X5. [deployToInfrastructure] is a simulation: for every
    infrastructure and configuration object it returns status deployed
    with the same five completed steps, stamped in order and at least
    2, 3, 2, 5 and 3 seconds apart, so that at least fifteen seconds lie
    between the recorded start and end; it changes nothing on disk or in
    memory and does not run the provisioning binary. *)
Theorem deployToInfrastructure_is_simulated (ext : Externals)
    (deploymentId codebasePath : value) (infrastructure deploymentConfig : list (string * value))
    (w : World) :
  let step name at_ :=
    Obj [ ("step", Str name); ("status", Str "completed");
          ("timestamp", Str (toISOString ext at_)) ] in
  returns (InfrastructureManager.deployToInfrastructure ext deploymentId (Obj infrastructure)
             codebasePath (Obj deploymentConfig)) w
    (λ result w',
       (∃ publicUrl started prepared uploaded configured launched verified ended,
          result = Obj [ ("deploymentId", deploymentId); ("status", Str "deployed");
                         ("infrastructure", Obj infrastructure); ("publicUrl", publicUrl);
                         ("internalUrl", Null);
                         ("deploymentSteps",
                          Arr [ step "prepare_code" prepared; step "upload_code" uploaded;
                                step "configure_app" configured; step "start_app" launched;
                                step "verify_deployment" verified ]);
                         ("startTime", Str (toISOString ext started));
                         ("endTime", Str (toISOString ext ended)) ]
          ∧ clock w ≤ started ≤ prepared
          ∧ prepared + 2000 ≤ uploaded
          ∧ uploaded + 3000 ≤ configured
          ∧ configured + 2000 ≤ launched
          ∧ launched + 5000 ≤ verified
          ∧ verified + 3000 ≤ ended ≤ clock w')
       ∧ clock w + 15000 ≤ clock w'
       ∧ Frame.inert w w').
Proof.
  cbv zeta. unfold InfrastructureManager.deployToInfrastructure.
  apply returns_try_catch.
  bind_step; apply returns_log; world_simpl.
  bind_step; apply returns_now; world_simpl.
  unfold InfrastructureManager.prepareApplicationCode,
    InfrastructureManager.uploadCodeToInfrastructure,
    InfrastructureManager.configureApplication, InfrastructureManager.startApplication,
    InfrastructureManager.verifyDeployment, InfrastructureManager.simulated_step.
  do 5 (bind_step; bind_step; apply returns_now; world_simpl;
        bind_step; apply returns_delay; intros ? ?; world_simpl; apply returns_ret).
  bind_step; apply returns_now; world_simpl.
  bind_step.
  match goal with |- returns _ ?w0 _ =>
    destruct (generatePublicUrl_returns ext infrastructure deploymentConfig w0)
      as (url & w1 & Hurl & Hclock & (? & ? & ? & ? & ? & ?))
  end.
  eapply returns_run; [exact Hurl|]. clear Hurl. world_simpl.
  bind_step; apply returns_log; world_simpl.
  apply returns_ret. split; [|split].
  - exists url. eexists _, _, _, _, _, _, _. split; [reflexivity|].
    world_simpl. rewrite Hclock. world_simpl. lia.
  - world_simpl. rewrite Hclock. world_simpl. lia.
  - unfold Frame.inert. world_simpl. by repeat split.
Qed.

(** ** What a returning call has gone through *)

Lemma bind_returns_inv {A B} (m : M A) (k : A → M B) w b w' :
  (m ≫= k) w = (Return b, w') → ∃ a w1, m w = (Return a, w1) ∧ k a w1 = (Return b, w').
Proof.
  unfold_monad. destruct (m w) as [[a|e] w1]; [|done]. intros Hk. by exists a, w1.
Qed.

Lemma try_catch_rethrow_inv {A} (m : M A) (h : error → M A) w b w' :
  (∀ e w0, ∃ e' w1, h e w0 = (Throw e', w1)) →
  try_catch m h w = (Return b, w') → m w = (Return b, w').
Proof.
  intros Hh. unfold try_catch. destruct (m w) as [[a|e] w1]; [done|].
  destruct (Hh e w1) as (e' & w2 & ->). done.
Qed.

(** Whenever [applyInfrastructure] returns, its result has the four
    properties [success], [outputs], [publicUrl] and [message], and none
    of the entries of the provisioning outputs at its top level. *)
Lemma applyInfrastructure_result_shape (ext : Externals) deploymentConfig w result w' :
  TerraformService.applyInfrastructure ext deploymentConfig w = (Return result, w') →
  ∃ outputs publicUrl,
    result = Obj [ ("success", Bool true); ("outputs", outputs); ("publicUrl", publicUrl);
                   ("message", Str "Infrastructure deployed successfully") ].
Proof.
  unfold TerraformService.applyInfrastructure. intros Hrun.
  apply try_catch_rethrow_inv in Hrun; [|intros; by eexists _, _].
  repeat (apply bind_returns_inv in Hrun as (? & ? & _ & Hrun)).
  injection Hrun as <- _. by eexists _, _.
Qed.

(** X6. The URL that [deployToInfrastructure] reports for a result of
    [applyInfrastructure] is always the made-up one: the manager looks
    for the provisioning outputs at the top level of the result, where
    they never are, whatever the provisioning tool announced. It is also
    the URL that [deployApplication] records when the outputs carry
    neither an application URL nor a public address, even if they carry
    a DNS name. *)
Theorem applied_infrastructure_gets_made_up_url (ext : Externals)
    (provisioning : value) (w : World) (result : value) (w' : World)
    (Happlied : TerraformService.applyInfrastructure ext provisioning w = (Return result, w')) :
  (∀ deploymentConfig w1,
     InfrastructureManager.generatePublicUrl ext result (Obj deploymentConfig) w1
     = (Return (Str (Url.mock_url w1 "us-east-1" (Url.port_of deploymentConfig))),
        Url.drawn 4 w1))
  ∧ (∀ outputs deploymentConfig deploymentResult,
       get result "outputs" = Return (Obj outputs) →
       truthy (member outputs "application_url") = false →
       truthy (member outputs "instance_public_ip") = false →
       DeploymentService.publicUrl_of result deploymentConfig (Obj deploymentResult)
       = Return (member deploymentResult "publicUrl")).
Proof.
  apply applyInfrastructure_result_shape in Happlied as (outputs & publicUrl & ->).
  split; [intros; by rewrite generatePublicUrl_cases|].
  intros o deploymentConfig deploymentResult Hout Happ Hip.
  cbn in Hout. injection Hout as ->.
  unfold DeploymentService.publicUrl_of. cbn. unfold_monad. by rewrite Happ, Hip.
Qed.

(** ** Status polling *)

Section Status.
Context (ext : Externals) (w : World) (deploymentId : string).

(** X7. Polling an id that is in memory returns a view of its record
    and changes nothing, not even the log; the progress is one of 0, 33,
    67 and 100, and 100 stands for deployed and for failed alike. *)
Theorem getDeploymentStatus_in_memory (o : nat) (deployment : list (string * value))
    (Hid : deployments w !! deploymentId = Some o)
    (Hrecord : heap w !! o = Some deployment) :
  ∃ progress,
    DeploymentService.getDeploymentStatus ext deploymentId w
    = (Return (Obj [ ("deploymentId", Str deploymentId);
                     ("status", member deployment "status");
                     ("timestamp", member deployment "timestamp");
                     ("publicUrl", member deployment "publicUrl");
                     ("error", member deployment "error");
                     ("progress", Num progress);
                     ("instructions", or (member deployment "instructions") Null) ]), w)
    ∧ progress ∈ [0; 33; 67; 100]
    ∧ (progress = 100 ↔ member deployment "status" ∈ [Str "deployed"; Str "failed"]).
Proof.
  unfold DeploymentService.getDeploymentStatus.
  erewrite bind_run by reflexivity. rewrite Hid.
  erewrite bind_run by reflexivity. rewrite Hrecord. cbn [default from_option id].
  rewrite calculateProgress_cases.
  destruct (member deployment "status") as [| |b|n| |s|l|p|f];
    try (exists 0; split; [reflexivity|]; split; [rewrite !elem_of_cons; auto|];
         split; [done|]; rewrite !elem_of_cons, elem_of_nil; intros H; by destruct_or!).
  destruct (String.eqb_spec s "analyzed") as [->|];
    [exists 33; split; [reflexivity|]; split; [rewrite !elem_of_cons; auto|];
     split; [done|]; rewrite !elem_of_cons, elem_of_nil; intros H; by destruct_or!|].
  destruct (String.eqb_spec s "deploying") as [->|];
    [exists 67; split; [reflexivity|]; split; [rewrite !elem_of_cons; auto|];
     split; [done|]; rewrite !elem_of_cons, elem_of_nil; intros H; by destruct_or!|].
  destruct (String.eqb_spec s "deployed") as [->|];
    [exists 100; split; [reflexivity|]; split; [rewrite !elem_of_cons; tauto|];
     split; [|done]; intros _; rewrite !elem_of_cons; auto|].
  destruct (String.eqb_spec s "failed") as [->|];
    [exists 100; split; [reflexivity|]; split; [rewrite !elem_of_cons; tauto|];
     split; [|done]; intros _; rewrite !elem_of_cons; auto|].
  exists 0. split; [reflexivity|]. split; [rewrite !elem_of_cons; auto|].
  split; [done|]. rewrite !elem_of_cons, elem_of_nil. intros H. destruct_or!; congruence.
Qed.

(** X8. An id that is not in memory is judged by the artifacts on disk
    alone: with the deployment directory and the state file in place its
    status is unknown at 50 percent with no URL, otherwise the call fails
    with a not-found error. In no case is anything stored in memory or
    the provisioning binary run. *)
Theorem getDeploymentStatus_from_disk
    (Habsent : deployments w !! deploymentId = None) :
  ∃ deploymentDir terraformDir stateFile,
    path_join [FileSystem.tempDir w; Str deploymentId] = Return deploymentDir
    ∧ path_join [Str deploymentDir; Str "hello_world"; Str "terraform"] = Return terraformDir
    ∧ path_join [Str terraformDir; Str "terraform.tfstate"] = Return stateFile
    ∧ (resolve w deploymentDir ∈ files w → resolve w stateFile ∈ files w →
         returns (DeploymentService.getDeploymentStatus ext deploymentId) w
           (λ polled w',
              polled = Obj [ ("deploymentId", Str deploymentId); ("status", Str "unknown");
                             ("timestamp", Str (toISOString ext (clock w)));
                             ("publicUrl", Null); ("error", Null); ("progress", Num 50);
                             ("note", Str "Deployment artifacts found but status unclear") ]
              ∧ Frame.inert w w'))
    ∧ (¬ (resolve w deploymentDir ∈ files w ∧ resolve w stateFile ∈ files w) →
         throws (DeploymentService.getDeploymentStatus ext deploymentId) w
           (λ e w', e = Error "Deployment not found" ∧ Frame.inert w w')).
Proof.
  destruct (tempDir_string w) as [temp Htemp].
  destruct (path_join_strings [temp; deploymentId]) as [deploymentDir Hdir].
  destruct (path_join_strings [deploymentDir; "hello_world"; "terraform"])
    as [terraformDir Hterraform].
  destruct (path_join_strings [terraformDir; "terraform.tfstate"]) as [stateFile Hstate].
  cbn [fmap list_fmap] in *. rewrite <- Htemp in Hdir.
  exists deploymentDir, terraformDir, stateFile. do 3 (split; [done|]).
  pose proof (keeps_getDeploymentStatus ext deploymentId w) as Hinert.
  split.
  - intros Hd Hs. unfold returns.
    destruct (DeploymentService.getDeploymentStatus ext deploymentId w) as [c w'] eqn:Hrun.
    revert Hrun. unfold DeploymentService.getDeploymentStatus.
    unfold DeploymentService.deployments_get, DeploymentService.timestamp, try_catch, getenv,
      lift, pathExists, log, throw, now. unfold_monad.
    rewrite Habsent. fold (FileSystem.tempDir w). rewrite Hdir, Hterraform, Hstate.
    cbn [cwd files]. unfold resolve in *. cbn [cwd].
    rewrite !bool_decide_eq_true_2 by done. cbn [andb].
    rewrite call_getTerraformOutputs. unfold throw. intros [= <- <-].
    eexists _, _. split; [reflexivity|]. split; [reflexivity|]. exact Hinert.
  - intros Hnone.
    destruct (getDeploymentStatus_not_found ext w deploymentId deploymentDir terraformDir
                stateFile Hdir Hterraform Hstate Habsent Hnone) as (e & w' & Hrun & -> & _).
    rewrite Hrun in Hinert. by exists (Error "Deployment not found"), w'.
Qed.

End Status.

(** ** Destruction *)

Section Destruction.
Context (ext : Externals) (w : World) (deploymentId : string).


(** X10. A destroy that fails leaves memory, disk and processes as they
    were: for an id that is not in memory it fails with a not-found
    error, and for a record that carries provisioning results it fails
    with the type error of the path built from an object. *)
Theorem destroyDeployment_failure_changes_nothing :
  (deployments w !! deploymentId = None →
     throws (DeploymentService.destroyDeployment ext deploymentId) w
       (λ e w', e = Error "Deployment not found" ∧ Frame.inert w w'))
  ∧ (∀ o deployment,
       deployments w !! deploymentId = Some o →
       heap w !! o = Some deployment →
       truthy (member deployment "infrastructure") = true →
       throws (DeploymentService.destroyDeployment ext deploymentId) w
         (λ e w', e = invalid_path_argument ∧ Frame.inert w w')).
Proof.
  split.
  - intros Habsent. unfold DeploymentService.destroyDeployment.
    apply throws_try_catch.
    bind_step; apply returns_log; world_simpl.
    bind_step; apply returns_deployments_get; world_simpl. rewrite Habsent.
    apply throws_throw.
    bind_step; apply returns_log; world_simpl.
    apply throws_throw. split; [done|]. unfold Frame.inert. world_simpl. by repeat split.
  - intros o deployment Hid Hrecord Hinfra. unfold DeploymentService.destroyDeployment.
    apply throws_try_catch.
    bind_step; apply returns_log; world_simpl.
    bind_step; apply returns_deployments_get; world_simpl. rewrite Hid.
    bind_step; apply returns_read; world_simpl. rewrite Hrecord. cbn [default from_option id].
    rewrite Hinfra, call_destroyInfrastructure.
    do 2 apply throws_bind_head.
    unfold TerraformService.destroyInfrastructure. apply throws_try_catch.
    apply throws_bind_head. eapply throws_run; [reflexivity|].
    bind_step; apply returns_log; world_simpl.
    apply throws_throw.
    bind_step; apply returns_log; world_simpl.
    apply throws_throw. split; [done|]. unfold Frame.inert. world_simpl. by repeat split.
Qed.

End Destruction.

(** ** Status updates *)

Lemma member_spread_update (deployment : list (string * value)) id status message lastUpdated
    steps k :
  k ∉ ["deploymentId"; "status"; "currentStep"; "lastUpdated"; "steps"] →
  member (spread deployment
            [ ("deploymentId", id); ("status", status); ("currentStep", message);
              ("lastUpdated", lastUpdated); ("steps", steps) ]) k
  = member deployment k.
Proof.
  rewrite !elem_of_cons, elem_of_nil. intros Hk.
  unfold spread. cbn [fold_left fst snd].
  rewrite !member_set_ne; [done|..]; intros ->; tauto.
Qed.

Section Update.
Context (ext : Externals) (w : World) (deploymentId status message : string).
Context (result : value) (error : option error).

(** The record that [updateDeploymentStatus] builds from the stored one. *)
Lemma updateDeploymentStatus_run previous :
  let deployment := default [] (Spec.record_of w deploymentId) in
  or (member deployment "steps") (Arr []) = Arr previous →
  ∃ updated,
    DeploymentService.updateDeploymentStatus ext deploymentId status message result error w
    = (Return (),
       mkWorld (clock w) (entropy w) (environ w) (cwd w) (files w)
         (logged w ++ [("info", "Deployment " +:+ deploymentId +:+ " status updated:")])
         (spawned w)
         (<[deploymentId := fresh (dom (heap w))]> (deployments w))
         (<[fresh (dom (heap w)) := updated]> (heap w)))
    ∧ member updated "deploymentId" = Str deploymentId
    ∧ member updated "status" = Str status
    ∧ member updated "currentStep" = Str message
    ∧ member updated "lastUpdated" = Str (toISOString ext (clock w))
    ∧ member updated "steps"
      = Arr (previous ++
             [ Obj ([ ("timestamp", Str (toISOString ext (clock w))); ("status", Str status);
                      ("message", Str message) ]
                    ++ match error with
                       | Some e => [ ("error", Str (Js.message e)) ]
                       | None => []
                       end) ])
    ∧ (∀ e, error = Some e → member updated "error" = Str (Js.message e))
    ∧ (truthy result = true → error = None → member updated "result" = result)
    ∧ (∀ k, k ∉ ["deploymentId"; "status"; "currentStep"; "lastUpdated"; "steps";
                  "result"; "error"] →
         member updated k = member deployment k).
Proof.
  intros deployment Hsteps. unfold DeploymentService.updateDeploymentStatus.
  erewrite bind_run by reflexivity.
  erewrite (bind_run _ _ _ deployment w).
  2:{ subst deployment. unfold Spec.record_of.
      destruct (deployments w !! deploymentId) as [o|]; reflexivity. }
  erewrite bind_run by reflexivity.
  rewrite Hsteps.
  do 4 (erewrite bind_run by reflexivity).
  eexists. split; [reflexivity|].
  set (base := spread deployment _).
  assert (∀ k v, member base k = v →
            k ≠ "result" → k ≠ "error" →
            member
              match error with
              | Some e =>
                  set "error" (Str (Js.message e))
                    (if truthy result then set "result" result base else base)
              | None => if truthy result then set "result" result base else base
              end k = v) as Hkeep.
  { intros k v Hk Hr He. destruct error, (truthy result);
      rewrite ?member_set_ne by done; done. }
  repeat split.
  - apply Hkeep; [|done..]. subst base. unfold spread. cbn [fold_left fst snd].
    rewrite !member_set_ne by done. apply member_set_eq.
  - apply Hkeep; [|done..]. subst base. unfold spread. cbn [fold_left fst snd].
    rewrite !member_set_ne by done. apply member_set_eq.
  - apply Hkeep; [|done..]. subst base. unfold spread. cbn [fold_left fst snd].
    rewrite !member_set_ne by done. apply member_set_eq.
  - apply Hkeep; [|done..]. subst base. unfold spread. cbn [fold_left fst snd].
    rewrite !member_set_ne by done. apply member_set_eq.
  - apply Hkeep; [|done..]. subst base. unfold spread. cbn [fold_left fst snd].
    by rewrite member_set_eq.
  - intros e ->. apply member_set_eq.
  - intros Hresult ->. rewrite Hresult. apply member_set_eq.
  - intros k. rewrite !elem_of_cons, elem_of_nil. intros Hk.
    apply Hkeep; [|intros ->; tauto..]. subst base. apply member_spread_update.
    rewrite !elem_of_cons, elem_of_nil. tauto.
Qed.

End Update.

(** X11. A status update never changes a record object: it stores a
    copy of the id's record under a new address and points the id to it.
    The copy carries the new status, message and time, the error message
    when an error is given and the result when one is given, and every
    other property of the previous record unchanged. *)
Theorem updateDeploymentStatus_stores_a_copy (ext : Externals) (w : World)
    (deploymentId status message : string) (result : value) (error : option error)
    (previous : list value)
    (Hsteps : Spec.steps_of w deploymentId = Some previous) :
  returns (DeploymentService.updateDeploymentStatus ext deploymentId status message result error)
    w
    (λ _ w',
       ∃ o updated,
         heap w !! o = None
         ∧ deployments w' = <[deploymentId := o]> (deployments w)
         ∧ heap w' = <[o := updated]> (heap w)
         ∧ (∀ o', is_Some (heap w !! o') → heap w' !! o' = heap w !! o')
         ∧ member updated "deploymentId" = Str deploymentId
         ∧ member updated "status" = Str status
         ∧ member updated "currentStep" = Str message
         ∧ member updated "lastUpdated" = Str (toISOString ext (clock w))
         ∧ (∀ e, error = Some e → member updated "error" = Str (Js.message e))
         ∧ (truthy result = true → error = None → member updated "result" = result)
         ∧ (∀ k, k ∉ ["deploymentId"; "status"; "currentStep"; "lastUpdated"; "steps";
                       "result"; "error"] →
              member updated k = member (default [] (Spec.record_of w deploymentId)) k)).
Proof.
  unfold Spec.steps_of in Hsteps.
  destruct (or (member (default [] (Spec.record_of w deploymentId)) "steps") (Arr []))
    as [| | | | | |steps| |] eqn:Hrecorded; try done.
  destruct (updateDeploymentStatus_run ext w deploymentId status message result error steps
              Hrecorded)
    as (updated & Hrun & Hid & Hstatus & Hstep & Hlast & _ & Herror & Hresult & Hother).
  assert (heap w !! fresh (dom (heap w)) = None) as Hfresh.
  { apply not_elem_of_dom, is_fresh. }
  eapply returns_run; [exact Hrun|]. world_simpl.
  exists (fresh (dom (heap w))), updated. repeat split; try done.
  intros o' [r Hr]. rewrite lookup_insert_ne; [done|]. intros <-. congruence.
Qed.

(** ** The chat flow *)

Lemma createDeploymentDirectory_returns deploymentId w (Q : string → World → Prop) :
  (∀ deploymentDir,
     path_join [FileSystem.tempDir w; Str deploymentId] = Return deploymentDir →
     Q deploymentDir
       (mkWorld (clock w) (entropy w) (environ w) (cwd w)
          (list_to_set (with_ancestors (resolve w deploymentDir)) ∪ files w)
          (logged w ++ [("info", "Deployment directory created: " +:+ deploymentDir)])
          (spawned w) (deployments w) (heap w))) →
  returns (FileSystem.createDeploymentDirectory (Str deploymentId)) w Q.
Proof.
  intros HQ.
  destruct (tempDir_string w) as [temp Htemp].
  destruct (path_join_strings [temp; deploymentId]) as [deploymentDir Hdir].
  cbn [fmap list_fmap] in Hdir. rewrite <- Htemp in Hdir.
  unfold FileSystem.createDeploymentDirectory.
  bind_step; apply returns_getenv. fold (FileSystem.tempDir w).
  bind_step. eapply returns_lift; [exact Hdir|].
  bind_step; apply returns_ensureDir.
  bind_step; apply returns_log. apply returns_ret. world_simpl. by apply HQ.
Qed.

Lemma cloneRepository_fails (ext : Externals) url destinationDir e w
    (Q : Js.error → World → Prop) :
  (∀ p w', git_clone ext url p w' = Throw e) →
  (∀ w', Frame.inert w w' →
     Q (Error ("Failed to clone repository: " +:+ Js.message e)) w') →
  throws (RepositoryAnalyzer.cloneRepository ext (Str url) destinationDir) w Q.
Proof.
  intros Hclone HQ.
  destruct (path_join_strings [destinationDir; RepositoryAnalyzer.extractRepoName url])
    as [clonePath Hpath].
  unfold RepositoryAnalyzer.cloneRepository. apply throws_try_catch.
  bind_step. eapply returns_lift; [reflexivity|].
  bind_step. eapply returns_lift; [exact Hpath|].
  bind_step; apply returns_log; world_simpl.
  apply throws_bind_head. eapply throws_external; [apply Hclone|].
  bind_step; apply returns_log; world_simpl.
  apply throws_throw, HQ. unfold Frame.inert. world_simpl. by repeat split.
Qed.

(** X12. When the clone fails, the chat flow throws the clone error,
    and the record of the id ends with status failed, the error message,
    the repository URL given at intake, and exactly two steps: the
    announcement of the analysis and the failure. *)
Theorem processChatDeployment_records_failed_clone (ext : Externals) (w : World)
    (deploymentId url : string) (message uploadedFile : value) (e : Js.error)
    (Hurl : url ≠ "")
    (Hclone : ∀ clonePath w', git_clone ext url clonePath w' = Throw e) :
  throws (DeploymentService.processChatDeployment ext deploymentId message (Str url) uploadedFile)
    w
    (λ thrown w',
       thrown = Error ("Failed to clone repository: " +:+ Js.message e)
       ∧ ∃ record analyzing failed,
           Spec.record_of w' deploymentId = Some record
           ∧ member record "status" = Str "failed"
           ∧ member record "error" = Str (Js.message thrown)
           ∧ member record "repositoryUrl" = Str url
           ∧ Spec.steps_of w' deploymentId = Some [analyzing; failed]
           ∧ get analyzing "status" = Return (Str "analyzing")
           ∧ get failed "status" = Return (Str "failed")
           ∧ get failed "error" = Return (Str (Js.message thrown))).
Proof.
  unfold DeploymentService.processChatDeployment. apply throws_try_catch.
  bind_step; apply returns_log; world_simpl.
  bind_step. unfold DeploymentService.initializeDeploymentStatus.
  bind_step; apply returns_timestamp; world_simpl.
  bind_step; apply returns_alloc; world_simpl.
  apply returns_deployments_set; world_simpl.
  set (o0 := fresh (dom (heap w))).
  bind_step.
  match goal with |- returns _ ?w1 _ =>
    destruct (updateDeploymentStatus_run ext w1 deploymentId "analyzing"
                "Analyzing application..." Null None [])
      as (analyzing & Hrun1 & _ & _ & _ & _ & Hsteps1 & _ & _ & Hother1)
  end.
  { unfold Spec.record_of. world_simpl. rewrite lookup_insert_eq.
    cbn [mbind option_bind]. by rewrite lookup_insert_eq. }
  eapply returns_run; [exact Hrun1|]. clear Hrun1. world_simpl.
  revert Hsteps1 Hother1. unfold Spec.record_of. world_simpl. rewrite lookup_insert_eq.
  cbn [mbind option_bind]. rewrite lookup_insert_eq. cbn [default from_option id app].
  intros Hsteps1 Hother1.
  set (o1 := fresh (dom (<[o0 := _]> (heap w)))).
  apply throws_bind_head.
  unfold DeploymentService.analyzeApplication. apply throws_try_catch.
  bind_step; apply returns_log; world_simpl.
  bind_step. apply createDeploymentDirectory_returns. intros deploymentDir _. world_simpl.
  apply throws_bind_head.
  replace (truthy (Str url)) with true
    by (cbn; by destruct (String.eqb_spec url "")).
  apply throws_fmap. apply (cloneRepository_fails _ _ _ e); [exact Hclone|].
  intros w3 (He3 & Hc3 & Hf3 & Hs3 & Hd3 & Hh3). world_simpl.
  bind_step; apply returns_log; world_simpl.
  apply throws_throw.
  bind_step; apply returns_log; world_simpl.
  bind_step.
  match goal with |- returns (DeploymentService.updateDeploymentStatus _ _ ?s ?m _ ?err) ?w4 _ =>
    destruct (updateDeploymentStatus_run ext w4 deploymentId s m Null err
                [ Obj [ ("timestamp", Str (toISOString ext (clock w)));
                        ("status", Str "analyzing");
                        ("message", Str "Analyzing application...") ] ])
      as (failed & Hrun2 & _ & Hstatus2 & _ & _ & Hsteps2 & Herror2 & _ & Hother2)
  end.
  { unfold Spec.record_of. world_simpl. rewrite Hd3, Hh3, lookup_insert_eq.
    cbn [mbind option_bind]. rewrite lookup_insert_eq. cbn [default from_option id].
    by rewrite Hsteps1. }
  eapply returns_run; [exact Hrun2|]. clear Hrun2. world_simpl.
  revert Hsteps2 Hother2. unfold Spec.record_of. world_simpl.
  rewrite Hd3, Hh3, lookup_insert_eq.
  cbn [mbind option_bind]. rewrite lookup_insert_eq. cbn [default from_option id app].
  intros Hsteps2 Hother2.
  apply throws_throw. split; [done|].
  eexists failed, _, _. unfold Spec.steps_of, Spec.record_of. world_simpl.
  rewrite lookup_insert_eq. cbn [mbind option_bind]. rewrite lookup_insert_eq.
  cbn [default from_option id].
  split; [done|]. split; [done|]. split; [by apply Herror2|].
  split.
  { rewrite Hother2 by not_in_literal. rewrite Hother1 by not_in_literal. reflexivity. }
  rewrite Hsteps2. cbn [or truthy]. split; [reflexivity|]. by repeat split.
Qed.

(** ** Analysis *)

Lemma determineDeploymentStrategy_returns codeAnalysis nlpAnalysis description w :
  Contract.codeAnalysis codeAnalysis = true →
  Contract.intentAnalysis nlpAnalysis = true →
  (∀ named, get nlpAnalysis "deploymentType" = Return named →
            to_string named ∉ Contract.throwing_members) →
  ∃ strategy w',
    InfrastructureManager.determineDeploymentStrategy codeAnalysis nlpAnalysis description w
    = (Return (Obj strategy), w')
    ∧ Frame.inert w w'.
Proof.
  intros Hcode Hintent Hnamed.
  pose proof (keeps_determineDeploymentStrategy codeAnalysis nlpAnalysis description w)
    as Hinert.
  destruct (codeAnalysis_shape _ Hcode) as (code & -> & Hc).
  destruct (intentAnalysis_shape _ Hintent) as (nlp & -> & Hn).
  specialize (Hnamed _ eq_refl).
  assert (∃ t reason,
            InfrastructureManager.decideStrategy InfrastructureManager.initial_strategy
              (Obj code) (Obj nlp)
            = Return (InfrastructureManager.choose InfrastructureManager.initial_strategy
                        (Str t) reason)
            ∧ t ∉ Contract.throwing_members) as (t & reason & Hdecide & Ht).
  { destruct (truthy (member nlp "deploymentType")) eqn:Htruthy.
    - pose proof (Contract.shape_deploymentType _ Hn) as Hopt.
      destruct (member nlp "deploymentType") as [| | | | |t| | |] eqn:Hmember; try done.
      exists t, ("User requested " +:+ t +:+ " deployment"). split; [|done].
      by apply decide_named.
    - destruct (decide_unnamed InfrastructureManager.initial_strategy code nlp Hc Hn Htruthy)
        as (t & reason & Hdecide & Ht).
      exists t, reason. split; [done|].
      unfold Contract.strategy_types, Contract.throwing_members in *.
      rewrite !elem_of_cons, elem_of_nil in Ht. rewrite !elem_of_cons, elem_of_nil.
      intros Hbad. destruct_or!; congruence. }
  pose proof (determineDeploymentStrategy_run _ _ description w _ Hdecide) as Hrun.
  destruct (generateStrategyDetails_named t reason (Obj code) (Obj nlp))
    as [(detailed & Hdet & _) | [Hbad _]]; [|done].
  rewrite Hdet in Hrun. destruct Hrun as [w' Hrun]. rewrite Hrun in Hinert.
  by exists detailed, w'.
Qed.

(** X13. A successful analysis stores a fresh record of exactly nine
    properties under the id, at a new address: whatever was recorded for
    the id before, its steps included, is not carried over, and no
    existing record object is changed. *)
Theorem analyzeApplication_stores_fresh_record (ext : Externals) (w : World)
    (deploymentId url : string) (description uploadedFile codeAnalysis nlpAnalysis : value)
    (Hurl : url ≠ "")
    (Hclone : ∀ clonePath w', git_clone ext url clonePath w' = Return ())
    (Hcode : ∀ codebasePath w', analyzeCodebase ext codebasePath w' = Return codeAnalysis)
    (Hnlp : ∀ w', processDeploymentDescription ext description w' = Return nlpAnalysis)
    (Hcontract : Contract.codeAnalysis codeAnalysis = true
                 ∧ Contract.intentAnalysis nlpAnalysis = true)
    (Hnamed : ∀ named, get nlpAnalysis "deploymentType" = Return named →
                       to_string named ∉ Contract.throwing_members) :
  returns (DeploymentService.analyzeApplication ext deploymentId description (Str url)
             uploadedFile) w
    (λ o w',
       ∃ strategy codebasePath,
         heap w !! o = None
         ∧ deployments w' = <[deploymentId := o]> (deployments w)
         ∧ heap w' = <[o := [ ("deploymentId", Str deploymentId);
                               ("timestamp", Str (toISOString ext (clock w')));
                               ("repositoryUrl", Str url); ("description", description);
                               ("codeAnalysis", codeAnalysis); ("nlpAnalysis", nlpAnalysis);
                               ("deploymentStrategy", strategy);
                               ("codebasePath", Str codebasePath);
                               ("status", Str "analyzed") ]]> (heap w)
         ∧ Spec.steps_of w' deploymentId = Some []).
Proof.
  destruct Hcontract as [Hcodev Hintentv].
  unfold DeploymentService.analyzeApplication. apply returns_try_catch.
  bind_step; apply returns_log; world_simpl.
  bind_step. apply createDeploymentDirectory_returns. intros deploymentDir _. world_simpl.
  bind_step.
  replace (truthy (Str url)) with true
    by (cbn; by destruct (String.eqb_spec url "")).
  apply returns_fmap.
  destruct (path_join_strings [deploymentDir; RepositoryAnalyzer.extractRepoName url])
    as [clonePath Hpath].
  unfold RepositoryAnalyzer.cloneRepository. apply returns_try_catch.
  bind_step. eapply returns_lift; [reflexivity|].
  bind_step. eapply returns_lift; [exact Hpath|].
  bind_step; apply returns_log; world_simpl.
  bind_step. eapply returns_external; [apply Hclone|].
  bind_step; apply returns_ensureDir; world_simpl.
  bind_step; apply returns_log; world_simpl.
  apply returns_ret.
  bind_step. eapply returns_external; [apply Hcode|].
  bind_step. eapply returns_external; [apply Hnlp|].
  bind_step.
  match goal with |- returns _ ?w0 _ =>
    destruct (determineDeploymentStrategy_returns codeAnalysis nlpAnalysis description w0
                Hcodev Hintentv Hnamed)
      as (strategy & w1 & Hrun & (He1 & Hc1 & Hf1 & Hs1 & Hd1 & Hh1))
  end.
  eapply returns_run; [exact Hrun|]. clear Hrun. world_simpl.
  bind_step; apply returns_timestamp; world_simpl.
  bind_step; apply returns_alloc; world_simpl.
  bind_step; apply returns_deployments_set; world_simpl.
  destruct (codeAnalysis_shape _ Hcodev) as (code & -> & _).
  bind_step. eapply returns_lift; [reflexivity|].
  bind_step. eapply returns_lift; [reflexivity|].
  bind_step; apply returns_log; world_simpl.
  apply returns_ret.
  exists (Obj strategy), clonePath. rewrite Hd1, Hh1.
  split; [apply not_elem_of_dom, is_fresh|]. split; [done|]. split; [done|].
  unfold Spec.steps_of, Spec.record_of. world_simpl. rewrite lookup_insert_eq.
  cbn [mbind option_bind]. by rewrite lookup_insert_eq.
Qed.

(** ** Either outcome *)

Section Outcome.
Context {A B : Type}.
Implicit Types (m : M A) (k : A → M B) (w : World).







End Outcome.

(** ** What a service call leaves alone *)

#[local] Instance others_untouched_preorder id : PreOrder (Frame.others_untouched id).
Proof.
  split; [by intros w|]. intros w1 w2 w3 H1 H2 other Hother.
  by rewrite H2, H1.
Qed.

Lemma keeps_memory_others {A} id (m : M A) :
  Frame.keeps Frame.memory_untouched m → Frame.keeps (Frame.others_untouched id) m.
Proof. intros H w other _. destruct (H w) as [-> _]. done. Qed.

Section ServiceFrames.
Context (ext : Externals).

Lemma keeps_call name args :
  Frame.keeps Frame.memory_untouched (TerraformService.call ext name args).
Proof.
  unfold TerraformService.call.
  repeat first
    [ lazymatch goal with
      | |- Frame.keeps _ (TerraformService.generateTerraformConfig _) =>
          apply keeps_inert_memory, keeps_generateTerraformConfig
      | |- Frame.keeps _ (TerraformService.getLatestAMI _) =>
          apply keeps_inert_memory, keeps_getLatestAMI
      | |- Frame.keeps _ (TerraformService.runTerraformCommand _ _ _) =>
          apply keeps_runTerraformCommand
      | |- Frame.keeps _ (TerraformService.applyInfrastructure _ _) =>
          apply keeps_applyInfrastructure
      | |- Frame.keeps _ (TerraformService.destroyInfrastructure _ _) =>
          apply keeps_destroyInfrastructure
      end
    | keeps_step ].
Qed.

Lemma keeps_cloneRepository repositoryUrl destinationDir :
  Frame.keeps Frame.memory_untouched
    (RepositoryAnalyzer.cloneRepository ext repositoryUrl destinationDir).
Proof. unfold RepositoryAnalyzer.cloneRepository. repeat keeps_step. Qed.

Lemma keeps_createDeploymentDirectory deploymentId :
  Frame.keeps Frame.memory_untouched (FileSystem.createDeploymentDirectory deploymentId).
Proof. unfold FileSystem.createDeploymentDirectory. repeat keeps_step. Qed.

Lemma keeps_cleanupDeployment deploymentId :
  Frame.keeps Frame.memory_untouched (FileSystem.cleanupDeployment ext deploymentId).
Proof. unfold FileSystem.cleanupDeployment. repeat keeps_step. Qed.

Lemma keeps_deployments_set id o :
  Frame.keeps (Frame.others_untouched id) (DeploymentService.deployments_set id o).
Proof. intros w other Hother. cbn. by rewrite lookup_insert_ne. Qed.

Lemma keeps_deployments_delete id :
  Frame.keeps (Frame.others_untouched id) (DeploymentService.deployments_delete id).
Proof. intros w other Hother. cbn. by rewrite lookup_delete_ne. Qed.

(** Calls into the collaborating services, none of which touches the
    deployment table. *)
Ltac keeps_collaborator :=
  lazymatch goal with
  | |- Frame.keeps _ (DeploymentService.deployments_set _ _) => apply keeps_deployments_set
  | |- Frame.keeps _ (DeploymentService.deployments_delete _) => apply keeps_deployments_delete
  | |- Frame.keeps _ (DeploymentService.alloc _) => by intros ?
  | |- Frame.keeps _ (DeploymentService.assign _ _ _) => by intros ?
  | |- Frame.keeps _ (DeploymentService.timestamp _) => unfold DeploymentService.timestamp
  | |- Frame.keeps _ (TerraformService.call _ _ _) => apply keeps_memory_others, keeps_call
  | |- Frame.keeps _ (RepositoryAnalyzer.cloneRepository _ _ _) =>
      apply keeps_memory_others, keeps_cloneRepository
  | |- Frame.keeps _ (FileSystem.createDeploymentDirectory _) =>
      apply keeps_memory_others, keeps_createDeploymentDirectory
  | |- Frame.keeps _ (FileSystem.cleanupDeployment _ _) =>
      apply keeps_memory_others, keeps_cleanupDeployment
  | |- Frame.keeps _ (InfrastructureManager.determineDeploymentStrategy _ _ _) =>
      apply keeps_memory_others, keeps_inert_memory, keeps_determineDeploymentStrategy
  | |- Frame.keeps _ (InfrastructureManager.generateDeploymentConfig _ _ _) =>
      apply keeps_memory_others, keeps_inert_memory, keeps_generateDeploymentConfig
  | |- Frame.keeps _ (InfrastructureManager.deployToInfrastructure _ _ _ _ _) =>
      apply keeps_memory_others, keeps_inert_memory, keeps_deployToInfrastructure
  end.

Lemma keeps_updateDeploymentStatus id status message result error :
  Frame.keeps (Frame.others_untouched id)
    (DeploymentService.updateDeploymentStatus ext id status message result error).
Proof.
  unfold DeploymentService.updateDeploymentStatus.
  repeat first [keeps_collaborator | keeps_step].
Qed.

Lemma keeps_analyzeApplication id description repositoryUrl uploadedFile :
  Frame.keeps (Frame.others_untouched id)
    (DeploymentService.analyzeApplication ext id description repositoryUrl uploadedFile).
Proof.
  unfold DeploymentService.analyzeApplication.
  repeat first [keeps_collaborator | keeps_step].
Qed.

Lemma keeps_deployApplication id description repositoryUrl analysisId :
  Frame.keeps (Frame.others_untouched id)
    (DeploymentService.deployApplication ext id description repositoryUrl analysisId).
Proof.
  unfold DeploymentService.deployApplication.
  repeat first
    [ lazymatch goal with
      | |- Frame.keeps _ (DeploymentService.analyzeApplication _ _ _ _ _) =>
          apply keeps_analyzeApplication
      end
    | keeps_collaborator | keeps_step ].
Qed.

Lemma keeps_processChatDeployment id message repositoryUrl uploadedFile :
  Frame.keeps (Frame.others_untouched id)
    (DeploymentService.processChatDeployment ext id message repositoryUrl uploadedFile).
Proof.
  unfold DeploymentService.processChatDeployment, DeploymentService.initializeDeploymentStatus.
  repeat first
    [ lazymatch goal with
      | |- Frame.keeps _ (DeploymentService.analyzeApplication _ _ _ _ _) =>
          apply keeps_analyzeApplication
      | |- Frame.keeps _ (DeploymentService.deployApplication _ _ _ _ _) =>
          apply keeps_deployApplication
      | |- Frame.keeps _ (DeploymentService.updateDeploymentStatus _ _ _ _ _ _) =>
          apply keeps_updateDeploymentStatus
      end
    | keeps_collaborator | keeps_step ].
Qed.

Lemma keeps_destroyDeployment id :
  Frame.keeps (Frame.others_untouched id) (DeploymentService.destroyDeployment ext id).
Proof.
  unfold DeploymentService.destroyDeployment.
  repeat first [keeps_collaborator | keeps_step].
Qed.

End ServiceFrames.

(** ** Display steps *)



(** ** Deployment from a stored analysis *)

Section Shares.
Context (ext : Externals) (deploymentId analysisId : string) (o : nat).










End Shares.

(** ** Who touches what *)

(** X15. A service call made for one id never adds, removes or
    re-points the table entry of any other id, whatever the collaborators
    do and whether it returns or throws. *)
Theorem service_calls_leave_other_ids_alone (ext : Externals) (deploymentId : string) :
  (∀ description repositoryUrl uploadedFile,
     Frame.keeps (Frame.others_untouched deploymentId)
       (DeploymentService.analyzeApplication ext deploymentId description repositoryUrl
          uploadedFile))
  ∧ (∀ description repositoryUrl analysisId,
       Frame.keeps (Frame.others_untouched deploymentId)
         (DeploymentService.deployApplication ext deploymentId description repositoryUrl
            analysisId))
  ∧ (∀ message repositoryUrl uploadedFile,
       Frame.keeps (Frame.others_untouched deploymentId)
         (DeploymentService.processChatDeployment ext deploymentId message repositoryUrl
            uploadedFile))
  ∧ (∀ status message result error,
       Frame.keeps (Frame.others_untouched deploymentId)
         (DeploymentService.updateDeploymentStatus ext deploymentId status message result error))
  ∧ Frame.keeps (Frame.others_untouched deploymentId)
      (DeploymentService.destroyDeployment ext deploymentId)
  ∧ Frame.keeps (Frame.others_untouched deploymentId)
      (DeploymentService.getDeploymentStatus ext deploymentId).
Proof.
  split; [intros; apply keeps_analyzeApplication|].
  split; [intros; apply keeps_deployApplication|].
  split; [intros; apply keeps_processChatDeployment|].
  split; [intros; apply keeps_updateDeploymentStatus|].
  split; [apply keeps_destroyDeployment|].
  apply keeps_memory_others, keeps_inert_memory, keeps_getDeploymentStatus.
Qed.

(** X16. Determining a strategy and the simulated deployment only
    compute and log: they leave the environment, the disk and the
    deployment memory as they were and never start the provisioning
    binary, whatever their arguments and whether they return or throw.
    Assembling a configuration may, for a strategy on a virtual machine,
    ask the AWS command line for a machine image; whatever that lookup
    does outside, the environment, the working directory and the
    deployment memory of the process are as before. *)
Theorem infrastructure_manager_is_inert (ext : Externals) :
  (∀ codeAnalysis nlpAnalysis description,
     Frame.keeps Frame.inert
       (InfrastructureManager.determineDeploymentStrategy codeAnalysis nlpAnalysis description))
  ∧ (∀ analysis deploymentId,
       Frame.keeps Frame.process_kept
         (InfrastructureManager.generateDeploymentConfig ext analysis deploymentId))
  ∧ (∀ deploymentId infrastructure codebasePath deploymentConfig,
       Frame.keeps Frame.inert
         (InfrastructureManager.deployToInfrastructure ext deploymentId infrastructure
            codebasePath deploymentConfig)).
Proof.
  split; [intros; apply keeps_determineDeploymentStrategy|].
  split; [intros; apply keeps_inert_process, keeps_generateDeploymentConfig|].
  intros; apply keeps_deployToInfrastructure.
Qed.

(** X17. The provisioning driver and the file helpers never touch the
    deployment memory: neither the table nor any record object changes
    while templates are generated, the provisioning binary runs or
    directories are created and removed. *)
Theorem memory_is_touched_by_the_deployment_service_only (ext : Externals) :
  (∀ name args,
     Frame.keeps Frame.memory_untouched (TerraformService.call ext name args))
  ∧ (∀ repositoryUrl destinationDir,
       Frame.keeps Frame.memory_untouched
         (RepositoryAnalyzer.cloneRepository ext repositoryUrl destinationDir))
  ∧ (∀ deploymentId,
       Frame.keeps Frame.memory_untouched (FileSystem.createDeploymentDirectory deploymentId))
  ∧ (∀ deploymentId,
       Frame.keeps Frame.memory_untouched (FileSystem.cleanupDeployment ext deploymentId)).
Proof.
  split; [intros; apply keeps_call|].
  split; [intros; apply keeps_cloneRepository|].
  split; [intros; apply keeps_createDeploymentDirectory|].
  intros; apply keeps_cleanupDeployment.
Qed.

(** ** Port detection *)

Lemma parseInt_not_a_digit c rest :
  RepositoryAnalyzer.digit_of c = None →
  RepositoryAnalyzer.parseInt (String c rest) = NaN.
Proof. intros H. unfold RepositoryAnalyzer.parseInt. cbn. by rewrite H. Qed.

(** X18. After [detectPort] the analysis always carries a truthy port.
    A number captured from the configuration files wins when it is not
    zero (stated for numbers below 2^53, which [parseInt] returns
    exactly); the second whole match that the global pattern hands over
    starts with a colon, counts for nothing, and the port then comes
    from the table of application types, with 8080 for the types the
    table does not list. *)
Theorem detectPort_always_sets_a_port (captures : list (option string))
    (analysis : list (string * value)) :
  let detected := member (RepositoryAnalyzer.detectPort captures analysis) "port" in
  let by_type :=
    or (member RepositoryAnalyzer.defaultPorts (to_string (member analysis "appType")))
       (Num 8080) in
  truthy detected = true
  ∧ (∀ captured rest n,
       omap id captures = captured :: rest →
       RepositoryAnalyzer.parseInt captured = Num n → n ≠ 0 → n < 2 ^ 53 →
       detected = Num n)
  ∧ (∀ captured rest,
       omap id captures = String ":" captured :: rest →
       detected = by_type)
  ∧ (omap id captures = [] → truthy (member analysis "port") = false → detected = by_type)
  ∧ (truthy by_type = true).
Proof.
  cbv zeta.
  assert (truthy (or (member RepositoryAnalyzer.defaultPorts
                        (to_string (member analysis "appType"))) (Num 8080)) = true)
    as Htable.
  { unfold or. by destruct (truthy (member RepositoryAnalyzer.defaultPorts _)) eqn:E. }
  unfold RepositoryAnalyzer.detectPort.
  split; [|split; [|split; [|split]]].
  - destruct (omap id captures) as [|captured rest].
    + destruct (truthy (member analysis "port")) eqn:E; cbn [negb]; [done|].
      by rewrite member_set_eq.
    + rewrite member_set_eq.
      destruct (truthy (RepositoryAnalyzer.parseInt captured)) eqn:E; cbn [negb].
      * by rewrite member_set_eq.
      * rewrite member_set_eq, member_set_ne by done. done.
  - intros captured rest n -> Hparse Hn _. rewrite member_set_eq, Hparse.
    cbn [truthy]. apply Z.eqb_neq in Hn. rewrite Hn. cbn [negb].
    by rewrite member_set_eq.
  - intros captured rest ->. rewrite member_set_eq.
    rewrite parseInt_not_a_digit by done. cbn [truthy negb].
    by rewrite member_set_eq, member_set_ne.
  - intros -> Hport. rewrite Hport. cbn [negb]. by rewrite member_set_eq.
  - done.
Qed.

(** ** Secrets, again *)

Lemma filter_elems_throws pred (elems : list value) bad :
  bad ∈ elems →
  (∀ e, Contract.is_string e = true → ∃ b, pred e = Return b) →
  (∀ e, Contract.is_string e = false → ∃ msg, pred e = Throw (TypeError msg)) →
  Contract.is_string bad = false →
  ∃ msg, filter_elems pred elems = Throw (TypeError msg).
Proof.
  intros Hin Hok Hbad Hnot. induction elems as [|e elems IH]; [by apply elem_of_nil in Hin|].
  cbn [filter_elems]. destruct (Contract.is_string e) eqn:He.
  - destruct (Hok e He) as [b ->].
    apply elem_of_cons in Hin as [->|Hin]; [congruence|].
    destruct (IH Hin) as [msg ->]. by exists msg.
  - destruct (Hbad e He) as [msg ->]. by exists msg.
Qed.

Lemma secret_pattern_string e :
  Contract.is_string e = true →
  ∃ b, some_pattern (λ pattern, lowered ← method_toLowerCase e; mret (includes lowered pattern))
         InfrastructureManager.secretPatterns = Return b.
Proof. destruct e; try done. intros _. rewrite some_pattern_includes. by eexists. Qed.

Lemma secret_pattern_other e :
  Contract.is_string e = false →
  ∃ msg, some_pattern (λ pattern, lowered ← method_toLowerCase e; mret (includes lowered pattern))
           InfrastructureManager.secretPatterns = Throw (TypeError msg).
Proof. destruct e; try done; intros _; by eexists. Qed.

(** X19. [identifySecrets] returns exactly for the arrays whose elements
    are all strings, and throws a type error for anything else. What it
    returns is a sublist of the names, in their order, and filtering it
    again changes nothing. *)
Theorem identifySecrets_total_on_string_arrays :
  (∀ names, ∃ flagged,
     InfrastructureManager.identifySecrets (Arr (Str <$> names)) = Return (Arr (Str <$> flagged))
     ∧ flagged `sublist_of` names
     ∧ InfrastructureManager.identifySecrets (Arr (Str <$> flagged))
       = Return (Arr (Str <$> flagged)))
  ∧ (∀ elems bad, bad ∈ elems → Contract.is_string bad = false →
       ∃ msg, InfrastructureManager.identifySecrets (Arr elems) = Throw (TypeError msg))
  ∧ (∀ envVars, (∀ elems, envVars ≠ Arr elems) →
       ∃ msg, InfrastructureManager.identifySecrets envVars = Throw (TypeError msg)).
Proof.
  split; [|split].
  - intros names. exists (filter (λ n, Spec.is_secret n = true) names).
    rewrite !identifySecrets_filter. split; [done|]. split; [apply sublist_filter|].
    by rewrite list_filter_filter_l.
  - intros elems bad Hin Hbad. unfold InfrastructureManager.identifySecrets, method_filter.
    destruct (filter_elems_throws _ elems bad Hin secret_pattern_string secret_pattern_other
                Hbad) as [msg ->].
    by exists msg.
  - intros envVars Hnot. destruct envVars; try by eexists. by destruct (Hnot elems).
Qed.

(** ** Display steps for a stored analysis *)




(** ** Rules that never decide *)

Lemma strict_eq_str_false a s : strict_eq a (Str s) = false → a ≠ Str s.
Proof. intros H ->. cbn in H. by rewrite String.eqb_refl in H. Qed.

Lemma strict_eq_str_true a s : strict_eq a (Str s) = true → a = Str s.
Proof. destruct a; try done. cbn. by intros ->%String.eqb_eq. Qed.

Lemma choose_type strategy t reason :
  member (InfrastructureManager.choose strategy t reason) "type" = t.
Proof.
  unfold InfrastructureManager.choose. rewrite member_set_ne by done. apply member_set_eq.
Qed.

(** X21. When the intent names no deployment type and the strategy comes
    out as kubernetes, the description asked for high traffic or for high
    availability. The two other conditions of [shouldUseKubernetes], high
    scaling requirements and more than one database, never decide: any
    database requirement and high scaling requirements already select a
    container one rule earlier. *)
Theorem kubernetes_needs_traffic_or_availability (code nlp strategy decided : list (string * value))
    (Hcode : Contract.code_shape code) (Hintent : Contract.intent_shape nlp)
    (Hunnamed : truthy (member nlp "deploymentType") = false)
    (Hdecided : InfrastructureManager.decideStrategy strategy (Obj code) (Obj nlp)
                = Return decided)
    (Hkubernetes : member decided "type" = Str "kubernetes") :
  member nlp "scalingRequirements" ≠ Str "high"
  ∧ member code "databaseRequirements" = Arr []
  ∧ member code "dockerized" = Bool false
  ∧ (member nlp "estimatedTraffic" = Str "high"
     ∨ method_includes (member nlp "requirements") (Str "high-availability") = Return true).
Proof.
  destruct (shouldUseServerless_returns code nlp Hcode) as [v3 H3].
  destruct Hcode as [_ _ _ _ _ [l Hl] _ [b Hb] _]. destruct Hintent as [_ [r Hr]].
  revert Hdecided. unfold InfrastructureManager.decideStrategy. cbn [get]. unfold_monad.
  rewrite Hunnamed, H3, Hb.
  destruct (strict_eq _ (Str "static") || _).
  { intros [= <-]. by rewrite choose_type in Hkubernetes. }
  destruct (truthy v3).
  { intros [= <-]. by rewrite choose_type in Hkubernetes. }
  destruct b; cbn [truthy].
  { intros [= <-]. by rewrite choose_type in Hkubernetes. }
  unfold InfrastructureManager.shouldUseContainer. cbn [get]. unfold_monad.
  rewrite Hb, Hl. cbn [truthy get String.eqb Ascii.eqb Bool.eqb gt].
  destruct l as [|d l]; cbn [length].
  2:{ replace (0 <? Z.of_nat (S (length l))) with true by (symmetry; apply Z.ltb_lt; lia).
      cbn [truthy]. intros [= <-]. by rewrite choose_type in Hkubernetes. }
  cbn [Z.of_nat Z.ltb Z.compare].
  destruct (strict_eq (member nlp "scalingRequirements") (Str "high")) eqn:Hscaling.
  { cbn [truthy]. intros [= <-]. by rewrite choose_type in Hkubernetes. }
  apply strict_eq_str_false in Hscaling.
  destruct (method_includes _ (member code "framework")) as [fw|e]; [|done].
  cbn [truthy]. destruct fw.
  { intros [= <-]. by rewrite choose_type in Hkubernetes. }
  unfold InfrastructureManager.shouldUseKubernetes. cbn [get]. unfold_monad.
  rewrite Hl, Hr. cbn [get String.eqb Ascii.eqb Bool.eqb gt length Z.of_nat Z.ltb Z.compare].
  destruct (strict_eq (member nlp "estimatedTraffic") (Str "high")) eqn:Htraffic.
  { apply strict_eq_str_true in Htraffic. intros _. repeat split; try done. by left. }
  destruct (strict_eq (member nlp "scalingRequirements") (Str "high")) eqn:Hscaling'.
  { by apply strict_eq_str_true in Hscaling'. }
  cbn [method_includes]. destruct (existsb _ r) eqn:Havailable; cbn [truthy].
  - intros _. repeat split; try done. by right.
  - intros [= <-]. by rewrite choose_type in Hkubernetes.
Qed.

(** ** Optional sections of the deployment configuration *)

(** X22. For every well-formed analysis record the configuration gets a
    [database] section exactly when the code analysis lists a database
    or the intent asks for one, with the first listed engine, or
    postgresql when only the intent asked; a [storage] section exactly
    when the intent asks for storage; the application name is the first
    eight characters of the identifier after [app-]; and the secrets are
    the environment variables the substring rule flags. The identifier
    and the variable names are those of the ASCII range, where a
    character is one code unit and [toLowerCase] is the lowercasing of
    the language. *)
Theorem generateDeploymentConfig_optional_sections (ext : Externals)
    (analysis : list (string * value)) (deploymentId : string) (w : World)
    (Hanalysis : Contract.analysis (Obj analysis) = true)
    (Hid : ascii_only deploymentId = true)
    (Hascii : Spec.ascii_names analysis = true) :
  returns (InfrastructureManager.generateDeploymentConfig ext (Obj analysis) (Str deploymentId)) w
    (λ config _,
       ∃ props code nlp names dbs,
         config = Obj props
         ∧ member analysis "codeAnalysis" = Obj code
         ∧ member analysis "nlpAnalysis" = Obj nlp
         ∧ member code "environmentVariables" = Arr (Str <$> names)
         ∧ member code "databaseRequirements" = Arr dbs
         ∧ member props "appName" = Str ("app-" +:+ take_string 8 deploymentId)
         ∧ (if bool_decide (dbs = []) && negb (truthy (member nlp "databaseNeeded"))
            then member props "database" = Undefined
            else ∃ section,
                   member props "database" = Obj section
                   ∧ member section "engine" = or (default Undefined (head dbs)) (Str "postgresql"))
         ∧ (if truthy (member nlp "storageNeeded")
            then ∃ section, member props "storage" = Obj section
                            ∧ member section "encryption" = Bool true
            else member props "storage" = Undefined)
         ∧ member props "environment"
           = Obj [ ("variables", Arr (Str <$> names));
                   ("secrets", Arr (Str <$> filter (λ n, Spec.is_secret n = true) names)) ]).
Proof.
  revert Hanalysis. unfold Contract.analysis. rewrite !andb_true_iff.
  intros [[Hcode Hintent] Hstrategy].
  destruct (codeAnalysis_shape _ Hcode) as (code & Hc & Hcs).
  destruct (intentAnalysis_shape _ Hintent) as (nlp & Hn & Hns).
  destruct (member analysis "deploymentStrategy") as [| | | | | | |strategy|] eqn:Hs; try done.
  destruct (generateSecurityConfig_returns nlp Hns) as [security Hsec].
  destruct (generateMonitoringConfig_returns nlp Hns) as [monitoring Hmon].
  destruct (Contract.shape_environmentVariables _ Hcs) as [names Hnames].
  destruct (Contract.shape_databaseRequirements _ Hcs) as [dbs Hdbs].
  unfold InfrastructureManager.generateDeploymentConfig.
  apply returns_try_catch.
  apply returns_bind, returns_log.
  repeat wp_lift. rewrite Hc, Hn, Hs. repeat wp_lift.
  apply returns_bind. eapply returns_mono; [apply generateInfrastructureConfig_returns|].
  intros infrastructure w1 _.
  wp_lift.
  apply returns_bind. eapply returns_lift; [exact Hsec|].
  apply returns_bind. eapply returns_lift; [exact Hmon|].
  wp_lift. rewrite Hnames.
  apply returns_bind. eapply returns_lift; [apply identifySecrets_filter|].
  wp_lift. rewrite Hdbs. repeat wp_lift.
  assert (gt (Num (Z.of_nat (length dbs))) 0 = negb (bool_decide (dbs = []))) as Hlen.
  { destruct dbs; [done|]. cbn [gt length]. rewrite bool_decide_eq_false_2 by done.
    apply Z.ltb_lt. lia. }
  cbn [String.eqb Ascii.eqb Bool.eqb]. rewrite Hlen.
  assert (default Undefined (head dbs) = InfrastructureManager.first_elem (Arr dbs)) as Hfirst.
  { by destruct dbs. }
  apply returns_bind.
  destruct (truthy (member nlp "storageNeeded")) eqn:Hstorage.
  - apply returns_bind. unfold InfrastructureManager.generateStorageConfig.
    apply returns_bind, returns_now. apply returns_ret, returns_ret.
    apply returns_bind, returns_log, returns_ret.
    eexists _, code, nlp, names, dbs. do 5 (split; [done|]). rewrite Hstorage.
    destruct (bool_decide (dbs = [])), (truthy (member nlp "databaseNeeded"));
      cbn [negb orb andb]; lazy beta iota; (split; [reflexivity|]);
      (split; [first [reflexivity | eexists; split; [reflexivity|]; by rewrite Hfirst]|]);
      (split; [|reflexivity]); eexists; (split; reflexivity).
  - apply returns_ret. apply returns_bind, returns_log, returns_ret.
    eexists _, code, nlp, names, dbs. do 5 (split; [done|]). rewrite Hstorage.
    destruct (bool_decide (dbs = [])), (truthy (member nlp "databaseNeeded"));
      cbn [negb orb andb]; lazy beta iota; (split; [reflexivity|]);
      (split; [first [reflexivity | eexists; split; [reflexivity|]; by rewrite Hfirst]|]);
      (split; reflexivity).
Qed.

(** ** Machine images *)


(** ** File path validation *)

Lemma string_append_cons (x : ascii) (a b : string) : String x a +:+ b = String x (a +:+ b).
Proof. reflexivity. Qed.

Lemma string_append_assoc (a b c : string) : (a +:+ b) +:+ c = a +:+ b +:+ c.
Proof. induction a as [|x a IH]; [done|]. rewrite !string_append_cons. by f_equal. Qed.

Lemma string_append_nil (a : string) : a +:+ "" = a.
Proof. induction a as [|x a IH]; [done|]. rewrite string_append_cons. by f_equal. Qed.

Lemma string_append_nil_inv (a b : string) : a = a +:+ b → b = "".
Proof. induction a as [|x a IH]; [done|]. rewrite string_append_cons. intros [= H]. auto. Qed.

Lemma starts_with_append (a after : string) : starts_with a (a +:+ after) = true.
Proof. apply starts_with_spec. by exists after. Qed.

(** Joining a list that continues after a segment: everything before
    the segment is a fixed text in front. *)
Lemma concat_before (sep : string) (init : list string) (seg : string) (rest : list string) :
  String.concat sep (init ++ seg :: rest)
  = foldr (λ s acc, s +:+ sep +:+ acc) "" init +:+ String.concat sep (seg :: rest).
Proof.
  induction init as [|s init IH]; [done|].
  cbn [app foldr]. rewrite !string_append_assoc, <-IH.
  destruct init; reflexivity.
Qed.

Lemma absolute_sibling (init : list string) (last extra : string) (rest : list string) :
  starts_with (Paths.absolute (init ++ [last]))
              (Paths.absolute (init ++ (last +:+ extra) :: rest)) = true.
Proof.
  apply starts_with_spec. unfold Paths.absolute. rewrite !concat_before.
  destruct rest as [|r rest].
  - exists extra. cbn [String.concat]. by rewrite !string_append_assoc.
  - exists (extra +:+ "/" +:+ String.concat "/" (r :: rest)).
    cbn [String.concat]. by rewrite !string_append_assoc.
Qed.

Lemma absolute_prefix (allowed path : list string) :
  allowed `prefix_of` path →
  starts_with (Paths.absolute allowed) (Paths.absolute path) = true.
Proof.
  intros [below ->]. destruct (decide (allowed = [])) as [->|Hne].
  - apply starts_with_spec. by eexists.
  - destruct (exists_last Hne) as (init & last & ->). rewrite <-app_assoc. cbn [app].
    destruct below as [|b below].
    + apply starts_with_spec. exists "". by rewrite string_append_nil.
    + pose proof (absolute_sibling init last "" (b :: below)) as H.
      by rewrite string_append_nil in H.
Qed.

(** X24. [validateFilePath] compares the resolved paths as text. Every
    path inside the allowed directory is accepted and returned in
    resolved form, but so is every path whose resolved form continues
    the name of the allowed directory: a sibling whose name starts with
    that of the allowed directory, and anything below such a sibling,
    passes although it is outside. Whatever happens, the call leaves
    the state alone. *)
Theorem validateFilePath_compares_text (filePath allowedBasePath : string) (w : World) :
  let path := resolve w filePath in
  let allowed := resolve w allowedBasePath in
  let run := Paths.validateFilePath (Str filePath) (Str allowedBasePath) w in
  (run = (Return (Paths.absolute path), w)
   ∨ run = (Throw (Error "Invalid file path - outside allowed directory"), w))
  ∧ (allowed `prefix_of` path → run = (Return (Paths.absolute path), w))
  ∧ (∀ init last extra rest,
       allowed = init ++ [last] → path = init ++ (last +:+ extra) :: rest →
       run = (Return (Paths.absolute path), w)
       ∧ (extra ≠ "" → ¬ allowed `prefix_of` path)).
Proof.
  intros path allowed run.
  assert (run = if starts_with (Paths.absolute allowed) (Paths.absolute path)
                then (Return (Paths.absolute path), w)
                else (Throw (Error "Invalid file path - outside allowed directory"), w))
    as Hrun.
  { subst run. unfold Paths.validateFilePath, Paths.path_resolve, throw. unfold_monad.
    fold path allowed. by destruct (starts_with _ _). }
  split; [|split].
  - rewrite Hrun. destruct (starts_with _ _); auto.
  - intros Hprefix. by rewrite Hrun, absolute_prefix.
  - intros init last extra rest Hallowed Hpath. split.
    + by rewrite Hrun, Hallowed, Hpath, absolute_sibling.
    + intros Hextra [below Hbelow]. rewrite Hallowed, Hpath, <-app_assoc in Hbelow.
      apply app_inv_head in Hbelow. cbn [app] in Hbelow. injection Hbelow as Hlast _.
      by apply Hextra, (string_append_nil_inv last).
Qed.

(** ** Keyword extraction *)

Lemma lower_char_idempotent (c : ascii) : lower_char (lower_char c) = lower_char c.
Proof. by destruct c as [[] [] [] [] [] [] [] []]. Qed.

Lemma toLowerCase_idempotent (s : string) : toLowerCase (toLowerCase s) = toLowerCase s.
Proof.
  induction s as [|c s IH]; [done|]. cbn [toLowerCase]. by rewrite lower_char_idempotent, IH.
Qed.

Lemma strip_prefix_spec (pat s after : string) :
  NLPProcessor.strip_prefix pat s = Some after → s = pat +:+ after.
Proof.
  revert s. induction pat as [|p pat IH]; intros s; cbn [NLPProcessor.strip_prefix].
  - by intros [= ->].
  - destruct s as [|c s]; [done|]. destruct (Ascii.eqb_spec p c) as [->|]; [|done].
    intros H%IH. by rewrite H.
Qed.

Lemma includes_later (c : ascii) (s pat : string) :
  includes s pat = true → includes (String c s) pat = true.
Proof. intros H. cbn [includes]. rewrite H. apply orb_true_r. Qed.

Lemma includes_here (s pat : string) : starts_with pat s = true → includes s pat = true.
Proof. intros H. destruct s; cbn [includes]; by rewrite H. Qed.

Lemma search_includes (here : string → bool) (pat s : string) :
  (∀ s, here s = true → includes s pat = true) →
  NLPProcessor.search here s = true → includes s pat = true.
Proof.
  intros Hhere. induction s as [|c s IH]; cbn [NLPProcessor.search].
  - rewrite orb_false_r. apply Hhere.
  - intros [H|H]%orb_true_iff; [by apply Hhere|]. by apply includes_later, IH.
Qed.

Lemma auto_scale_includes_scale (s : string) :
  NLPProcessor.auto_scale_here s = true → includes s "scale" = true.
Proof.
  unfold NLPProcessor.auto_scale_here.
  destruct (NLPProcessor.strip_prefix "auto" s) as [after|] eqn:Hauto; [|done].
  apply strip_prefix_spec in Hauto as ->.
  intros [H|H]%orb_true_iff.
  - destruct after as [|c after]; [done|]. apply andb_true_iff in H as [_ H].
    by do 5 apply includes_later; apply includes_here.
  - by do 4 apply includes_later; apply includes_here.
Qed.

Lemma extractRequirements_lowered (text : string) :
  NLPProcessor.extractRequirements (toLowerCase text) = NLPProcessor.extractRequirements text.
Proof.
  unfold NLPProcessor.extractRequirements, NLPProcessor.test_words.
  by rewrite !toLowerCase_idempotent.
Qed.

(** X25. The requirements read from a description are a selection of
    the five tags, always in the same order, and depend on the text
    only up to letter case. The tag auto-scaling is given exactly when
    the text contains scale or scalable: the third alternative of its
    pattern, [auto.?scale], never adds a match. *)
Theorem extractRequirements_selects_tags (text : string) :
  ∃ tags,
    NLPProcessor.extractRequirements text = Arr (Str <$> tags)
    ∧ tags `sublist_of`
        ["security"; "performance"; "auto-scaling"; "high-availability"; "cost-optimization"]
    ∧ ("auto-scaling" ∈ tags ↔ NLPProcessor.test_words ["scale"; "scalable"] text = true)
    ∧ NLPProcessor.extractRequirements (toLowerCase text) = Arr (Str <$> tags).
Proof.
  eexists. rewrite extractRequirements_lowered.
  split; [reflexivity|]. split; [|split; [|reflexivity]].
  - repeat match goal with |- context [if ?b then _ else _] => destruct b end;
      cbn [app]; repeat first [apply sublist_nil | apply sublist_skip | apply sublist_cons].
  - assert (NLPProcessor.test_words ["scale"; "scalable"] text
            || NLPProcessor.search NLPProcessor.auto_scale_here (toLowerCase text)
            = NLPProcessor.test_words ["scale"; "scalable"] text) as ->.
    { destruct (NLPProcessor.search _ _) eqn:Hauto; [|apply orb_false_r].
      apply (search_includes _ "scale") in Hauto; [|apply auto_scale_includes_scale].
      unfold NLPProcessor.test_words. cbn [existsb]. by rewrite Hauto. }
    destruct (NLPProcessor.test_words ["scale"; "scalable"] text);
      repeat match goal with |- context [if ?b then _ else _] => destruct b end;
      cbn [app]; (split; [try done|try done]);
      rewrite ?elem_of_cons, ?elem_of_nil; intros; try tauto; destruct_or?; done.
Qed.

Lemma first_keyword_none (keywords : list string) (lowered : string) :
  NLPProcessor.first_keyword keywords lowered = None →
  ∀ k, k ∈ keywords → includes lowered k = false.
Proof.
  unfold NLPProcessor.first_keyword. intros Hnone k Hin.
  apply list_elem_of_In in Hin. apply (find_none _ _ Hnone k Hin).
Qed.

Lemma first_keyword_head (k : string) (keywords : list string) (lowered : string) :
  includes lowered k = true → NLPProcessor.first_keyword (k :: keywords) lowered = Some k.
Proof. intros H. unfold NLPProcessor.first_keyword. cbn [find]. by rewrite H. Qed.

Lemma first_keyword_deploymentTypes (lowered : string) :
  match NLPProcessor.first_keyword NLPProcessor.deploymentTypes lowered with
  | Some k =>
      NLPProcessor.normalizeDeploymentType k
      ∈ [Str "serverless"; Str "container"; Str "vm"; Str "kubernetes"]
      ∧ (k ∈ ["ecs"; "fargate"] → NLPProcessor.normalizeDeploymentType k = Str "vm")
  | None => True
  end.
Proof.
  unfold NLPProcessor.first_keyword, NLPProcessor.deploymentTypes. cbn [find].
  repeat match goal with
         | |- context [if includes lowered ?k then _ else _] =>
             destruct (includes lowered k);
             [lazy beta iota;
              let v := eval vm_compute in (NLPProcessor.normalizeDeploymentType k) in
              change (NLPProcessor.normalizeDeploymentType k) with v;
              split; [rewrite !elem_of_cons; tauto
                     |first [by intros _
                            |intros H; rewrite !elem_of_cons, elem_of_nil in H;
                             by destruct_or!]]|]
         end.
  done.
Qed.

Lemma first_keyword_cloudProviders (lowered : string) :
  match NLPProcessor.first_keyword NLPProcessor.cloudProviders lowered with
  | Some k => NLPProcessor.normalizeCloudProvider k ∈ [Str "aws"; Str "azure"; Str "gcp"]
  | None => True
  end.
Proof.
  unfold NLPProcessor.first_keyword, NLPProcessor.cloudProviders. cbn [find].
  repeat match goal with
         | |- context [if includes lowered ?k then _ else _] =>
             destruct (includes lowered k);
             [lazy beta iota;
              let v := eval vm_compute in (NLPProcessor.normalizeCloudProvider k) in
              change (NLPProcessor.normalizeCloudProvider k) with v;
              rewrite !elem_of_cons; tauto|]
         end.
  done.
Qed.

Lemma member_set_option (k k' : string) (f : string → value) (o : option string)
    (a : list (string * value)) :
  k ≠ k' → member (match o with Some x => set k' (f x) a | None => a end) k = member a k.
Proof. intros Hne. destruct o; [by apply member_set_ne | done]. Qed.

(** Reading a field through the updates of the keyword pass that write
    other fields. *)
Ltac peel_keywords :=
  repeat first [rewrite member_set_ne by done | rewrite member_set_option by done].

(** X26. The keyword pass returns for every string of the ASCII range
    and rejects everything that is not a string with a type error. The deployment type it names is
    one of serverless, container, vm and kubernetes, never static, and
    the record keeps its previous deployment type exactly when no
    keyword occurs. The order of the keyword list decides, not the
    order in the text: a description that mentions serverless is
    serverless whatever else it mentions, and one that only mentions
    ecs or fargate is a vm. The cloud provider is aws, azure or gcp, or
    stays as it was. Letter case plays no role. *)
Theorem extractKeywords_names_four_types (text : string) (analysis : list (string * value))
    (Hascii : ascii_only text = true) :
  let lowered := toLowerCase text in
  ∃ extracted,
    NLPProcessor.extractKeywords (Str text) analysis = Return extracted
    ∧ (member extracted "deploymentType"
         ∈ [Str "serverless"; Str "container"; Str "vm"; Str "kubernetes"]
       ∨ member extracted "deploymentType" = member analysis "deploymentType"
         ∧ ∀ k, k ∈ NLPProcessor.deploymentTypes → includes lowered k = false)
    ∧ (includes lowered "serverless" = true →
       member extracted "deploymentType" = Str "serverless")
    ∧ (∀ k, NLPProcessor.first_keyword NLPProcessor.deploymentTypes lowered = Some k →
            k ∈ ["ecs"; "fargate"] → member extracted "deploymentType" = Str "vm")
    ∧ (member extracted "cloudProvider" ∈ [Str "aws"; Str "azure"; Str "gcp"]
       ∨ member extracted "cloudProvider" = member analysis "cloudProvider"
         ∧ ∀ k, k ∈ NLPProcessor.cloudProviders → includes lowered k = false)
    ∧ NLPProcessor.extractKeywords (Str lowered) analysis = Return extracted
    ∧ ∀ description, Contract.is_string description = false →
        ∃ msg, NLPProcessor.extractKeywords description analysis = Throw (TypeError msg).
Proof.
  intros lowered. subst lowered. set (lowered := toLowerCase text).
  eexists. split; [reflexivity|]. cbn [method_toLowerCase to_string]. fold lowered.
  pose proof (first_keyword_deploymentTypes lowered) as Htypes.
  pose proof (first_keyword_cloudProviders lowered) as Hproviders.
  split; [|split; [|split; [|split; [|split]]]].
  - peel_keywords.
    destruct (NLPProcessor.first_keyword NLPProcessor.deploymentTypes lowered) as [k|] eqn:Hk.
    + left. rewrite member_set_eq. apply Htypes.
    + right. split; [|by apply first_keyword_none]. by peel_keywords.
  - intros Hserverless. peel_keywords. unfold NLPProcessor.deploymentTypes.
    rewrite (first_keyword_head "serverless" _ lowered Hserverless). by rewrite member_set_eq.
  - intros k Hk Hin. peel_keywords. rewrite Hk in Htypes |- *. rewrite member_set_eq.
    by apply Htypes.
  - peel_keywords.
    destruct (NLPProcessor.first_keyword NLPProcessor.cloudProviders lowered) as [k|] eqn:Hk.
    + left. by rewrite member_set_eq.
    + right. split; [done|]. by apply first_keyword_none.
  - unfold NLPProcessor.extractKeywords, lowered. cbn [method_toLowerCase to_string].
    unfold_monad. by rewrite extractRequirements_lowered, !toLowerCase_idempotent.
  - intros description Hnot. destruct description; try done; by eexists.
Qed.

(** ** Routes *)

Section Yields.
Context {A B : Type}.
Implicit Types (m : M A) (k : A → M B) (w : World).

(** A property of the returned value that holds wherever the
    continuation is run from holds for the sequence. *)
Lemma outcome_bind_any m k w (Qr : B → World → Prop) (Qt : error → World → Prop) :
  (∀ a w', Frame.outcome (k a) w' Qr Qt) → (∀ e w', m w = (Throw e, w') → Qt e w') →
  Frame.outcome (m ≫= k) w Qr Qt.
Proof.
  intros Hk Hm. unfold Frame.outcome in *. unfold_monad.
  destruct (m w) as [[a|e] w'] eqn:Hrun; [apply Hk | by apply Hm].
Qed.

Lemma outcome_try_catch_any m (h : error → M A) w (Qr : A → World → Prop)
    (Qt : error → World → Prop) :
  Frame.outcome m w Qr (λ _ _, True) → (∀ e w', Frame.outcome (h e) w' Qr Qt) →
  Frame.outcome (try_catch m h) w Qr Qt.
Proof.
  intros Hm Hh. unfold Frame.outcome, try_catch in *.
  destruct (m w) as [[a|e] w']; [done | apply Hh].
Qed.

End Yields.

Section RouteLemmas.
Context (ext : Externals) (deploymentId : string).

(** Whatever the status lookup returns has no [steps] property, and it
    throws nothing but the not-found error, and only for an id that is
    not in memory. *)
Lemma getDeploymentStatus_outcomes w :
  Frame.outcome (DeploymentService.getDeploymentStatus ext deploymentId) w
    (λ polled _, ∃ props, polled = Obj props ∧ member props "steps" = Undefined
                          ∧ member props "deploymentId" = Str deploymentId)
    (λ e _, e = Error "Deployment not found" ∧ deployments w !! deploymentId = None).
Proof.
  unfold DeploymentService.getDeploymentStatus.
  unfold Frame.outcome. erewrite bind_run by reflexivity.
  destruct (deployments w !! deploymentId) as [o|] eqn:Hknown.
  { erewrite bind_run by reflexivity. eexists. split; [reflexivity|]. by split. }
  apply (outcome_try_catch_any _ _ w).
  - repeat first
      [ apply outcome_bind_any; [intros ? ?|done]
      | apply outcome_try_catch_any; [|intros ? ?]
      | match goal with
        | |- Frame.outcome (if ?b then _ else _) _ _ _ => destruct b
        | |- Frame.outcome (mret (Obj _)) _ _ _ =>
            unfold Frame.outcome; eexists; split; [reflexivity|]; by split
        | |- Frame.outcome (throw _) _ _ _ => exact I
        end ].
  - intros e w'. apply outcome_bind_any; [|done]. intros _ w''. by split.
Qed.

Lemma getDeploymentStatus_cases w :
  (∃ props w', DeploymentService.getDeploymentStatus ext deploymentId w = (Return (Obj props), w')
               ∧ member props "steps" = Undefined)
  ∨ (∃ w', DeploymentService.getDeploymentStatus ext deploymentId w
           = (Throw (Error "Deployment not found"), w')
           ∧ deployments w !! deploymentId = None).
Proof.
  pose proof (getDeploymentStatus_outcomes w) as H. unfold Frame.outcome in H.
  destruct (DeploymentService.getDeploymentStatus ext deploymentId w) as [[polled|e] w'].
  - destruct H as (props & -> & Hsteps & _). left. by eexists _, _.
  - destruct H as [-> Habsent]. right. by eexists.
Qed.

(** X27. No route shows the steps of a deployment. The status lookup
    behind the status, steps and instructions routes never returns a
    [steps] property, so the steps route answers with an empty list
    whenever it answers 200, also for a record that has steps in
    memory. The three routes fail only with status 500 and the message
    Deployment not found, and only for an id that is not in memory:
    there is no 404, and a handler never throws. *)
Theorem steps_route_never_lists_steps (w : World) :
  let answers (route : string → M Routes.response) (text : string) :=
    ∃ response w',
      route deploymentId w = (Return response, w')
      ∧ (Routes.code response = 200
         ∨ response
           = Routes.mkResponse 500
               [ ("success", Bool false); ("error", Str text);
                 ("message", Str "Deployment not found") ]
           ∧ deployments w !! deploymentId = None) in
  (∃ w',
     Routes.steps ext deploymentId w
     = (Return
          (match (DeploymentService.getDeploymentStatus ext deploymentId w).1 with
           | Return _ =>
               Routes.mkResponse 200
                 [ ("success", Bool true); ("deploymentId", Str deploymentId);
                   ("steps", Arr []) ]
           | Throw _ =>
               Routes.mkResponse 500
                 [ ("success", Bool false); ("error", Str "Failed to get deployment steps");
                   ("message", Str "Deployment not found") ]
           end), w'))
  ∧ answers (Routes.status ext) "Failed to get deployment status"
  ∧ answers (Routes.steps ext) "Failed to get deployment steps"
  ∧ answers (Routes.instructions ext) "Failed to get deployment instructions".
Proof.
  intros answers. subst answers. cbv beta.
  unfold Routes.steps, Routes.status, Routes.instructions, Routes.json, Routes.status_json,
    try_catch, lift, log. unfold_monad.
  destruct (getDeploymentStatus_cases w) as [(props & w' & -> & Hsteps)|(w' & -> & Habsent)].
  - cbn [get fst]. rewrite Hsteps. cbn [or truthy].
    split; [by eexists|]. split; [|split].
    + eexists _, _. split; [reflexivity|]. by left.
    + eexists _, _. split; [reflexivity|]. by left.
    + destruct (truthy (member props "instructions"));
        (eexists _, _; split; [reflexivity|]; by left).
  - cbn [fst message]. split; [by eexists|].
    split; [|split]; (eexists _, _; split; [reflexivity|]; by right).
Qed.

(** Whenever the analysis returns, the record it returns is stored
    under the id with status analyzed. *)
Lemma analyzeApplication_outcomes (description repositoryUrl uploadedFile : value) w :
  Frame.outcome
    (DeploymentService.analyzeApplication ext deploymentId description repositoryUrl
       uploadedFile) w
    (λ o w', deployments w' !! deploymentId = Some o
             ∧ ∃ record, heap w' !! o = Some record
                         ∧ member record "status" = Str "analyzed"
                         ∧ member record "deploymentId" = Str deploymentId
                         ∧ member record "description" = description)
    (λ _ _, True).
Proof.
  unfold DeploymentService.analyzeApplication.
  apply outcome_try_catch_any.
  2:{ intros e w'. apply outcome_bind_any; [|done]. intros _ w''. exact I. }
  do 7 (apply outcome_bind_any; [intros ? ?|done]).
  unfold Frame.outcome.
  erewrite bind_run by reflexivity. world_simpl.
  erewrite bind_run by reflexivity. world_simpl.
  unfold_monad. unfold lift, log.
  repeat match goal with |- context [get ?v ?k] => destruct (get v k); [|exact I] end.
  world_simpl. split; [by rewrite lookup_insert_eq|].
  eexists. split; [by rewrite lookup_insert_eq|]. by repeat split.
Qed.

(** X28. The handler of the analyze route validates before it acts.
    It runs after the request logger and the upload middleware; without
    a description, or with neither a repository URL nor an uploaded
    file, it answers 400 and leaves the state exactly as it found it: it
    writes no log entry, creates no directory, stores no record, and
    does not remove a file the middleware stored. Otherwise it answers
    200 with the record the analysis stored under the fresh id, whose
    status is analyzed, or 500 with the message of the failure; it never
    throws. *)
Theorem analyze_route_validates_first (body : list (string * value)) (file : value)
    (w : World) :
  let description := member body "description" in
  let repositoryUrl := member body "repositoryUrl" in
  let run := Routes.analyze ext deploymentId body file w in
  (truthy description = false →
   run = (Return (Routes.mkResponse 400
                    [ ("success", Bool false);
                      ("error", Str "Missing required field: description") ]), w))
  ∧ (truthy description = true → truthy repositoryUrl = false → truthy file = false →
     run = (Return (Routes.mkResponse 400
                      [ ("success", Bool false);
                        ("error",
                         Str "Either repositoryUrl or codebase file must be provided") ]), w))
  ∧ (truthy description = true → truthy repositoryUrl || truthy file = true →
     ∃ response w',
       run = (Return response, w')
       ∧ ((∃ o record,
             response
             = Routes.mkResponse 200
                 [ ("success", Bool true); ("deploymentId", Str deploymentId);
                   ("analysis", Obj record);
                   ("message", Str "Application analysis completed successfully") ]
             ∧ deployments w' !! deploymentId = Some o ∧ heap w' !! o = Some record
             ∧ member record "status" = Str "analyzed"
             ∧ member record "description" = description)
          ∨ ∃ text,
              response
              = Routes.mkResponse 500
                  [ ("success", Bool false); ("deploymentId", Str deploymentId);
                    ("error", Str "Analysis failed"); ("message", Str text) ])).
Proof.
  intros description repositoryUrl run. subst run.
  unfold Routes.analyze. fold description repositoryUrl.
  split; [|split].
  - intros ->. reflexivity.
  - intros -> -> ->. reflexivity.
  - intros -> Hsource.
    assert (negb (truthy repositoryUrl) && negb (truthy file) = false) as ->.
    { by destruct (truthy repositoryUrl), (truthy file). }
    cbn [negb]. unfold try_catch at 1.
    erewrite bind_run by reflexivity.
    match goal with |- context [(DeploymentService.analyzeApplication _ _ _ _ _ ≫= _) ?w0] =>
      pose proof (analyzeApplication_outcomes description repositoryUrl file w0) as Hrun;
      unfold Frame.outcome in Hrun;
      destruct (DeploymentService.analyzeApplication ext deploymentId description
                  repositoryUrl file w0) as [[o|e] w1] eqn:Hanalysis
    end.
    + destruct Hrun as (Hid & record & Hrecord & Hstatus & _ & Hdescription).
      erewrite bind_run by exact Hanalysis.
      erewrite bind_run by reflexivity. rewrite Hrecord. cbn [default from_option].
      eexists _, _. split; [reflexivity|]. left. by exists o, record.
    + unfold_monad. rewrite Hanalysis.
      eexists _, _. split; [reflexivity|]. right. by eexists.
Qed.

End RouteLemmas.

(** ** The clone directory *)









(** ** Instances of the general statements *)

Lemma applyInfrastructure_stops_at_first_failure_witness :
  throws (TerraformService.applyInfrastructure Scenario.plan_fails (Obj Scenario.config))
    Sample.boot
    (λ e w',
       e = Error "Terraform command failed with code 1: Error: No valid credential sources found"
       ∧ spawned w' = [("terraform", ["init"]); ("terraform", ["plan"])]).
Proof.
  eapply throws_mono.
  - apply (applyInfrastructure_stops_at_first_failure Scenario.plan_fails Scenario.config
             "dep-1" Scenario.terraformDir Sample.boot eq_refl eq_refl
             1%nat ["plan"] 1 "" "Error: No valid credential sources found" []).
    + reflexivity.
    + intros [|j] earlier Hj Hearlier w'; [|lia]. injection Hearlier as <-.
      by eexists _, _, _.
    + intros w'. reflexivity.
    + done.
  - intros e w' [He (Hs & _)]. split; [exact He|exact Hs].
Defined.



Lemma applied_infrastructure_gets_made_up_url_witness :
  (TerraformService.applyInfrastructure (Sample.externals Null Null Sample.outputs)
     (Obj Scenario.config) Sample.boot).1 = Return Scenario.applied
  ∧ InfrastructureManager.generatePublicUrl (Sample.externals Null Null Sample.outputs)
      Scenario.applied (Obj []) Sample.boot
    = (Return (Str "http://ec2-0-0-0-0.us-east-1.compute.amazonaws.com:8080"), Sample.boot).
Proof.
  assert ((TerraformService.applyInfrastructure (Sample.externals Null Null Sample.outputs)
             (Obj Scenario.config) Sample.boot).1 = Return Scenario.applied) as Hrun.
  { vm_compute. reflexivity. }
  split; [exact Hrun|].
  destruct (TerraformService.applyInfrastructure (Sample.externals Null Null Sample.outputs)
              (Obj Scenario.config) Sample.boot) as [result w'] eqn:Happlied.
  cbn [fst] in Hrun. subst result.
  exact (proj1 (applied_infrastructure_gets_made_up_url _ _ _ _ _ Happlied) [] Sample.boot).
Defined.

Lemma getDeploymentStatus_in_memory_witness :
  ∃ progress,
    DeploymentService.getDeploymentStatus (Sample.externals Null Null Null) "dep-1"
      Sample.completed
    = (Return (Obj [ ("deploymentId", Str "dep-1"); ("status", Str "completed");
                     ("timestamp", Undefined); ("publicUrl", Undefined);
                     ("error", Undefined); ("progress", Num progress);
                     ("instructions", Null) ]), Sample.completed)
    ∧ progress ∈ [0; 33; 67; 100].
Proof.
  destruct (getDeploymentStatus_in_memory (Sample.externals Null Null Null) Sample.completed
              "dep-1" 0%nat [ ("deploymentId", Str "dep-1"); ("status", Str "completed") ]
              eq_refl eq_refl) as (progress & Hrun & Hin & _).
  by exists progress.
Defined.

Lemma getDeploymentStatus_from_disk_witness :
  throws (DeploymentService.getDeploymentStatus (Sample.externals Null Null Null) "dep-1")
    Sample.boot
    (λ e w', e = Error "Deployment not found" ∧ Frame.inert Sample.boot w')
  ∧ returns (DeploymentService.getDeploymentStatus (Sample.externals Null Null Null) "dep-1")
      Scenario.provisioned
      (λ polled w',
         get polled "status" = Return (Str "unknown")
         ∧ get polled "progress" = Return (Num 50)
         ∧ get polled "publicUrl" = Return Null
         ∧ Frame.inert Scenario.provisioned w').
Proof.
  split.
  - destruct (getDeploymentStatus_from_disk (Sample.externals Null Null Null) Sample.boot
                "dep-1" eq_refl)
      as (deploymentDir & terraformDir & stateFile & _ & _ & _ & _ & H).
    apply H. intros [Hdir _]. by apply elem_of_empty in Hdir.
  - destruct (getDeploymentStatus_from_disk (Sample.externals Null Null Null)
                Scenario.provisioned "dep-1" eq_refl)
      as (deploymentDir & terraformDir & stateFile & Hdir & Hterraform & Hstate & Hfound & _).
    vm_compute in Hdir. injection Hdir as <-.
    vm_compute in Hterraform. injection Hterraform as <-.
    vm_compute in Hstate. injection Hstate as <-.
    eapply returns_mono; [apply Hfound|].
    + apply elem_of_list_to_set, list_elem_of_In. vm_compute. tauto.
    + apply elem_of_list_to_set, list_elem_of_In. vm_compute. tauto.
    + intros polled w' [-> Hinert]. do 3 (split; [reflexivity|]). exact Hinert.
Defined.


Lemma updateDeploymentStatus_stores_a_copy_witness :
  returns (DeploymentService.updateDeploymentStatus (Sample.externals Null Null Null)
             "dep-1" "failed" "Deployment failed: boom" Null (Some (Error "boom")))
    Sample.completed
    (λ _ w', ∃ o updated,
        deployments w' !! "dep-1" = Some o ∧ heap w' !! o = Some updated
        ∧ o ≠ 0%nat ∧ heap w' !! 0%nat = heap Sample.completed !! 0%nat
        ∧ member updated "status" = Str "failed"
        ∧ member updated "error" = Str "boom").
Proof.
  eapply returns_mono.
  - exact (updateDeploymentStatus_stores_a_copy (Sample.externals Null Null Null)
             Sample.completed "dep-1" "failed" "Deployment failed: boom" Null
             (Some (Error "boom")) [] eq_refl).
  - intros _ w' (o & updated & Hfresh & Hd & Hh & Hkept & _ & Hstatus & _ & _ & Herror & _).
    exists o, updated. rewrite Hd, Hh, !lookup_insert_eq.
    split; [done|]. split; [done|].
    split; [intros ->; vm_compute in Hfresh; discriminate|].
    split; [rewrite <-Hh; apply Hkept; eexists; reflexivity|].
    split; [exact Hstatus|]. exact (Herror (Error "boom") eq_refl).
Defined.

Lemma processChatDeployment_records_failed_clone_witness :
  throws (DeploymentService.processChatDeployment Scenario.clone_fails "dep-1"
            (Str "Deploy my Flask app on AWS") (Str "https://example/repo") Undefined)
    Sample.boot
    (λ thrown w',
       thrown = Error "Failed to clone repository: Repository not found"
       ∧ ∃ record, Spec.record_of w' "dep-1" = Some record
                   ∧ member record "status" = Str "failed").
Proof.
  eapply throws_mono.
  - apply (processChatDeployment_records_failed_clone Scenario.clone_fails Sample.boot "dep-1"
             "https://example/repo" (Str "Deploy my Flask app on AWS") Undefined
             (Error "Repository not found")).
    + done.
    + intros clonePath w'. reflexivity.
  - intros thrown w' (Hthrown & record & analyzing & failed & Hrecord & Hstatus & _).
    split; [exact Hthrown|]. by exists record.
Defined.

Lemma analyzeApplication_stores_fresh_record_witness :
  returns (DeploymentService.analyzeApplication Sample.flask_run "dep-1"
             (Str "Deploy my Flask app on AWS") (Str "https://example/repo") Undefined)
    Sample.boot
    (λ o w', deployments w' !! "dep-1" = Some o ∧ Spec.steps_of w' "dep-1" = Some []).
Proof.
  eapply returns_mono.
  - apply (analyzeApplication_stores_fresh_record Sample.flask_run Sample.boot "dep-1"
             "https://example/repo" (Str "Deploy my Flask app on AWS") Undefined
             (Sample.flask (Num 5000)) (Sample.intent (Str "vm"))).
    + done.
    + intros clonePath w'. reflexivity.
    + intros codebasePath w'. reflexivity.
    + intros w'. reflexivity.
    + split; reflexivity.
    + intros named [= <-]. cbn [to_string]. unfold Contract.throwing_members.
      rewrite !elem_of_cons, elem_of_nil. intros H. destruct_or!; discriminate.
  - intros o w' (strategy & codebasePath & _ & Hd & _ & Hsteps).
    split; [|exact Hsteps]. rewrite Hd. apply lookup_insert_eq.
Defined.



Lemma kubernetes_needs_traffic_or_availability_witness :
  InfrastructureManager.decideStrategy InfrastructureManager.initial_strategy
    (Sample.flask Null) (Obj Scenario.busy_intent)
  = Return (InfrastructureManager.choose InfrastructureManager.initial_strategy
              (Str "kubernetes") "Complex application requiring orchestration")
  ∧ member Scenario.busy_intent "estimatedTraffic" = Str "high"
  ∧ member (Sample.flask_props Null) "databaseRequirements" = Arr [].
Proof.
  split; [reflexivity|]. split; [reflexivity|].
  destruct (codeAnalysis_shape (Sample.flask Null) eq_refl) as (code & Hcode & Hshape).
  injection Hcode as <-.
  destruct (intentAnalysis_shape (Obj Scenario.busy_intent) eq_refl) as (nlp & Hnlp & Hintent).
  injection Hnlp as <-.
  exact (proj1 (proj2 (kubernetes_needs_traffic_or_availability (Sample.flask_props Null)
                         Scenario.busy_intent InfrastructureManager.initial_strategy _
                         Hshape Hintent eq_refl eq_refl eq_refl))).
Defined.

Lemma generateDeploymentConfig_optional_sections_witness :
  returns
    (InfrastructureManager.generateDeploymentConfig (Sample.externals Null Null Null)
       (Obj Scenario.stateful) (Str "dep-1-of-many")) Sample.boot
    (λ config _,
       ∃ database storage,
         get config "appName" = Return (Str "app-dep-1-of")
         ∧ get config "database" = Return (Obj database)
         ∧ member database "engine" = Str "mysql"
         ∧ get config "storage" = Return (Obj storage)
         ∧ member storage "encryption" = Bool true
         ∧ get config "environment"
           = Return (Obj [ ("variables", Arr [Str "DB_PASSWORD"; Str "DB_HOST"]);
                           ("secrets", Arr [Str "DB_PASSWORD"]) ])).
Proof.
  eapply returns_mono.
  - exact (generateDeploymentConfig_optional_sections (Sample.externals Null Null Null)
             Scenario.stateful "dep-1-of-many" Sample.boot eq_refl eq_refl eq_refl).
  - intros config _ (props & code & nlp & names & dbs & -> & Hcode & Hnlp & Hnames & Hdbs
                     & Hname & Hdatabase & Hstorage & Henvironment).
    injection Hcode as <-. injection Hnlp as <-. injection Hdbs as <-.
    destruct names as [|first [|second [|third names]]]; try discriminate Hnames.
    injection Hnames as <- <-.
    destruct Hdatabase as (database & Hdatabase & Hengine).
    destruct Hstorage as (storage & Hstorage & Hencryption).
    exists database, storage. cbn [get].
    rewrite Hname, Hdatabase, Hstorage, Henvironment. by repeat split.
Defined.


Lemma extractKeywords_names_four_types_witness :
  ∃ extracted,
    NLPProcessor.extractKeywords (Str "Run my API serverless on Kubernetes in Azure") []
    = Return extracted
    ∧ member extracted "deploymentType" = Str "serverless"
    ∧ member extracted "cloudProvider" ∈ [Str "aws"; Str "azure"; Str "gcp"].
Proof.
  pose proof (extractKeywords_names_four_types
                "Run my API serverless on Kubernetes in Azure" [] eq_refl) as Hrun.
  cbv zeta in Hrun.
  destruct Hrun as (extracted & Hrun & _ & Hserverless & _ & [Hprovider|[_ Hnone]] & _).
  - exists extracted. split; [exact Hrun|]. split; [|exact Hprovider].
    apply Hserverless. vm_compute. reflexivity.
  - assert ("azure" ∈ NLPProcessor.cloudProviders) as Hazure.
    { unfold NLPProcessor.cloudProviders. rewrite !elem_of_cons. auto 10. }
    apply Hnone in Hazure. vm_compute in Hazure. discriminate Hazure.
Defined.
